(** * Infra-red remote control support of WLED: [wled00/ir.cpp]

    A shallow embedding of the IR dispatch code: the action support
    functions, the [Action] objects with their repeat bookkeeping, the
    [KeyMap] tables of the remotes, [presetButtonsConfigured],
    [handleIRCode] and the polling entry point [handleIR].

    Conventions.
    - C integers are [Z]; every narrowing store writes its wrap-around out
      ([to_byte], [to_uint32]).
    - The file-level and function-level statics of [ir.cpp] are the fields
      of [State]; the globals of the rest of the firmware that [ir.cpp]
      reads or writes are the fields of [Globals].
    - Code of the firmware that lives outside [ir.cpp] ([powerOff],
      [colorFromUint24], [applyPreset], [colorUpdated], the [IRrecv] class,
      the values of the preprocessor macros) is abstract: it is the content
      of the classes [Externals] and [Collaborators].
    - Behaviour that C leaves undefined (indexing [buttonActions] or the
      preset cache out of range, following the null mapping of the disabled
      remote, running off a table that lacks its null entry, [%] by zero)
      is the result [None].
    - Output on [Serial] takes no time: it is recorded and the clock stays.
      So the two readings of [millis()] in [operator()], and the two in
      [handleIR], are one reading.
    - [trace] and [keymap_reads] are instrumentation: the calls made to the
      collaborators, in order, and the number of [KeyMap] entries whose
      [irCode] was read. *)

From Stdlib Require Import ZArith List String Bool Lia Sorted.
Import ListNotations.

Open Scope string_scope.
Open Scope list_scope.
Open Scope Z_scope.

(** ** Machine integers *)

(** Store into a [byte] / [uint8_t]. *)
Definition to_byte (z : Z) : Z := z mod 256.

(** Store into a [uint32_t] / [unsigned long] (32 bits on the ESP targets). *)
Definition to_uint32 (z : Z) : Z := z mod 2 ^ 32.

(** Unsigned 32-bit subtraction, as in [millis() - then]. *)
Definition sub_uint32 (a b : Z) : Z := to_uint32 (a - b).

(** The option monad carries undefined behaviour through the calls. *)
Definition bind {A B : Type} (m : option A) (k : A -> option B) : option B :=
  match m with
  | Some a => k a
  | None => None
  end.

Notation "x <- m ;; k" := (bind m (fun x => k))
  (at level 61, m at next level, right associativity).
Notation "' p <- m ;; k" := (bind m (fun x => match x with p => k end))
  (at level 61, p pattern, m at next level, right associativity).

(** ** The enumeration of the available actions ([enum ActionType]) *)

Inductive ActionType : Type :=
| Action_PowerOff
| Action_PowerOn
| Action_PowerToggle
| Action_PowerOffWhite
| Action_PowerOnWhite
| Action_PowerToggleWhite
| Action_Bright_Up
| Action_Bright_Down
| Action_Bright_25
| Action_Bright_50
| Action_Bright_75
| Action_Bright_100
| Action_White_Bright_Up
| Action_White_Bright_Down
| Action_Speed_Up
| Action_Speed_Down
| Action_Intensity_Up
| Action_Intensity_Down
| Action_Preset_1
| Action_Preset_2
| Action_Preset_3
| Action_Preset_4
| Action_Preset_5
| Action_Preset_6
| Action_Preset_7
| Action_Preset_8
| Action_Preset_9
| Action_Preset_10
| Action_Preset_Next
| Action_Preset_Prev
| Action_Palette_Next
| Action_Palette_Prev
| Action_Color_Aqua
| Action_Color_Blue
| Action_Color_ColdWhite
| Action_Color_ColdWhite2
| Action_Color_Cyan
| Action_Color_Deepblue
| Action_Color_Green
| Action_Color_Greenish
| Action_Color_Magenta
| Action_Color_NeutralWhite
| Action_Color_Orange
| Action_Color_Pink
| Action_Color_Purple
| Action_Color_Red
| Action_Color_Reddish
| Action_Color_Turquoise
| Action_Color_WarmWhite
| Action_Color_WarmWhite2
| Action_Color_White
| Action_Color_Yellow
| Action_Color_Yellowish
| Action_Color_Rotate.

(** The integer value of each enumerator; it is also the index of the
    [Action] object in the [actions] array. *)
Definition enum_value (a : ActionType) : Z :=
  match a with
  | Action_PowerOff => 0
  | Action_PowerOn => 1
  | Action_PowerToggle => 2
  | Action_PowerOffWhite => 3
  | Action_PowerOnWhite => 4
  | Action_PowerToggleWhite => 5
  | Action_Bright_Up => 6
  | Action_Bright_Down => 7
  | Action_Bright_25 => 8
  | Action_Bright_50 => 9
  | Action_Bright_75 => 10
  | Action_Bright_100 => 11
  | Action_White_Bright_Up => 12
  | Action_White_Bright_Down => 13
  | Action_Speed_Up => 14
  | Action_Speed_Down => 15
  | Action_Intensity_Up => 16
  | Action_Intensity_Down => 17
  | Action_Preset_1 => 18
  | Action_Preset_2 => 19
  | Action_Preset_3 => 20
  | Action_Preset_4 => 21
  | Action_Preset_5 => 22
  | Action_Preset_6 => 23
  | Action_Preset_7 => 24
  | Action_Preset_8 => 25
  | Action_Preset_9 => 26
  | Action_Preset_10 => 27
  | Action_Preset_Next => 28
  | Action_Preset_Prev => 29
  | Action_Palette_Next => 30
  | Action_Palette_Prev => 31
  | Action_Color_Aqua => 32
  | Action_Color_Blue => 33
  | Action_Color_ColdWhite => 34
  | Action_Color_ColdWhite2 => 35
  | Action_Color_Cyan => 36
  | Action_Color_Deepblue => 37
  | Action_Color_Green => 38
  | Action_Color_Greenish => 39
  | Action_Color_Magenta => 40
  | Action_Color_NeutralWhite => 41
  | Action_Color_Orange => 42
  | Action_Color_Pink => 43
  | Action_Color_Purple => 44
  | Action_Color_Red => 45
  | Action_Color_Reddish => 46
  | Action_Color_Turquoise => 47
  | Action_Color_WarmWhite => 48
  | Action_Color_WarmWhite2 => 49
  | Action_Color_White => 50
  | Action_Color_Yellow => 51
  | Action_Color_Yellowish => 52
  | Action_Color_Rotate => 53
  end.

(** [Action_Count], the enumerator that closes the enumeration. *)
Definition Action_Count : Z := 54.

(** Two [Action] objects are the same object exactly when they sit at the
    same index of [actions]: pointer comparison is comparison of indices. *)
Definition same_action (a b : ActionType) : bool :=
  enum_value a =? enum_value b.

(** ** The remote types ([enum RemoteType]) *)

Definition Remote_IR_Disabled : Z := 0.
Definition Remote_IR24_Old : Z := 1.
Definition Remote_IR24_CT : Z := 2.
Definition Remote_IR40 : Z := 3.
Definition Remote_IR44 : Z := 4.
Definition Remote_IR21 : Z := 5.
Definition Remote_IR6 : Z := 6.
Definition Remote_IR9 : Z := 7.
Definition Remote_IR24 : Z := 8.
Definition Remote_Custom : Z := 9.
Definition Remote_Squeezebox : Z := 10.
Definition Remote_Roku_Express : Z := 11.
Definition ConfigurableRemoteCount : Z := 12.

(** ** The firmware around [ir.cpp] *)

(** The two types [ir.cpp] uses but does not define: the part of the
    firmware state it never names, and the decoder object of the
    IRremoteESP8266 library. *)
Class Externals : Type := {
  WledState : Type;
  IRrecv : Type
}.

(** The globals of the firmware that [ir.cpp] names.  [clock_ms] is the time
    since boot in milliseconds; [millis()] returns it as an
    [unsigned long]. *)
Record Globals `{Externals} : Type := mkGlobals {
  bri : Z;
  col : Z * Z * Z * Z;
  effectCurrent : Z;
  effectPalette : Z;
  effectSpeed : Z;
  effectIntensity : Z;
  currentPreset : Z;
  irEnabled : Z;
  strip_isRgbw : bool;
  clock_ms : Z;
  wled : WledState
}.

Arguments mkGlobals {_}.

Definition millis `{Externals} (g : Globals) : Z := to_uint32 (clock_ms g).

(** Calls that leave [ir.cpp], in the order they are made. *)
Inductive Event : Type :=
| Serial_println (msg : string)
| Serial_printf_IR_recv (irCode : Z)
| DEBUG_PRINTF_Performing_Action (name : string)
| call_action_fn (a : ActionType)
| call_colorUpdated (callMode : Z)
| call_new_IRrecv (pin : Z)
| call_enableIRIn
| call_disableIRIn
| call_delete_IRrecv
| call_decode (received : bool)
| call_resume.

(** The state of [ir.cpp]: the globals it shares with the firmware, the
    static members of [Action], the function-local statics
    ([color_index] of [actionColorRotate], [presetSelectTime] of
    [actionApplyPreset], [preset_results] for [results] of
    [presetButtonsConfigured], and [irrecv], [irCheckedTime], [ir_results]
    for [results.value] of [handleIR]), and the instrumentation.  [col] is
    the array [byte col[4]]; [preset_results] is an array of
    [ConfigurableRemoteCount] bytes, given by its content at each index. *)
Record State `{Externals} : Type := mkState {
  globals : Globals;
  _lastRepeatableAction : option ActionType;
  _repeat_count : Z;
  _last_action_time : Z;
  color_index : Z;
  presetSelectTime : Z;
  preset_results : Z -> Z;
  irrecv : option IRrecv;
  irCheckedTime : Z;
  ir_results : Z;
  trace : list Event;
  keymap_reads : nat
}.

Arguments mkState {_}.

(** The values of the statics at program start. *)
Definition boot `{Externals} (g : Globals) : State :=
  {| globals := g;
     _lastRepeatableAction := None;
     _repeat_count := 0;
     _last_action_time := 0;
     color_index := 0;
     presetSelectTime := 0;
     preset_results := fun _ => 0;
     irrecv := None;
     irCheckedTime := 0;
     ir_results := 0;
     trace := [];
     keymap_reads := 0%nat |}.

Section Stores.
Context `{Externals}.

Definition set_globals (g : Globals) (s : State) : State :=
  mkState g (_lastRepeatableAction s) (_repeat_count s) (_last_action_time s)
    (color_index s) (presetSelectTime s) (preset_results s) (irrecv s)
    (irCheckedTime s) (ir_results s) (trace s) (keymap_reads s).

Definition set_lastRepeatableAction (p : option ActionType) (s : State) : State :=
  mkState (globals s) p (_repeat_count s) (_last_action_time s)
    (color_index s) (presetSelectTime s) (preset_results s) (irrecv s)
    (irCheckedTime s) (ir_results s) (trace s) (keymap_reads s).

Definition set_repeat_count (n : Z) (s : State) : State :=
  mkState (globals s) (_lastRepeatableAction s) n (_last_action_time s)
    (color_index s) (presetSelectTime s) (preset_results s) (irrecv s)
    (irCheckedTime s) (ir_results s) (trace s) (keymap_reads s).

Definition set_last_action_time (t : Z) (s : State) : State :=
  mkState (globals s) (_lastRepeatableAction s) (_repeat_count s) t
    (color_index s) (presetSelectTime s) (preset_results s) (irrecv s)
    (irCheckedTime s) (ir_results s) (trace s) (keymap_reads s).

Definition set_color_index (i : Z) (s : State) : State :=
  mkState (globals s) (_lastRepeatableAction s) (_repeat_count s)
    (_last_action_time s) i (presetSelectTime s) (preset_results s)
    (irrecv s) (irCheckedTime s) (ir_results s) (trace s) (keymap_reads s).

Definition set_presetSelectTime (t : Z) (s : State) : State :=
  mkState (globals s) (_lastRepeatableAction s) (_repeat_count s)
    (_last_action_time s) (color_index s) t (preset_results s)
    (irrecv s) (irCheckedTime s) (ir_results s) (trace s) (keymap_reads s).

Definition set_preset_results (r : Z -> Z) (s : State) : State :=
  mkState (globals s) (_lastRepeatableAction s) (_repeat_count s)
    (_last_action_time s) (color_index s) (presetSelectTime s) r
    (irrecv s) (irCheckedTime s) (ir_results s) (trace s) (keymap_reads s).

Definition set_irrecv (r : option IRrecv) (s : State) : State :=
  mkState (globals s) (_lastRepeatableAction s) (_repeat_count s)
    (_last_action_time s) (color_index s) (presetSelectTime s)
    (preset_results s) r (irCheckedTime s) (ir_results s) (trace s)
    (keymap_reads s).

Definition set_irCheckedTime (t : Z) (s : State) : State :=
  mkState (globals s) (_lastRepeatableAction s) (_repeat_count s)
    (_last_action_time s) (color_index s) (presetSelectTime s)
    (preset_results s) (irrecv s) t (ir_results s) (trace s)
    (keymap_reads s).

Definition set_ir_results (v : Z) (s : State) : State :=
  mkState (globals s) (_lastRepeatableAction s) (_repeat_count s)
    (_last_action_time s) (color_index s) (presetSelectTime s)
    (preset_results s) (irrecv s) (irCheckedTime s) v (trace s)
    (keymap_reads s).

(** Record one call to a collaborator. *)
Definition emit (e : Event) (s : State) : State :=
  mkState (globals s) (_lastRepeatableAction s) (_repeat_count s)
    (_last_action_time s) (color_index s) (presetSelectTime s)
    (preset_results s) (irrecv s) (irCheckedTime s) (ir_results s)
    (trace s ++ [e]) (keymap_reads s).

(** Record [n] more reads of a [KeyMap] entry. *)
Definition count_reads (n : nat) (s : State) : State :=
  mkState (globals s) (_lastRepeatableAction s) (_repeat_count s)
    (_last_action_time s) (color_index s) (presetSelectTime s)
    (preset_results s) (irrecv s) (irCheckedTime s) (ir_results s)
    (trace s) (keymap_reads s + n)%nat.

(** A function of the firmware that works on the globals only. *)
Definition on_globals (f : Globals -> Globals) (s : State) : State :=
  set_globals (f (globals s)) s.

(** Stores to single globals. *)
Definition set_bri (v : Z) (g : Globals) : Globals :=
  mkGlobals v (col g) (effectCurrent g) (effectPalette g) (effectSpeed g)
    (effectIntensity g) (currentPreset g) (irEnabled g) (strip_isRgbw g)
    (clock_ms g) (wled g).

Definition set_col (v : Z * Z * Z * Z) (g : Globals) : Globals :=
  mkGlobals (bri g) v (effectCurrent g) (effectPalette g) (effectSpeed g)
    (effectIntensity g) (currentPreset g) (irEnabled g) (strip_isRgbw g)
    (clock_ms g) (wled g).

Definition set_effectCurrent (v : Z) (g : Globals) : Globals :=
  mkGlobals (bri g) (col g) v (effectPalette g) (effectSpeed g)
    (effectIntensity g) (currentPreset g) (irEnabled g) (strip_isRgbw g)
    (clock_ms g) (wled g).

Definition set_effectPalette (v : Z) (g : Globals) : Globals :=
  mkGlobals (bri g) (col g) (effectCurrent g) v (effectSpeed g)
    (effectIntensity g) (currentPreset g) (irEnabled g) (strip_isRgbw g)
    (clock_ms g) (wled g).

Definition set_effectSpeed (v : Z) (g : Globals) : Globals :=
  mkGlobals (bri g) (col g) (effectCurrent g) (effectPalette g) v
    (effectIntensity g) (currentPreset g) (irEnabled g) (strip_isRgbw g)
    (clock_ms g) (wled g).

Definition set_effectIntensity (v : Z) (g : Globals) : Globals :=
  mkGlobals (bri g) (col g) (effectCurrent g) (effectPalette g)
    (effectSpeed g) v (currentPreset g) (irEnabled g) (strip_isRgbw g)
    (clock_ms g) (wled g).
End Stores.

(** What [ir.cpp] calls and does not define.  [macro] gives the value of a
    preprocessor macro of [ir_codes.h], [const.h] or [FX.h] by its name. *)
Class Collaborators `{Externals} : Type := {
  macro : string -> Z;
  irPin : Z;
  powerOff : Globals -> Globals;
  powerOn : Globals -> Globals;
  toggleOnOff : Globals -> Globals;
  powerOffWhite : Globals -> Globals;
  powerOnWhite : Globals -> Globals;
  toggleOnOffWhite : Globals -> Globals;
  colorFromUint24 : Z -> bool -> Globals -> Globals;
  colorFromUint24_default_secondary : bool;
  colorFromUint32 : Z -> Globals -> Globals;
  changeHue : Z -> Globals -> Globals;
  changeSaturation : Z -> Globals -> Globals;
  applyPreset : Z -> Globals -> bool * Globals;
  getPaletteCount : Globals -> Z;
  colorUpdated : Z -> Globals -> Globals;
  new_IRrecv : Z -> IRrecv;
  enableIRIn : IRrecv -> IRrecv;
  decode : IRrecv -> option Z * IRrecv;
  resume : IRrecv -> IRrecv
}.

Section IR.
Context {E : Externals} {C : Collaborators}.

(** ** Action support functions *)

(** [relativeChange]: change [property] by [amount], keeping the result
    within the boundaries.  [new_val] is an [int16_t]; a byte plus an
    [int8_t] always fits. *)
Definition relativeChange (property amount lowerBoundary higherBoundary : Z) : Z :=
  let new_val := property + amount in
  let new_val :=
    if higherBoundary <? new_val then higherBoundary
    else if new_val <? lowerBoundary then lowerBoundary
    else new_val in
  to_byte new_val.

Definition brightnessSteps : list Z :=
  [5; 7; 9; 12; 16; 20; 26; 34; 43; 56; 72; 93; 119; 154; 198; 255].

(** The loop of [incBrightness], from the entry at [index] on. *)
Fixpoint incBrightness_loop (steps : list Z) (destination : Z) : Z :=
  match steps with
  | [] => destination
  | step :: rest =>
      if destination <? step then step
      else incBrightness_loop rest destination
  end.

Definition incBrightness (destination : Z) : Z :=
  incBrightness_loop brightnessSteps destination.

(** The loop of [decBrightness] walks the steps from the last one down. *)
Fixpoint decBrightness_loop (steps_down : list Z) (destination : Z) : Z :=
  match steps_down with
  | [] => destination
  | step :: rest =>
      if step <? destination then step
      else decBrightness_loop rest destination
  end.

Definition decBrightness (destination : Z) : Z :=
  decBrightness_loop (rev brightnessSteps) destination.

Definition col3 (g : Globals) : Z := let '(_, _, _, w) := col g in w.
Definition set_col3 (v : Z) (g : Globals) : Globals :=
  let '(r, gr, b, _) := col g in set_col (r, gr, b, v) g.

Definition incBri (g : Globals) : Globals := set_bri (incBrightness (bri g)) g.
Definition decBri (g : Globals) : Globals := set_bri (decBrightness (bri g)) g.
Definition incCol3 (g : Globals) : Globals := set_col3 (incBrightness (col3 g)) g.
Definition decCol3 (g : Globals) : Globals := set_col3 (decBrightness (col3 g)) g.

Definition setBri25 (g : Globals) : Globals := set_bri 63 g.
Definition setBri50 (g : Globals) : Globals := set_bri 127 g.
Definition setBri75 (g : Globals) : Globals := set_bri 191 g.
Definition setBri100 (g : Globals) : Globals := set_bri 255 g.

(** [setWhite]: set white colors with awareness of whether it is an RGBW
    strip. *)
Definition setWhite (rgbColor rgbwColor : Z) (g : Globals) : Globals :=
  if strip_isRgbw g
  then set_effectCurrent 0 (colorFromUint32 rgbwColor g)
  else colorFromUint24 rgbColor colorFromUint24_default_secondary g.

(** [actionColorAqua] and the fifteen functions of the same shape. *)
Definition actionColor (color_macro : string) (g : Globals) : Globals :=
  colorFromUint24 (macro color_macro) false g.

(** [actionColorColdwhite] and the four functions of the same shape. *)
Definition actionColorWhites (rgb_macro rgbw_macro : string) (g : Globals) : Globals :=
  setWhite (macro rgb_macro) (macro rgbw_macro) g.

Definition actionColorRotate_colors : list string :=
  [ "COLOR_RED"; "COLOR_REDDISH"; "COLOR_ORANGE"; "COLOR_YELLOWISH";
    "COLOR_GREEN"; "COLOR_GREENISH"; "COLOR_TURQUOISE"; "COLOR_CYAN";
    "COLOR_BLUE"; "COLOR_DEEPBLUE"; "COLOR_PURPLE"; "COLOR_PINK";
    "COLOR_WHITE" ].

Definition actionColorRotate (s : State) : option State :=
  let num_colors := Z.of_nat (List.length actionColorRotate_colors) in
  if color_index s <? 0 then None else
  color <- nth_error actionColorRotate_colors (Z.to_nat (color_index s)) ;;
  let s := on_globals (colorFromUint32 (macro color)) s in
  Some (set_color_index (to_byte (Z.rem (color_index s + 1) num_colors)) s).

(** *** Speed and intensity *)

Definition changeEffectSpeed (amount : Z) (g : Globals) : Globals :=
  if negb (effectCurrent g =? 0)
  then set_effectSpeed (relativeChange (effectSpeed g) amount 0 255) g
  else changeHue amount g.

Definition incEffectSpeed : Globals -> Globals := changeEffectSpeed 10.
Definition decEffectSpeed : Globals -> Globals := changeEffectSpeed (-10).

Definition changeEffectIntensity (amount : Z) (g : Globals) : Globals :=
  if negb (effectCurrent g =? 0)
  then set_effectIntensity (relativeChange (effectIntensity g) amount 0 255) g
  else changeSaturation amount g.

Definition incEffectIntensity : Globals -> Globals := changeEffectIntensity 10.
Definition decEffectIntensity : Globals -> Globals := changeEffectIntensity (-10).

(** *** Next and previous effect and palette *)

Definition MODE_COUNT : Z := macro "MODE_COUNT".

(** [actionChangePreset(uint8_t offset)]: the argument is stored into the
    [uint8_t] parameter, the sum is formed in [int], [%] is C's remainder,
    the result is stored into the byte [effectCurrent]. *)
Definition actionChangePreset (offset : Z) (g : Globals) : option Globals :=
  let offset := to_byte offset in
  if MODE_COUNT =? 0 then None
  else Some (set_effectCurrent
               (to_byte (Z.rem (effectCurrent g + offset) MODE_COUNT)) g).

Definition actionIncPreset : Globals -> option Globals := actionChangePreset 1.
Definition actionDecPreset : Globals -> option Globals := actionChangePreset (-1).

Definition actionChangePalette (offset : Z) (g : Globals) : option Globals :=
  let offset := to_byte offset in
  if getPaletteCount g =? 0 then None
  else Some (set_effectPalette
               (to_byte (Z.rem (effectPalette g + offset) (getPaletteCount g))) g).

Definition actionIncPalette : Globals -> option Globals := actionChangePalette 1.
Definition actionDecPalette : Globals -> option Globals := actionChangePalette (-1).

(** ** IR remote definitions *)

(** [struct KeyMap]: maps an IR code to an [ActionType]. *)
Record KeyMap : Type := mkKeyMap {
  irCode : Z;
  actionType : ActionType
}.

(** An entry [{CODE, Action_X}]: the value of the macro [CODE] of
    [ir_codes.h], stored into the [uint32_t] member. *)
Definition entry (code_macro : string) (a : ActionType) : KeyMap :=
  {| irCode := to_uint32 (macro code_macro); actionType := a |}.

(** The null entry [{}] that ends each array. *)
Definition null_entry : KeyMap :=
  {| irCode := 0; actionType := Action_PowerOff |}.

Definition IR24_Actions : list KeyMap :=
  [ entry "IR24_BRIGHTER" Action_Bright_Up;
    entry "IR24_DARKER" Action_Bright_Down;
    entry "IR24_OFF" Action_PowerOff;
    entry "IR24_ON" Action_PowerOn;
    entry "IR24_RED" Action_Color_Red;
    entry "IR24_REDDISH" Action_Color_Reddish;
    entry "IR24_ORANGE" Action_Color_Orange;
    entry "IR24_YELLOWISH" Action_Color_Yellowish;
    entry "IR24_YELLOW" Action_Color_Yellow;
    entry "IR24_GREEN" Action_Color_Green;
    entry "IR24_GREENISH" Action_Color_Greenish;
    entry "IR24_TURQUOISE" Action_Color_Turquoise;
    entry "IR24_CYAN" Action_Color_Cyan;
    entry "IR24_AQUA" Action_Color_Aqua;
    entry "IR24_BLUE" Action_Color_Blue;
    entry "IR24_DEEPBLUE" Action_Color_Deepblue;
    entry "IR24_PURPLE" Action_Color_Purple;
    entry "IR24_MAGENTA" Action_Color_Magenta;
    entry "IR24_PINK" Action_Color_Pink;
    entry "IR24_WHITE" Action_Color_White;
    entry "IR24_FLASH" Action_Preset_1;
    entry "IR24_STROBE" Action_Preset_2;
    entry "IR24_FADE" Action_Preset_3;
    entry "IR24_SMOOTH" Action_Preset_4;
    null_entry ].

Definition IR24_Old_Actions : list KeyMap :=
  [ entry "IR24_OLD_BRIGHTER" Action_Bright_Up;
    entry "IR24_OLD_DARKER" Action_Bright_Down;
    entry "IR24_OLD_OFF" Action_PowerOff;
    entry "IR24_OLD_ON" Action_PowerOn;
    entry "IR24_OLD_RED" Action_Color_Red;
    entry "IR24_OLD_REDDISH" Action_Color_Reddish;
    entry "IR24_OLD_ORANGE" Action_Color_Orange;
    entry "IR24_OLD_YELLOWISH" Action_Color_Yellowish;
    entry "IR24_OLD_YELLOW" Action_Color_Yellow;
    entry "IR24_OLD_GREEN" Action_Color_Green;
    entry "IR24_OLD_GREENISH" Action_Color_Greenish;
    entry "IR24_OLD_TURQUOISE" Action_Color_Turquoise;
    entry "IR24_OLD_CYAN" Action_Color_Cyan;
    entry "IR24_OLD_AQUA" Action_Color_Aqua;
    entry "IR24_OLD_BLUE" Action_Color_Blue;
    entry "IR24_OLD_DEEPBLUE" Action_Color_Deepblue;
    entry "IR24_OLD_PURPLE" Action_Color_Purple;
    entry "IR24_OLD_MAGENTA" Action_Color_Magenta;
    entry "IR24_OLD_PINK" Action_Color_Pink;
    entry "IR24_OLD_WHITE" Action_Color_White;
    entry "IR24_OLD_FLASH" Action_Preset_1;
    entry "IR24_OLD_STROBE" Action_Preset_2;
    entry "IR24_OLD_FADE" Action_Preset_3;
    entry "IR24_OLD_SMOOTH" Action_Preset_4;
    null_entry ].

Definition IR24CT_Actions : list KeyMap :=
  [ entry "IR24_CT_BRIGHTER" Action_Bright_Up;
    entry "IR24_CT_DARKER" Action_Bright_Down;
    entry "IR24_CT_OFF" Action_PowerOff;
    entry "IR24_CT_ON" Action_PowerOn;
    entry "IR24_CT_RED" Action_Color_Red;
    entry "IR24_CT_REDDISH" Action_Color_Reddish;
    entry "IR24_CT_ORANGE" Action_Color_Orange;
    entry "IR24_CT_YELLOWISH" Action_Color_Yellowish;
    entry "IR24_CT_YELLOW" Action_Color_Yellow;
    entry "IR24_CT_GREEN" Action_Color_Green;
    entry "IR24_CT_GREENISH" Action_Color_Greenish;
    entry "IR24_CT_TURQUOISE" Action_Color_Turquoise;
    entry "IR24_CT_CYAN" Action_Color_Cyan;
    entry "IR24_CT_AQUA" Action_Color_Aqua;
    entry "IR24_CT_BLUE" Action_Color_Blue;
    entry "IR24_CT_DEEPBLUE" Action_Color_Deepblue;
    entry "IR24_CT_PURPLE" Action_Color_Purple;
    entry "IR24_CT_MAGENTA" Action_Color_Magenta;
    entry "IR24_CT_PINK" Action_Color_Pink;
    entry "IR24_CT_COLDWHITE" Action_Color_ColdWhite;
    entry "IR24_CT_WARMWHITE" Action_Color_WarmWhite;
    entry "IR24_CT_CTPLUS" Action_Color_ColdWhite2;
    entry "IR24_CT_CTMINUS" Action_Color_WarmWhite2;
    entry "IR24_CT_MEMORY" Action_Color_NeutralWhite;
    null_entry ].

Definition IR40_Actions : list KeyMap :=
  [ entry "IR40_BPLUS" Action_Bright_Up;
    entry "IR40_BMINUS" Action_Bright_Down;
    entry "IR40_OFF" Action_PowerOff;
    entry "IR40_ON" Action_PowerOn;
    entry "IR40_RED" Action_Color_Red;
    entry "IR40_REDDISH" Action_Color_Reddish;
    entry "IR40_ORANGE" Action_Color_Orange;
    entry "IR40_YELLOWISH" Action_Color_Yellowish;
    entry "IR40_YELLOW" Action_Color_Yellow;
    entry "IR40_GREEN" Action_Color_Green;
    entry "IR40_GREENISH" Action_Color_Greenish;
    entry "IR40_TURQUOISE" Action_Color_Turquoise;
    entry "IR40_CYAN" Action_Color_Cyan;
    entry "IR40_AQUA" Action_Color_Aqua;
    entry "IR40_BLUE" Action_Color_Blue;
    entry "IR40_DEEPBLUE" Action_Color_Deepblue;
    entry "IR40_PURPLE" Action_Color_Purple;
    entry "IR40_MAGENTA" Action_Color_Magenta;
    entry "IR40_PINK" Action_Color_Pink;
    entry "IR40_WARMWHITE2" Action_Color_WarmWhite2;
    entry "IR40_WARMWHITE" Action_Color_WarmWhite;
    entry "IR40_WHITE" Action_Color_White;
    entry "IR40_COLDWHITE" Action_Color_ColdWhite;
    entry "IR40_COLDWHITE2" Action_Color_ColdWhite2;
    entry "IR40_WOFF" Action_PowerOffWhite;
    entry "IR40_WON" Action_PowerOnWhite;
    entry "IR40_WPLUS" Action_White_Bright_Up;
    entry "IR40_WMINUS" Action_White_Bright_Down;
    entry "IR40_W25" Action_Bright_25;
    entry "IR40_W50" Action_Bright_50;
    entry "IR40_W75" Action_Bright_75;
    entry "IR40_W100" Action_Bright_100;
    entry "IR40_QUICK" Action_Speed_Up;
    entry "IR40_SLOW" Action_Speed_Down;
    entry "IR40_JUMP7" Action_Intensity_Up;
    entry "IR40_AUTO" Action_Intensity_Down;
    entry "IR40_JUMP3" Action_Preset_1;
    entry "IR40_FADE3" Action_Preset_2;
    entry "IR40_FADE7" Action_Preset_3;
    entry "IR40_FLASH" Action_Preset_4;
    null_entry ].

Definition IR44_Actions : list KeyMap :=
  [ entry "IR44_BPLUS" Action_Bright_Up;
    entry "IR44_BMINUS" Action_Bright_Down;
    entry "IR44_OFF" Action_PowerOn;
    entry "IR44_ON" Action_PowerOff;
    entry "IR44_RED" Action_Color_Red;
    entry "IR44_REDDISH" Action_Color_Reddish;
    entry "IR44_ORANGE" Action_Color_Orange;
    entry "IR44_YELLOWISH" Action_Color_Yellowish;
    entry "IR44_YELLOW" Action_Color_Yellow;
    entry "IR44_GREEN" Action_Color_Green;
    entry "IR44_GREENISH" Action_Color_Greenish;
    entry "IR44_TURQUOISE" Action_Color_Turquoise;
    entry "IR44_CYAN" Action_Color_Cyan;
    entry "IR44_AQUA" Action_Color_Aqua;
    entry "IR44_BLUE" Action_Color_Blue;
    entry "IR44_DEEPBLUE" Action_Color_Deepblue;
    entry "IR44_PURPLE" Action_Color_Purple;
    entry "IR44_MAGENTA" Action_Color_Magenta;
    entry "IR44_PINK" Action_Color_Pink;
    entry "IR44_WHITE" Action_Color_White;
    entry "IR44_WARMWHITE2" Action_Color_WarmWhite2;
    entry "IR44_WARMWHITE" Action_Color_WarmWhite;
    entry "IR44_COLDWHITE" Action_Color_ColdWhite;
    entry "IR44_COLDWHITE2" Action_Color_ColdWhite2;
    entry "IR44_REDPLUS" Action_Preset_Next;
    entry "IR44_REDMINUS" Action_Preset_Prev;
    entry "IR44_GREENPLUS" Action_Palette_Next;
    entry "IR44_GREENMINUS" Action_Palette_Prev;
    entry "IR44_BLUEPLUS" Action_Intensity_Up;
    entry "IR44_BLUEMINUS" Action_Intensity_Down;
    entry "IR44_QUICK" Action_Speed_Up;
    entry "IR44_SLOW" Action_Speed_Down;
    entry "IR44_DIY1" Action_Preset_1;
    entry "IR44_DIY2" Action_Preset_2;
    entry "IR44_DIY3" Action_Preset_3;
    entry "IR44_DIY4" Action_Preset_4;
    entry "IR44_DIY5" Action_Preset_5;
    entry "IR44_DIY6" Action_Preset_6;
    entry "IR44_AUTO" Action_Preset_7;
    entry "IR44_FLASH" Action_Preset_8;
    entry "IR44_JUMP3" Action_Bright_25;
    entry "IR44_JUMP7" Action_Bright_50;
    entry "IR44_FADE3" Action_Bright_75;
    entry "IR44_FADE7" Action_Bright_100;
    null_entry ].

Definition IR21_Actions : list KeyMap :=
  [ entry "IR21_BRIGHTER" Action_Bright_Up;
    entry "IR21_DARKER" Action_Bright_Down;
    entry "IR21_OFF" Action_PowerOff;
    entry "IR21_ON" Action_PowerOn;
    entry "IR21_RED" Action_Color_Red;
    entry "IR21_REDDISH" Action_Color_Reddish;
    entry "IR21_ORANGE" Action_Color_Orange;
    entry "IR21_YELLOWISH" Action_Color_Yellowish;
    entry "IR21_GREEN" Action_Color_Green;
    entry "IR21_GREENISH" Action_Color_Greenish;
    entry "IR21_TURQUOISE" Action_Color_Turquoise;
    entry "IR21_CYAN" Action_Color_Cyan;
    entry "IR21_BLUE" Action_Color_Blue;
    entry "IR21_DEEPBLUE" Action_Color_Deepblue;
    entry "IR21_PURPLE" Action_Color_Purple;
    entry "IR21_PINK" Action_Color_Pink;
    entry "IR21_WHITE" Action_Color_White;
    entry "IR21_FLASH" Action_Preset_1;
    entry "IR21_STROBE" Action_Preset_2;
    entry "IR21_FADE" Action_Preset_3;
    entry "IR21_SMOOTH" Action_Preset_4;
    null_entry ].

Definition IR6_Actions : list KeyMap :=
  [ entry "IR6_POWER" Action_PowerToggle;
    entry "IR6_CHANNEL_UP" Action_Bright_Up;
    entry "IR6_CHANNEL_DOWN" Action_Bright_Down;
    entry "IR6_VOLUME_UP" Action_Preset_Next;
    entry "IR6_VOLUME_DOWN" Action_Color_Rotate;
    entry "IR6_MUTE" Action_Color_White;
    null_entry ].

Definition IR9_Actions : list KeyMap :=
  [ entry "IR9_POWER" Action_PowerToggle;
    entry "IR9_A" Action_Preset_1;
    entry "IR9_B" Action_Preset_2;
    entry "IR9_C" Action_Preset_3;
    entry "IR9_UP" Action_Preset_Next;
    entry "IR9_DOWN" Action_Bright_Down;
    entry "IR9_LEFT" Action_Speed_Up;
    entry "IR9_RIGHT" Action_Speed_Down;
    entry "IR9_SELECT" Action_Preset_Next;
    null_entry ].

Definition Custom_Actions : list KeyMap :=
  [ null_entry ].

Definition Squeezebox_Actions : list KeyMap :=
  [ entry "IR_SQUEEZEBOX_NOW_PLAYING" Action_Bright_Down;
    entry "IR_SQUEEZEBOX_SIZE" Action_PowerToggle;
    entry "IR_SQUEEZEBOX_BRIGHTNESS" Action_Bright_Up;
    entry "IR_SQUEEZEBOX_1" Action_Preset_1;
    entry "IR_SQUEEZEBOX_2" Action_Preset_2;
    entry "IR_SQUEEZEBOX_3" Action_Preset_3;
    entry "IR_SQUEEZEBOX_4" Action_Preset_4;
    entry "IR_SQUEEZEBOX_5" Action_Preset_5;
    entry "IR_SQUEEZEBOX_6" Action_Preset_6;
    entry "IR_SQUEEZEBOX_7" Action_Preset_7;
    entry "IR_SQUEEZEBOX_8" Action_Preset_8;
    entry "IR_SQUEEZEBOX_9" Action_Preset_9;
    entry "IR_SQUEEZEBOX_0" Action_Preset_10;
    entry "IR_SQUEEZEBOX_ARROW_DOWN" Action_Speed_Down;
    entry "IR_SQUEEZEBOX_ARROW_UP" Action_Speed_Up;
    entry "IR_SQUEEZEBOX_ARROW_LEFT" Action_Intensity_Down;
    entry "IR_SQUEEZEBOX_ARROW_RIGHT" Action_Intensity_Up;
    entry "IR_SQUEEZEBOX_BROWSE" Action_Bright_25;
    entry "IR_SQUEEZEBOX_SHUFFLE" Action_Bright_50;
    entry "IR_SQUEEZEBOX_REPEAT" Action_Bright_75;
    null_entry ].

Definition Roku_Express_Actions : list KeyMap :=
  [ entry "IR_ROKU_BACK" Action_PowerOff;
    entry "IR_ROKU_HOME" Action_PowerOn;
    entry "IR_ROKU_UP" Action_Bright_Up;
    entry "IR_ROKU_DOWN" Action_Bright_Down;
    entry "IR_ROKU_RIGHT" Action_Speed_Up;
    entry "IR_ROKU_LEFT" Action_Speed_Down;
    entry "IR_ROKU_REDO" Action_Intensity_Down;
    entry "IR_ROKU_STAR" Action_Intensity_Up;
    entry "IR_ROKU_REWIND" Action_Preset_1;
    entry "IR_ROKU_PLAY" Action_Preset_2;
    entry "IR_ROKU_FFD" Action_Preset_3;
    entry "IR_ROKU_NETFLIX" Action_Preset_4;
    entry "IR_ROKU_ESPN" Action_Preset_5;
    entry "IR_ROKU_HULU" Action_Preset_6;
    entry "IR_ROKU_SLING" Action_Preset_7;
    null_entry ].

(** [buttonActions]: the mappings indexed by [irEnabled]; the entry of the
    disabled remote is the null pointer. *)
Definition buttonActions : list (option (list KeyMap)) :=
  [ None;
    Some IR24_Old_Actions;
    Some IR24CT_Actions;
    Some IR40_Actions;
    Some IR44_Actions;
    Some IR21_Actions;
    Some IR6_Actions;
    Some IR9_Actions;
    Some IR24_Actions;
    Some Custom_Actions;
    Some Squeezebox_Actions;
    Some Roku_Express_Actions ].

(** [const KeyMap* remoteMapping = buttonActions[index]], about to be
    dereferenced: undefined outside the array and for the null pointer. *)
Definition remoteMapping (index : Z) : option (list KeyMap) :=
  if index <? 0 then None
  else match nth_error buttonActions (Z.to_nat index) with
       | Some (Some mapping) => Some mapping
       | _ => None
       end.

(** ** [presetButtonsConfigured] *)

(** [results[irEnabled]++] on the byte array. *)
Definition increment_result (index : Z) (s : State) : State :=
  set_preset_results
    (fun i => if i =? index then to_byte (preset_results s i + 1)
              else preset_results s i) s.

(** The [for] loop of [presetButtonsConfigured] from [keyMap] on; every
    test of [keyMap->irCode] is one read. *)
Fixpoint presetButtonsConfigured_loop (keyMap : list KeyMap) (s : State)
  : option State :=
  match keyMap with
  | [] => None
  | k :: next =>
      let s := count_reads 1 s in
      if irCode k =? 0 then Some s
      else if (enum_value Action_Preset_10 <=? enum_value (actionType k))
              && (enum_value (actionType k) <=? enum_value Action_Preset_10)
           then presetButtonsConfigured_loop next
                  (increment_result (irEnabled (globals s)) s)
           else presetButtonsConfigured_loop next s
  end.

(** Return the number of preset buttons configured for the current remote. *)
Definition presetButtonsConfigured (s : State) : option (Z * State) :=
  let index := irEnabled (globals s) in
  if (0 <=? index) && (index <? ConfigurableRemoteCount) then
    s <- (if preset_results s index =? 0
          then mapping <- remoteMapping index ;;
               presetButtonsConfigured_loop mapping s
          else Some s) ;;
    Some (preset_results s index, s)
  else None.

(** ** Presets *)

Definition to_uint16 (z : Z) : Z := z mod 2 ^ 16.

Definition fallbacks : list string :=
  [ "FX_MODE_STATIC"; "FX_MODE_TWINKLE"; "FX_MODE_BREATH";
    "FX_MODE_COLORTWINKLE"; "FX_MODE_RAINBOW_CYCLE"; "FX_MODE_RAINBOW";
    "FX_MODE_METEOR_SMOOTH"; "FX_MODE_FIRE_FLICKER"; "FX_MODE_PALETTE";
    "FX_MODE_TWINKLEFOX" ].

(** [actionApplyPreset]: apply preset [presetNum]; on a second press
    between 0.5s and 20s later, move on by [presetButtonsConfigured()];
    without such a preset fall back to a default effect. *)
Definition actionApplyPreset (presetNum : Z) (s : State) : option State :=
  let fallback_count := Z.of_nat (List.length fallbacks) in
  let sinceLast := sub_uint32 (millis (globals s)) (presetSelectTime s) in
  '(presetNum, s) <-
    (if (presetNum =? currentPreset (globals s))
        && (500 <? sinceLast) && (sinceLast <? 20000)
     then '(n, s) <- presetButtonsConfigured s ;;
          Some (to_byte (presetNum + n), s)
     else Some (presetNum, s)) ;;
  let '(applied, g) := applyPreset presetNum (globals s) in
  g <- (if applied then Some g
        else
          fx <- nth_error fallbacks
                  (Z.to_nat (to_uint32 (presetNum - 1) mod fallback_count)) ;;
          Some (set_effectCurrent (to_byte (to_uint16 (macro fx)))
                  (set_effectPalette 0 g))) ;;
  Some (set_presetSelectTime (millis g) (set_globals g s)).

Definition actionApplyPreset1 : State -> option State := actionApplyPreset 1.
Definition actionApplyPreset2 : State -> option State := actionApplyPreset 2.
Definition actionApplyPreset3 : State -> option State := actionApplyPreset 3.
Definition actionApplyPreset4 : State -> option State := actionApplyPreset 4.
Definition actionApplyPreset5 : State -> option State := actionApplyPreset 5.
Definition actionApplyPreset6 : State -> option State := actionApplyPreset 6.
Definition actionApplyPreset7 : State -> option State := actionApplyPreset 7.
Definition actionApplyPreset8 : State -> option State := actionApplyPreset 8.
Definition actionApplyPreset9 : State -> option State := actionApplyPreset 9.
Definition actionApplyPreset10 : State -> option State := actionApplyPreset 10.

(** *** The colour actions, one function per colour *)

Definition actionColorAqua : Globals -> Globals := actionColor "COLOR_AQUA".
Definition actionColorBlue : Globals -> Globals := actionColor "COLOR_BLUE".
Definition actionColorCyan : Globals -> Globals := actionColor "COLOR_CYAN".
Definition actionColorDeepblue : Globals -> Globals := actionColor "COLOR_DEEPBLUE".
Definition actionColorGreen : Globals -> Globals := actionColor "COLOR_GREEN".
Definition actionColorGreenish : Globals -> Globals := actionColor "COLOR_GREENISH".
Definition actionColorMagenta : Globals -> Globals := actionColor "COLOR_MAGENTA".
Definition actionColorOrange : Globals -> Globals := actionColor "COLOR_ORANGE".
Definition actionColorPink : Globals -> Globals := actionColor "COLOR_PINK".
Definition actionColorPurple : Globals -> Globals := actionColor "COLOR_PURPLE".
Definition actionColorRed : Globals -> Globals := actionColor "COLOR_RED".
Definition actionColorReddish : Globals -> Globals := actionColor "COLOR_REDDISH".
Definition actionColorTurquoise : Globals -> Globals := actionColor "COLOR_TURQUOISE".
Definition actionColorWhite : Globals -> Globals := actionColor "COLOR_WHITE".
Definition actionColorYellow : Globals -> Globals := actionColor "COLOR_YELLOW".
Definition actionColorYellowish : Globals -> Globals := actionColor "COLOR_YELLOWISH".
Definition actionColorColdwhite : Globals -> Globals := actionColorWhites "COLOR_COLDWHITE" "COLOR2_COLDWHITE".
Definition actionColorColdwhite2 : Globals -> Globals := actionColorWhites "COLOR_COLDWHITE2" "COLOR2_COLDWHITE2".
Definition actionColorNeutralWhite : Globals -> Globals := actionColorWhites "COLOR_NEUTRALWHITE" "COLOR2_NEUTRALWHITE".
Definition actionColorWarmWhite : Globals -> Globals := actionColorWhites "COLOR_WARMWHITE" "COLOR2_WARMWHITE".
Definition actionColorWarmWhite2 : Globals -> Globals := actionColorWhites "COLOR_WARMWHITE2" "COLOR2_WARMWHITE2".

(** ** Action definition *)

(** [struct Action]: the function that performs the action, a human
    readable name, and whether it can be repeated. *)
Record Action : Type := mkAction {
  name : string;
  _action_fn : State -> option State;
  _is_repeatable : bool
}.

(** The constructor with its default argument [is_repeatable = false]. *)
Definition default_Action (name : string) (action_fn : State -> option State)
  : Action := mkAction name action_fn false.

(** A function that works on the globals and always returns. *)
Definition total (f : Globals -> Globals) (s : State) : option State :=
  Some (on_globals f s).

(** A function that works on the globals and may be undefined. *)
Definition partial (f : Globals -> option Globals) (s : State) : option State :=
  g <- f (globals s) ;; Some (set_globals g s).

(** [Action actions[Action_Count]], indexed by [ActionType]. *)
Definition actions (a : ActionType) : Action :=
  match a with
  | Action_PowerOff => default_Action "Power Off" (total powerOff)
  | Action_PowerOn => default_Action "Power On" (total powerOn)
  | Action_PowerToggle => default_Action "Power Toggle" (total toggleOnOff)
  | Action_PowerOffWhite => default_Action "Power Off White (for RGBW)" (total powerOffWhite)
  | Action_PowerOnWhite => default_Action "Power On White (for RGBW)" (total powerOnWhite)
  | Action_PowerToggleWhite => default_Action "Power Toggle White (for RGBW)" (total toggleOnOffWhite)
  | Action_Bright_Up => mkAction "Brightness Up" (total incBri) true
  | Action_Bright_Down => mkAction "Brightness Down" (total decBri) true
  | Action_Bright_25 => default_Action "Brightness 25%" (total setBri25)
  | Action_Bright_50 => default_Action "Brightness 50%" (total setBri50)
  | Action_Bright_75 => default_Action "Brightness 75%" (total setBri75)
  | Action_Bright_100 => default_Action "Brightness 100%" (total setBri100)
  | Action_White_Bright_Up => mkAction "White Brightness Up (for RGBW)" (total incCol3) true
  | Action_White_Bright_Down => mkAction "White Brightness Down (for RGBW)" (total decCol3) true
  | Action_Speed_Up => mkAction "Speed Up" (total incEffectSpeed) true
  | Action_Speed_Down => mkAction "Speed Down" (total decEffectSpeed) true
  | Action_Intensity_Up => mkAction "Intensity Up" (total incEffectIntensity) true
  | Action_Intensity_Down => mkAction "Intensity Down" (total decEffectIntensity) true
  | Action_Preset_1 => default_Action "Preset 1" actionApplyPreset1
  | Action_Preset_2 => default_Action "Preset 2" actionApplyPreset2
  | Action_Preset_3 => default_Action "Preset 3" actionApplyPreset3
  | Action_Preset_4 => default_Action "Preset 4" actionApplyPreset4
  | Action_Preset_5 => default_Action "Preset 5" actionApplyPreset5
  | Action_Preset_6 => default_Action "Preset 6" actionApplyPreset6
  | Action_Preset_7 => default_Action "Preset 7" actionApplyPreset7
  | Action_Preset_8 => default_Action "Preset 8" actionApplyPreset8
  | Action_Preset_9 => default_Action "Preset 9" actionApplyPreset9
  | Action_Preset_10 => default_Action "Preset 10" actionApplyPreset10
  | Action_Preset_Next => default_Action "Next Preset" (partial actionIncPreset)
  | Action_Preset_Prev => default_Action "Prev Preset" (partial actionDecPreset)
  | Action_Palette_Next => default_Action "Next Palette" (partial actionIncPalette)
  | Action_Palette_Prev => default_Action "Prev Palette" (partial actionDecPalette)
  | Action_Color_Aqua => default_Action "Aqua" (total actionColorAqua)
  | Action_Color_Blue => default_Action "Blue" (total actionColorBlue)
  | Action_Color_ColdWhite => default_Action "ColdWhite" (total actionColorColdwhite)
  | Action_Color_ColdWhite2 => default_Action "ColdWhite2" (total actionColorColdwhite2)
  | Action_Color_Cyan => default_Action "Cyan" (total actionColorCyan)
  | Action_Color_Deepblue => default_Action "Deepblue" (total actionColorDeepblue)
  | Action_Color_Green => default_Action "Green" (total actionColorGreen)
  | Action_Color_Greenish => default_Action "Greenish" (total actionColorGreenish)
  | Action_Color_Magenta => default_Action "Magenta" (total actionColorMagenta)
  | Action_Color_NeutralWhite => default_Action "NeutralWhite" (total actionColorNeutralWhite)
  | Action_Color_Orange => default_Action "Orange" (total actionColorOrange)
  | Action_Color_Pink => default_Action "Pink" (total actionColorPink)
  | Action_Color_Purple => default_Action "Purple" (total actionColorPurple)
  | Action_Color_Red => default_Action "Red" (total actionColorRed)
  | Action_Color_Reddish => default_Action "Reddish" (total actionColorReddish)
  | Action_Color_Turquoise => default_Action "Turquoise" (total actionColorTurquoise)
  | Action_Color_WarmWhite => default_Action "WarmWhite" (total actionColorWarmWhite)
  | Action_Color_WarmWhite2 => default_Action "WarmWhite2" (total actionColorWarmWhite2)
  | Action_Color_White => default_Action "White" (total actionColorWhite)
  | Action_Color_Yellow => default_Action "Yellow" (total actionColorYellow)
  | Action_Color_Yellowish => default_Action "Yellowish" (total actionColorYellowish)
  | Action_Color_Rotate => default_Action "Rotate Colors" actionColorRotate
  end.

Definition NOTIFIER_CALL_MODE_BUTTON : Z := macro "NOTIFIER_CALL_MODE_BUTTON".

(** The tail of [operator()], reached by both branches that do not
    return early: stamp the time, perform the function, notify. *)
Definition perform (this : ActionType) (s : State) : option State :=
  let s := emit (DEBUG_PRINTF_Performing_Action (name (actions this))) s in
  let s := set_last_action_time (millis (globals s)) s in
  s <- _action_fn (actions this) (emit (call_action_fn this) s) ;;
  Some (on_globals (colorUpdated NOTIFIER_CALL_MODE_BUTTON)
          (emit (call_colorUpdated NOTIFIER_CALL_MODE_BUTTON) s)).

(** [_lastRepeatableAction == this]. *)
Definition is_lastRepeatableAction (this : ActionType) (s : State) : bool :=
  match _lastRepeatableAction s with
  | Some last => same_action last this
  | None => false
  end.

(** [Action::operator()]: perform the [action_fn] of [actions[this]], with
    the associated housekeeping. *)
Definition Action_call (this : ActionType) (s : State) : option State :=
  if is_lastRepeatableAction this s then
    if negb (_is_repeatable (actions this))
       && (sub_uint32 (millis (globals s)) (_last_action_time s) <? 500)
    then Some s
    else
      let s := emit (Serial_println "Repeating Action") s in
      perform this (set_repeat_count (to_byte (_repeat_count s + 1)) s)
  else
    perform this (set_repeat_count 1 (set_lastRepeatableAction (Some this) s)).

(** [Action::repeatLast]: repeat the last action, if there is one. *)
Definition repeatLast (s : State) : option State :=
  match _lastRepeatableAction s with
  | Some last => Action_call last s
  | None => Some s
  end.

Definition clearLastRepeatableAction (s : State) : State :=
  set_lastRepeatableAction None s.

(** ** IR code handling *)

(** The search loop of [handleIRCode] from [keyMap] on: the action type of
    the first entry that holds [code], if the null entry does not come
    first, and the number of entries read. *)
Fixpoint handleIRCode_loop (keyMap : list KeyMap) (code : Z)
  : option (option ActionType * nat) :=
  match keyMap with
  | [] => None
  | k :: next =>
      if irCode k =? 0 then Some (None, 1%nat)
      else if irCode k =? code then Some (Some (actionType k), 1%nat)
      else '(found, reads) <- handleIRCode_loop next code ;;
           Some (found, S reads)
  end.

(** [handleIRCode]: execute the action that [code] maps to in the enabled
    remote mapping. *)
Definition handleIRCode (code : Z) (s : State) : option State :=
  if code =? 0xFFFFFFFF then repeatLast s
  else
    mapping <- remoteMapping (irEnabled (globals s)) ;;
    '(found, reads) <- handleIRCode_loop mapping code ;;
    let s := count_reads reads s in
    match found with
    | Some a => Action_call a s
    | None => Some (clearLastRepeatableAction s)
    end.

(** [handleIR]: the main handler, called in the loop.  It manages the
    [IRrecv] object and dispatches incoming codes. *)
Definition handleIR (s : State) : option State :=
  let selector := irEnabled (globals s) in
  if (selector =? 0) || (ConfigurableRemoteCount <=? selector) then
    match irrecv s with
    | Some _ =>
        Some (set_irrecv None
                (emit call_delete_IRrecv (emit call_disableIRIn s)))
    | None => Some s
    end
  else
    match irrecv s with
    | None =>
        let s := emit (call_new_IRrecv irPin) s in
        let s := emit call_enableIRIn s in
        Some (set_irrecv (Some (enableIRIn (new_IRrecv irPin))) s)
    | Some receiver =>
        if sub_uint32 (millis (globals s)) (irCheckedTime s) <? 120
        then Some s
        else
          let s := set_irCheckedTime (millis (globals s)) s in
          match decode receiver with
          | (None, receiver) =>
              Some (set_irrecv (Some receiver) (emit (call_decode false) s))
          | (Some value, receiver) =>
              let s := set_ir_results value (emit (call_decode true) s) in
              let code := to_uint32 value in
              let s := set_irrecv (Some (resume receiver)) (emit call_resume s) in
              if code =? 0 then Some s
              else handleIRCode code (emit (Serial_printf_IR_recv code) s)
          end
    end.

End IR.

(** ** A stand-in firmware for examples

    Concrete collaborators on which the model runs: the decoder is the queue
    of values it has yet to deliver, a preset exists when its number is at
    most 3 and applying one takes 700 ms, the notifier takes 3 ms.  The
    macro values are arbitrary non-zero numbers, apart from the two that are
    named. *)

Definition demo_Externals : Externals :=
  {| WledState := unit; IRrecv := list Z |}.

Fixpoint demo_hash (name : string) (acc : Z) : Z :=
  match name with
  | EmptyString => acc
  | String c rest =>
      demo_hash rest ((acc * 31 + Z.of_N (Ascii.N_of_ascii c)) mod 16777216)
  end.

Definition demo_macro (name : string) : Z :=
  if String.eqb name "MODE_COUNT" then 118
  else if String.eqb name "NOTIFIER_CALL_MODE_BUTTON" then 2
  else 1 + demo_hash name 7.

Definition demo_advance (ms : Z) (g : @Globals demo_Externals)
  : @Globals demo_Externals :=
  mkGlobals (bri g) (col g) (effectCurrent g) (effectPalette g) (effectSpeed g)
    (effectIntensity g) (currentPreset g) (irEnabled g) (strip_isRgbw g)
    (clock_ms g + ms) (wled g).

Definition demo_applyPreset (presetNum : Z) (g : @Globals demo_Externals)
  : bool * @Globals demo_Externals :=
  if presetNum <=? 3
  then (true,
        mkGlobals (bri g) (col g) (effectCurrent g) (effectPalette g)
          (effectSpeed g) (effectIntensity g) presetNum (irEnabled g)
          (strip_isRgbw g) (clock_ms g + 700) (wled g))
  else (false, demo_advance 700 g).

Definition demo_decode (pending : list Z) : option Z * list Z :=
  match pending with
  | [] => (None, [])
  | value :: rest => (Some value, rest)
  end.

Definition demo_Collaborators : @Collaborators demo_Externals :=
  {| macro := demo_macro;
     irPin := 4;
     powerOff := set_bri 0;
     powerOn := set_bri 128;
     toggleOnOff := fun g => set_bri (if bri g =? 0 then 128 else 0) g;
     powerOffWhite := set_col (0, 0, 0, 0);
     powerOnWhite := set_col (0, 0, 0, 255);
     toggleOnOffWhite := fun g => g;
     colorFromUint24 := fun c _ g =>
       set_col ((c / 65536) mod 256, (c / 256) mod 256, c mod 256, 0) g;
     colorFromUint24_default_secondary := false;
     colorFromUint32 := fun c g =>
       set_col ((c / 65536) mod 256, (c / 256) mod 256, c mod 256,
                (c / 16777216) mod 256) g;
     changeHue := fun _ g => g;
     changeSaturation := fun _ g => g;
     applyPreset := demo_applyPreset;
     getPaletteCount := fun _ => 56;
     colorUpdated := fun _ => demo_advance 3;
     new_IRrecv := fun _ => [];
     enableIRIn := fun r => r;
     decode := demo_decode;
     resume := fun r => r |}.

(** Globals with the remote [selector] chosen and the clock at [now]. *)
Definition demo_globals (selector now : Z) : @Globals demo_Externals :=
  @mkGlobals demo_Externals 128 (255, 160, 0, 0) 0 0 128 128 0 selector false
    now tt.

Definition demo_boot (selector now : Z) : @State demo_Externals :=
  boot (demo_globals selector now).

(** The state [s] as the next tick finds it when the clock reads [now] and
    the receiver has [pending] to deliver. *)
Definition demo_at (now : Z) (pending : list Z) (s : @State demo_Externals)
  : @State demo_Externals :=
  let g := globals s in
  mkState
    (mkGlobals (bri g) (col g) (effectCurrent g) (effectPalette g)
       (effectSpeed g) (effectIntensity g) (currentPreset g) (irEnabled g)
       (strip_isRgbw g) now (wled g))
    (_lastRepeatableAction s) (_repeat_count s) (_last_action_time s)
    (color_index s) (presetSelectTime s) (preset_results s)
    (match irrecv s with Some r => Some (r ++ pending) | None => None end)
    (irCheckedTime s) (ir_results s) (trace s) (keymap_reads s).

(** Invoke the actions of a list one after the other. *)
Fixpoint Action_calls `{Collaborators} (presses : list ActionType) (s : State)
  : option State :=
  match presses with
  | [] => Some s
  | a :: rest => s <- Action_call a s ;; Action_calls rest s
  end.

(** A state in which the action [a] was performed last, stamped [stamp],
    found at the time [now] with the remote [selector] chosen and no
    receiver held. *)
Definition demo_pressed (selector : Z) (a : ActionType) (stamp now : Z)
  : @State demo_Externals :=
  mkState (demo_globals selector now) (Some a) 1 stamp 0 0 (fun _ => 0)
    None 0 0 [] 0%nat.

(** A state in which the receiver is held with [pending] to deliver and the
    last poll was at [polled]. *)
Definition demo_armed (selector now polled : Z) (pending : list Z)
  : @State demo_Externals :=
  mkState (demo_globals selector now) None 0 0 0 0 (fun _ => 0)
    (Some pending) polled 0 [] 0%nat.

(** The state a step of the poller leaves. *)
Definition demo_step (s : @State demo_Externals) : @State demo_Externals :=
  match @handleIR demo_Externals demo_Collaborators s with
  | Some s' => s'
  | None => s
  end.

(** Two calls of [presetButtonsConfigured] in a row under the old 24-key
    remote, from the state at program start. *)
Definition demo_first_count : option (Z * @State demo_Externals) :=
  @presetButtonsConfigured demo_Externals demo_Collaborators (demo_boot 1 1000).
Definition demo_second_count : option (Z * @State demo_Externals) :=
  '(_, s) <- demo_first_count ;;
  @presetButtonsConfigured demo_Externals demo_Collaborators s.

(** An array with the code 7 twice, a null entry, and an entry behind it. *)
Definition demo_keyMap_before : list KeyMap :=
  [ mkKeyMap 5 Action_PowerOn ].
Definition demo_keyMap_after : list KeyMap :=
  [ mkKeyMap 7 Action_Bright_Down; null_entry; mkKeyMap 9 Action_PowerOff ].

(** ** Notions the statements use *)

(** The entries a scan of [keyMap] meets ahead of the first entry whose code
    is zero: the buttons the remote defines. *)
Fixpoint recognized (keyMap : list KeyMap) : list KeyMap :=
  match keyMap with
  | [] => []
  | k :: next => if irCode k =? 0 then [] else k :: recognized next
  end.

(** The array holds an entry whose code is zero. *)
Definition terminated (keyMap : list KeyMap) : Prop :=
  exists k, In k keyMap /\ irCode k = 0.

(** The entry is bound to the tenth preset: the test of
    [presetButtonsConfigured]. *)
Definition is_tenth_preset (k : KeyMap) : bool :=
  (enum_value Action_Preset_10 <=? enum_value (actionType k))
  && (enum_value (actionType k) <=? enum_value Action_Preset_10).

Definition tenth_preset_buttons (keyMap : list KeyMap) : nat :=
  List.length (filter is_tenth_preset (recognized keyMap)).

(** The reading of the clock against a time stamp, as the code forms it. *)
Definition elapsed_since `{Externals} (stamp : Z) (s : State) : Z :=
  sub_uint32 (millis (globals s)) stamp.

(** The early return of [operator()]: a repeat of a non-repeatable action
    less than 500 ms after the last stamp. *)
Definition suppressed `{Collaborators} (this : ActionType) (s : State) : bool :=
  is_lastRepeatableAction this s
  && negb (_is_repeatable (actions this))
  && (elapsed_since (_last_action_time s) s <? 500).

(** The state in which [operator()] enters the bound function when it does
    not return early: the repeat bookkeeping done and the time stamped. *)
Definition entering `{Collaborators} (this : ActionType) (s : State) : State :=
  let s :=
    if is_lastRepeatableAction this s
    then set_repeat_count (to_byte (_repeat_count s + 1))
           (emit (Serial_println "Repeating Action") s)
    else set_repeat_count 1 (set_lastRepeatableAction (Some this) s) in
  emit (call_action_fn this)
    (set_last_action_time (millis (globals s))
       (emit (DEBUG_PRINTF_Performing_Action (name (actions this))) s)).

(** The state in which [operator()] returns, [s] being the state in which
    the bound function returned. *)
Definition notified `{Collaborators} (s : State) : State :=
  on_globals (colorUpdated NOTIFIER_CALL_MODE_BUTTON)
    (emit (call_colorUpdated NOTIFIER_CALL_MODE_BUTTON) s).

(** The conditions under which every bound function is defined: a remote is
    selected, the effect and palette counts are not zero, and
    [color_index] is inside [colors]. *)
Definition configured `{Collaborators} (s : State) : Prop :=
  1 <= irEnabled (globals s) < ConfigurableRemoteCount
  /\ MODE_COUNT <> 0
  /\ getPaletteCount (globals s) <> 0
  /\ 0 <= color_index s < 13.

(** What a call of a bound function leaves alone: the statics of [Action]
    and of [handleIR], and the calls recorded so far. *)
Definition action_frame `{Externals} (s s' : State) : Prop :=
  _lastRepeatableAction s' = _lastRepeatableAction s
  /\ _repeat_count s' = _repeat_count s
  /\ _last_action_time s' = _last_action_time s
  /\ irrecv s' = irrecv s
  /\ irCheckedTime s' = irCheckedTime s
  /\ ir_results s' = ir_results s
  /\ trace s' = trace s.

(** The calls recorded by a step from [s] to [s']. *)
Definition events_of `{Externals} (s s' : State) : list Event :=
  skipn (List.length (trace s)) (trace s').

Definition is_decode (e : Event) : bool :=
  match e with
  | call_decode _ => true
  | _ => false
  end.

(** The step of the poller that starts in [s] asks the decoder for a code. *)
Definition polls `{Collaborators} (s : State) : Prop :=
  exists s', handleIR s = Some s' /\ existsb is_decode (events_of s s') = true.

(** What happens between two steps of the poller: the rest of the firmware
    runs and time passes, so the globals and the content of the receiver
    may change; the statics of [ir.cpp] stay. *)
Definition between_ticks `{Externals} (s next : State) : Prop :=
  irCheckedTime next = irCheckedTime s
  /\ (irrecv next = None <-> irrecv s = None).

(** A run of the poller: the states in which its successive steps start.
    The clock of a step is read where it starts, and it does not run
    backwards from one start to the next. *)
Inductive poller_run `{Collaborators} : list State -> Prop :=
| run_last : forall s, poller_run [s]
| run_step : forall s s' next rest,
    handleIR s = Some s' ->
    between_ticks s' next ->
    clock_ms (globals s) <= clock_ms (globals next) ->
    poller_run (next :: rest) ->
    poller_run (s :: next :: rest).

(** What a dispatch leaves alone: the receiver, the time of the last poll,
    and the decoder, which it never asks. *)
Definition dispatch_frame `{Externals} (s s' : State) : Prop :=
  irrecv s' = irrecv s
  /\ irCheckedTime s' = irCheckedTime s
  /\ exists events,
       trace s' = trace s ++ events /\ existsb is_decode events = false.

(** The time of the last poll is a reading of the clock taken between the
    time [t0] and now. *)
Definition polled_since `{Externals} (t0 : Z) (s : State) : Prop :=
  exists t, t0 <= t <= clock_ms (globals s)
            /\ irCheckedTime s = to_uint32 t.

(** [n] increments of a cache byte. *)
Fixpoint bump (n : nat) (r : Z) : Z :=
  match n with
  | O => r
  | S m => bump m (to_byte (r + 1))
  end.

(** ** Notions for the further properties *)

(** The globals as a later moment finds them: the clock at [now]. *)
Definition set_clock_ms `{Externals} (now : Z) (g : Globals) : Globals :=
  mkGlobals (bri g) (col g) (effectCurrent g) (effectPalette g) (effectSpeed g)
    (effectIntensity g) (currentPreset g) (irEnabled g) (strip_isRgbw g)
    now (wled g).

(** Each byte of the preset cache is zero or the count of its mapping. *)
Definition cache_consistent `{Collaborators} (s : State) : Prop :=
  forall index mapping,
    remoteMapping index = Some mapping ->
    preset_results s index = 0
    \/ preset_results s index = Z.of_nat (tenth_preset_buttons mapping).

(** The invariant of the statics under which the poller runs: the index of
    [actionColorRotate] is inside [colors], the repeat counter is a byte,
    and the preset cache is consistent. *)
Definition ir_invariant `{Collaborators} (s : State) : Prop :=
  0 <= color_index s < 13
  /\ 0 <= _repeat_count s < 256
  /\ cache_consistent s.

(** No code was reported on [Serial] among the events: nothing was
    dispatched. *)
Definition is_IR_recv (e : Event) : bool :=
  match e with
  | Serial_printf_IR_recv _ => true
  | _ => false
  end.

(** [n] calls of a function of the state, one after the other. *)
Fixpoint times `{Externals} (n : nat) (f : State -> option State) (s : State)
  : option State :=
  match n with
  | O => Some s
  | S m => s <- f s ;; times m f s
  end.

(** Further states of the stand-in firmware: the power toggle performed
    100 ms ahead of the wrap of the clock, and the second preset applied
    at 1000. *)
Definition demo_toggled : @State demo_Externals :=
  match @Action_call demo_Externals demo_Collaborators Action_PowerToggle
          (demo_boot 6 (2 ^ 32 - 100)) with
  | Some s' => s'
  | None => demo_boot 6 (2 ^ 32 - 100)
  end.

Definition demo_preset_2_applied : @State demo_Externals :=
  boot (snd (demo_applyPreset 2 (demo_globals 10 1000))).

(** * Properties *)

(** ** The search of a key map *)

Section Resolver.

Lemma handleIRCode_loop_app (before rest : list KeyMap) (code : Z) :
  Forall (fun e => irCode e <> 0 /\ irCode e <> code) before ->
  handleIRCode_loop (before ++ rest) code =
    '(found, reads) <- handleIRCode_loop rest code ;;
    Some (found, (List.length before + reads)%nat).
Proof.
  induction 1 as [|e before [Hz Hc] _ IH]; simpl.
  - destruct (handleIRCode_loop rest code) as [[found reads]|]; reflexivity.
  - apply Z.eqb_neq in Hz, Hc. rewrite Hz, Hc, IH.
    destruct (handleIRCode_loop rest code) as [[found reads]|]; reflexivity.
Qed.

Lemma handleIRCode_loop_zero (keyMap : list KeyMap) (a : ActionType) (reads : nat) :
  handleIRCode_loop keyMap 0 <> Some (Some a, reads).
Proof.
  revert reads. induction keyMap as [|k next IH]; simpl; intros reads.
  - discriminate.
  - destruct (irCode k =? 0) eqn:Hk; [discriminate|].
    destruct (handleIRCode_loop next 0) as [[found n]|]; simpl; [|discriminate].
    intros Heq. injection Heq as Hf _. subst found. exact (IH n eq_refl).
Qed.

Lemma recognized_prefix (before : list KeyMap) (k : KeyMap) (after : list KeyMap) :
  Forall (fun e => irCode e <> 0) before ->
  irCode k = 0 ->
  recognized (before ++ k :: after) = before.
Proof.
  induction 1 as [|e before Hz _ IH]; simpl; intros Hk.
  - rewrite Hk. reflexivity.
  - apply Z.eqb_neq in Hz. rewrite Hz, IH by assumption. reflexivity.
Qed.

(** A terminated array splits at its first null entry. *)
Lemma terminated_split (keyMap : list KeyMap) :
  terminated keyMap ->
  exists k after,
    keyMap = recognized keyMap ++ k :: after /\ irCode k = 0.
Proof.
  intros (z & Hin & Hz).
  induction keyMap as [|k next IH]; [contradiction|].
  simpl. destruct (irCode k =? 0) eqn:Hk.
  - exists k, next. apply Z.eqb_eq in Hk. split; [reflexivity|assumption].
  - destruct Hin as [->|Hin]; [apply Z.eqb_neq in Hk; contradiction|].
    destruct (IH Hin) as (k0 & after & Heq & Hk0).
    exists k0, after. split; [|assumption].
    simpl. f_equal. exact Heq.
Qed.

Lemma recognized_nonzero (keyMap : list KeyMap) :
  Forall (fun e => irCode e <> 0) (recognized keyMap).
Proof.
  induction keyMap as [|k next IH]; simpl; [constructor|].
  destruct (irCode k =? 0) eqn:Hk; constructor.
  - apply Z.eqb_neq. exact Hk.
  - exact IH.
Qed.

(** A code that no recognized entry holds is not found, and the scan reads
    the recognized entries and the null entry. *)
Lemma handleIRCode_loop_miss (keyMap : list KeyMap) (code : Z) :
  terminated keyMap ->
  ~ In code (map irCode (recognized keyMap)) ->
  handleIRCode_loop keyMap code =
    Some (None, S (List.length (recognized keyMap))).
Proof.
  intros Hterm Hnot.
  destruct (terminated_split keyMap Hterm) as (k & after & Heq & Hk).
  rewrite Heq at 1. rewrite handleIRCode_loop_app.
  - simpl. rewrite Hk. simpl. rewrite Nat.add_1_r. reflexivity.
  - pose proof (recognized_nonzero keyMap) as Hnz.
    rewrite Forall_forall in *. intros e He. split; [apply Hnz, He|].
    intros Hc. apply Hnot. rewrite <- Hc. apply in_map. exact He.
Qed.

(** C2. The scan goes through the entries in their order in the array.
    The first entry that holds the code gives the action type, whatever
    comes after it, a later entry with the same code included (1).  An
    entry whose code is zero, reached ahead of any match, ends the scan
    with nothing found (2).  The code zero is never found (3). *)
Theorem C2_first_match_wins
    (before after : list KeyMap) (k : KeyMap) (code : Z) :
  Forall (fun e => irCode e <> 0 /\ irCode e <> code) before ->
  (irCode k = code -> code <> 0 ->
     handleIRCode_loop (before ++ k :: after) code =
       Some (Some (actionType k), S (List.length before)))
  /\ (irCode k = 0 ->
        handleIRCode_loop (before ++ k :: after) code =
          Some (None, S (List.length before)))
  /\ (forall keyMap a reads,
        handleIRCode_loop keyMap 0 <> Some (Some a, reads)).
Proof.
  intros Hbefore. repeat split.
  - intros Hk Hcode. rewrite handleIRCode_loop_app by assumption.
    simpl. subst code. apply Z.eqb_neq in Hcode. rewrite Hcode, Z.eqb_refl.
    simpl. rewrite Nat.add_1_r. reflexivity.
  - intros Hk. rewrite handleIRCode_loop_app by assumption.
    simpl. rewrite Hk. simpl. rewrite Nat.add_1_r. reflexivity.
  - intros keyMap a reads. apply handleIRCode_loop_zero.
Qed.

Lemma C2_first_match_wins_witness :
  handleIRCode_loop
    (demo_keyMap_before ++ mkKeyMap 7 Action_Bright_Up :: demo_keyMap_after) 7
  = Some (Some Action_Bright_Up, 2%nat)
  /\ handleIRCode_loop
       ([mkKeyMap 5 Action_PowerOn; mkKeyMap 7 Action_Bright_Up]
          ++ null_entry :: [mkKeyMap 9 Action_PowerOff]) 9
     = Some (None, 3%nat).
Proof.
  split.
  - apply (C2_first_match_wins demo_keyMap_before demo_keyMap_after
             (mkKeyMap 7 Action_Bright_Up) 7).
    + repeat constructor; simpl; lia.
    + reflexivity.
    + lia.
  - apply (C2_first_match_wins
             [mkKeyMap 5 Action_PowerOn; mkKeyMap 7 Action_Bright_Up]
             [mkKeyMap 9 Action_PowerOff] null_entry 9).
    + repeat constructor; simpl; lia.
    + reflexivity.
Defined.

End Resolver.

(** ** The bound functions *)

Lemma bump_S (n : nat) (r : Z) :
  bump (S n) r = (r + Z.of_nat (S n)) mod 256.
Proof.
  revert r. induction n as [|n IH]; intros r.
  - reflexivity.
  - change (bump (S (S n)) r) with (bump (S n) (to_byte (r + 1))).
    rewrite IH. unfold to_byte. rewrite Zplus_mod_idemp_l.
    f_equal. lia.
Qed.

Lemma bump_from_zero (n : nat) :
  (n < 256)%nat -> bump n 0 = Z.of_nat n.
Proof.
  intros Hn. destruct n as [|n]; [reflexivity|].
  rewrite bump_S. apply Z.mod_small. lia.
Qed.

Section BoundFunctions.
Context {E : Externals} {C : Collaborators}.

Lemma action_frame_refl (s : State) : action_frame s s.
Proof. unfold action_frame. tauto. Qed.

Lemma action_frame_trans (s1 s2 s3 : State) :
  action_frame s1 s2 -> action_frame s2 s3 -> action_frame s1 s3.
Proof.
  unfold action_frame.
  intros (H1 & H2 & H3 & H4 & H5 & H6 & H7) (G1 & G2 & G3 & G4 & G5 & G6 & G7).
  repeat split; congruence.
Qed.

(** What the loop of [presetButtonsConfigured] does when it ends. *)
Lemma presetButtonsConfigured_loop_result (keyMap : list KeyMap) :
  forall s s',
    presetButtonsConfigured_loop keyMap s = Some s' ->
    action_frame s s'
    /\ globals s' = globals s
    /\ color_index s' = color_index s
    /\ presetSelectTime s' = presetSelectTime s
    /\ keymap_reads s' = (keymap_reads s + S (List.length (recognized keyMap)))%nat
    /\ (forall i, i <> irEnabled (globals s) ->
          preset_results s' i = preset_results s i)
    /\ preset_results s' (irEnabled (globals s)) =
         bump (tenth_preset_buttons keyMap)
           (preset_results s (irEnabled (globals s))).
Proof.
  induction keyMap as [|k next IH]; intros s s' Hloop; [discriminate|].
  cbn [presetButtonsConfigured_loop] in Hloop.
  unfold tenth_preset_buttons. simpl recognized.
  destruct (irCode k =? 0) eqn:Hk.
  - injection Hloop as <-. simpl.
    repeat split; try reflexivity; lia.
  - fold (is_tenth_preset k) in Hloop. simpl filter.
    destruct (is_tenth_preset k) eqn:Hten.
    + apply IH in Hloop. simpl in Hloop.
      destruct Hloop as (Hf & Hg & Hc & Hp & Hr & Ho & Hi).
      rewrite Z.eqb_refl in Hi.
      repeat split; try (destruct Hf as (F1 & F2 & F3 & F4 & F5 & F6 & F7);
                         assumption); try assumption.
      * simpl. rewrite Hr. simpl. lia.
      * intros i Hne. rewrite (Ho i Hne).
        apply Z.eqb_neq in Hne. rewrite Hne. reflexivity.
    + apply IH in Hloop. simpl in Hloop.
      destruct Hloop as (Hf & Hg & Hc & Hp & Hr & Ho & Hi).
      repeat split; try (destruct Hf as (F1 & F2 & F3 & F4 & F5 & F6 & F7);
                         assumption); try assumption.
      simpl. rewrite Hr. simpl. lia.
Qed.

Lemma presetButtonsConfigured_loop_defined (keyMap : list KeyMap) :
  terminated keyMap ->
  forall s, exists s', presetButtonsConfigured_loop keyMap s = Some s'.
Proof.
  intros (z & Hin & Hz).
  induction keyMap as [|k next IH]; [contradiction|]. intros s. simpl.
  destruct (irCode k =? 0) eqn:Hk; [eexists; reflexivity|].
  destruct Hin as [->|Hin]; [apply Z.eqb_neq in Hk; contradiction|].
  match goal with |- context [if ?c then _ else _] => destruct c end;
    apply (IH Hin).
Qed.

Lemma tenth_preset_buttons_cons (k : KeyMap) (next : list KeyMap) :
  tenth_preset_buttons (k :: next) =
    if irCode k =? 0 then 0%nat
    else if is_tenth_preset k then S (tenth_preset_buttons next)
    else tenth_preset_buttons next.
Proof.
  unfold tenth_preset_buttons. simpl.
  destruct (irCode k =? 0); [reflexivity|]. simpl.
  destruct (is_tenth_preset k); reflexivity.
Qed.

Lemma tenth_preset_buttons_other (k : KeyMap) (next : list KeyMap) (n : nat) :
  is_tenth_preset k = false ->
  (tenth_preset_buttons next <= n)%nat ->
  (tenth_preset_buttons (k :: next) <= n)%nat.
Proof.
  intros Hk Hn. rewrite tenth_preset_buttons_cons, Hk.
  destruct (irCode k =? 0); lia.
Qed.

Lemma tenth_preset_buttons_tenth (k : KeyMap) (next : list KeyMap) :
  (tenth_preset_buttons next <= 0)%nat ->
  (tenth_preset_buttons (k :: next) <= 1)%nat.
Proof.
  intros Hn. rewrite tenth_preset_buttons_cons.
  destruct (irCode k =? 0); [lia|]. destruct (is_tenth_preset k); lia.
Qed.

(** Each array of [buttonActions] ends in its null entry and binds at
    most one button to the tenth preset, whatever the values of the code
    macros. *)
Lemma remoteMapping_selected (index : Z) :
  1 <= index < ConfigurableRemoteCount ->
  exists mapping,
    remoteMapping index = Some mapping
    /\ terminated mapping
    /\ (tenth_preset_buttons mapping <= 1)%nat.
Proof.
  unfold ConfigurableRemoteCount. intros Hindex.
  assert (Hcases : index = 1 \/ index = 2 \/ index = 3 \/ index = 4
                   \/ index = 5 \/ index = 6 \/ index = 7 \/ index = 8
                   \/ index = 9 \/ index = 10 \/ index = 11) by lia.
  assert (Hnull : irCode null_entry = 0) by reflexivity.
  assert (Hnil : forall n, (tenth_preset_buttons [] <= n)%nat)
    by (intros n; unfold tenth_preset_buttons; simpl; lia).
  repeat (destruct Hcases as [->|Hcases]); [..|subst index];
    (eexists; split; [reflexivity|]; split;
     [ exists null_entry; split; [|exact Hnull];
       repeat (first [left; reflexivity | right])
     | repeat (first
                 [ apply Hnil
                 | apply tenth_preset_buttons_other; [reflexivity|]
                 | apply tenth_preset_buttons_tenth ]) ]).
Qed.
(** What a call of [presetButtonsConfigured] leaves alone. *)
Lemma presetButtonsConfigured_frame (s s' : State) (n : Z) :
  presetButtonsConfigured s = Some (n, s') ->
  action_frame s s'
  /\ globals s' = globals s
  /\ color_index s' = color_index s
  /\ presetSelectTime s' = presetSelectTime s.
Proof.
  unfold presetButtonsConfigured.
  destruct ((0 <=? irEnabled (globals s))
            && (irEnabled (globals s) <? ConfigurableRemoteCount));
    [|discriminate].
  destruct (preset_results s (irEnabled (globals s)) =? 0).
  - destruct (remoteMapping (irEnabled (globals s))) as [mapping|];
      [|discriminate]. simpl.
    destruct (presetButtonsConfigured_loop mapping s) as [s1|] eqn:Hloop;
      [|discriminate]. simpl.
    intros Heq. injection Heq as _ <-.
    apply presetButtonsConfigured_loop_result in Hloop. tauto.
  - simpl. intros Heq. injection Heq as _ <-.
    repeat split; reflexivity.
Qed.

Lemma presetButtonsConfigured_defined (s : State) :
  1 <= irEnabled (globals s) < ConfigurableRemoteCount ->
  exists n s', presetButtonsConfigured s = Some (n, s').
Proof.
  intros Hsel. unfold presetButtonsConfigured.
  replace ((0 <=? irEnabled (globals s))
           && (irEnabled (globals s) <? ConfigurableRemoteCount)) with true
    by (symmetry; apply andb_true_iff; split;
        [apply Z.leb_le|apply Z.ltb_lt]; lia).
  destruct (preset_results s (irEnabled (globals s)) =? 0).
  - destruct (remoteMapping_selected _ Hsel) as (mapping & -> & Hterm & _).
    simpl.
    destruct (presetButtonsConfigured_loop_defined mapping Hterm s)
      as (s1 & ->).
    simpl. eauto.
  - simpl. eauto.
Qed.

Lemma actionApplyPreset_frame (presetNum : Z) (s s' : State) :
  actionApplyPreset presetNum s = Some s' -> action_frame s s'.
Proof.
  unfold actionApplyPreset.
  match goal with
  | |- context [bind ?second_press _] =>
      assert (Hfirst : forall p s1, second_press = Some (p, s1) ->
                                    action_frame s s1);
      [|destruct second_press as [[p s1]|]; [|discriminate]]
  end.
  { intros p s1.
    match goal with |- context [if ?c then _ else _] => destruct c end.
    - destruct (presetButtonsConfigured s) as [[n s2]|] eqn:Hp;
        [|discriminate].
      simpl. intros Heq. injection Heq as _ <-.
      apply presetButtonsConfigured_frame in Hp. tauto.
    - intros Heq. injection Heq as _ <-. apply action_frame_refl. }
  specialize (Hfirst p s1 eq_refl). simpl.
  destruct (applyPreset p (globals s1)) as [applied g].
  match goal with
  | |- context [bind ?fallback _] => destruct fallback as [g1|]
  end; [|discriminate].
  simpl. intros Heq. injection Heq as <-.
  apply (action_frame_trans _ _ _ Hfirst). repeat split; reflexivity.
Qed.

Lemma actionApplyPreset_defined (presetNum : Z) (s : State) :
  1 <= irEnabled (globals s) < ConfigurableRemoteCount ->
  exists s', actionApplyPreset presetNum s = Some s'.
Proof.
  intros Hsel. unfold actionApplyPreset.
  match goal with
  | |- context [bind ?second_press _] =>
      assert (Hfirst : exists p s1, second_press = Some (p, s1))
  end.
  { match goal with |- context [if ?c then _ else _] => destruct c end.
    - destruct (presetButtonsConfigured_defined s Hsel) as (n & s1 & ->).
      simpl. eauto.
    - eauto. }
  destruct Hfirst as (p & s1 & ->). simpl.
  destruct (applyPreset p (globals s1)) as [applied g].
  destruct applied; simpl; [eauto|].
  match goal with
  | |- context [nth_error fallbacks ?i] =>
      destruct (nth_error fallbacks i) as [fx|] eqn:Hfx
  end; simpl; [eauto|].
  apply nth_error_None in Hfx. simpl in Hfx.
  pose proof (Z.mod_pos_bound (to_uint32 (p - 1)) 10 ltac:(lia)).
  lia.
Qed.

Lemma actionColorRotate_frame (s s' : State) :
  actionColorRotate s = Some s' -> action_frame s s'.
Proof.
  unfold actionColorRotate.
  destruct (color_index s <? 0); [discriminate|].
  destruct (nth_error actionColorRotate_colors (Z.to_nat (color_index s)));
    [|discriminate].
  simpl. intros Heq. injection Heq as <-. repeat split; reflexivity.
Qed.

Lemma actionColorRotate_defined (s : State) :
  0 <= color_index s < 13 ->
  exists s', actionColorRotate s = Some s'.
Proof.
  intros Hci. unfold actionColorRotate.
  replace (color_index s <? 0) with false by (symmetry; apply Z.ltb_ge; lia).
  destruct (nth_error actionColorRotate_colors (Z.to_nat (color_index s)))
    as [color|] eqn:Hc; simpl; [eauto|].
  apply nth_error_None in Hc. simpl in Hc. lia.
Qed.

Lemma total_frame (f : Globals -> Globals) (s s' : State) :
  total f s = Some s' -> action_frame s s'.
Proof.
  unfold total. intros Heq. injection Heq as <-. repeat split; reflexivity.
Qed.

Lemma partial_frame (f : Globals -> option Globals) (s s' : State) :
  partial f s = Some s' -> action_frame s s'.
Proof.
  unfold partial. destruct (f (globals s)); [|discriminate].
  simpl. intros Heq. injection Heq as <-. repeat split; reflexivity.
Qed.

(** A bound function touches neither the repeat bookkeeping, nor the
    statics of the poller, nor the record of the calls. *)
Lemma action_fn_frame (a : ActionType) (s s' : State) :
  _action_fn (actions a) s = Some s' -> action_frame s s'.
Proof.
  destruct a; cbv beta iota delta [actions default_Action _action_fn];
    intros Hfn;
    first [ exact (total_frame _ _ _ Hfn)
          | exact (partial_frame _ _ _ Hfn)
          | exact (actionApplyPreset_frame _ _ _ Hfn)
          | exact (actionColorRotate_frame _ _ Hfn) ].
Qed.

(** Every bound function is defined in a configured state. *)
Lemma action_fn_defined (a : ActionType) (s : State) :
  configured s ->
  exists s', _action_fn (actions a) s = Some s'.
Proof.
  intros (Hsel & Hmode & Hpal & Hci).
  assert (Hpreset : forall offset,
             exists s', partial (actionChangePreset offset) s = Some s').
  { intros offset. unfold partial, actionChangePreset.
    apply Z.eqb_neq in Hmode. rewrite Hmode. simpl. eauto. }
  assert (Hpalette : forall offset,
             exists s', partial (actionChangePalette offset) s = Some s').
  { intros offset. unfold partial, actionChangePalette.
    apply Z.eqb_neq in Hpal. rewrite Hpal. simpl. eauto. }
  destruct a; cbv beta iota delta [actions default_Action _action_fn];
    first [ eexists; reflexivity
          | apply Hpreset
          | apply Hpalette
          | apply actionApplyPreset_defined; exact Hsel
          | apply actionColorRotate_defined; exact Hci ].
Qed.

End BoundFunctions.

(** ** Invocation of an action and the repeat bookkeeping *)

Lemma enum_value_inj (a b : ActionType) :
  enum_value a = enum_value b -> a = b.
Proof.
  destruct a; simpl; intros Hb; destruct b; try reflexivity; discriminate Hb.
Qed.

Lemma same_action_true (a b : ActionType) :
  same_action a b = true <-> a = b.
Proof.
  unfold same_action. rewrite Z.eqb_eq. split.
  - apply enum_value_inj.
  - intros ->. reflexivity.
Qed.

Section Invocation.
Context {E : Externals} {C : Collaborators}.

Lemma is_lastRepeatableAction_true (this : ActionType) (s : State) :
  is_lastRepeatableAction this s = true <-> _lastRepeatableAction s = Some this.
Proof.
  unfold is_lastRepeatableAction.
  destruct (_lastRepeatableAction s) as [last|].
  - rewrite same_action_true. split; congruence.
  - split; discriminate.
Qed.

Lemma is_lastRepeatableAction_false (this : ActionType) (s : State) :
  is_lastRepeatableAction this s = false <-> _lastRepeatableAction s <> Some this.
Proof.
  rewrite <- is_lastRepeatableAction_true.
  destruct (is_lastRepeatableAction this s); split; congruence.
Qed.

(** The early return leaves the state as it is. *)
Lemma Action_call_suppressed (this : ActionType) (s : State) :
  suppressed this s = true -> Action_call this s = Some s.
Proof.
  unfold suppressed, elapsed_since, Action_call.
  destruct (is_lastRepeatableAction this s); [|discriminate].
  simpl. intros ->. reflexivity.
Qed.

(** Without the early return the bound function is entered in the state
    [entering this s], and the notifier runs after it. *)
Lemma Action_call_executes (this : ActionType) (s : State) :
  suppressed this s = false ->
  Action_call this s =
    s_fn <- _action_fn (actions this) (entering this s) ;;
    Some (notified s_fn).
Proof.
  unfold suppressed, elapsed_since, Action_call, entering.
  destruct (is_lastRepeatableAction this s); simpl.
  - intros ->. reflexivity.
  - reflexivity.
Qed.

Lemma configured_entering (this : ActionType) (s : State) :
  configured s -> configured (entering this s).
Proof.
  unfold configured, entering.
  destruct (is_lastRepeatableAction this s); simpl; tauto.
Qed.

(** An invocation that is not suppressed runs to its end in a configured
    state, and leaves a record of the function call and of the
    notification. *)
Lemma Action_call_runs (this : ActionType) (s : State) :
  suppressed this s = false ->
  configured s ->
  exists s_fn,
    _action_fn (actions this) (entering this s) = Some s_fn
    /\ Action_call this s = Some (notified s_fn)
    /\ action_frame (entering this s) s_fn
    /\ trace (notified s_fn) =
         trace (entering this s)
           ++ [call_colorUpdated NOTIFIER_CALL_MODE_BUTTON].
Proof.
  intros Hsup Hconf.
  destruct (action_fn_defined this (entering this s)
              (configured_entering this s Hconf)) as (s_fn & Hfn).
  exists s_fn. rewrite (Action_call_executes this s Hsup), Hfn.
  pose proof (action_fn_frame this _ _ Hfn) as Hframe.
  repeat split; try apply Hframe.
  simpl. destruct Hframe as (_ & _ & _ & _ & _ & _ & ->). reflexivity.
Qed.

(** C1. A repeat of a non-repeatable action less than 500 ms after the
    last stamp returns at once and leaves the whole state as it was: the
    bound function is not called, nothing is notified, and the last
    action, the stamp and the counter stay (1).  A repeat of a repeatable
    action, or one that comes 500 ms or more after the stamp, calls the
    bound function and then the notifier (2).  The time elapsed is the
    difference of the clock and the stamp as unsigned 32-bit numbers. *)
Theorem C1_debounce (this : ActionType) (s : State) :
  _lastRepeatableAction s = Some this ->
  (_is_repeatable (actions this) = false ->
   elapsed_since (_last_action_time s) s < 500 ->
   Action_call this s = Some s)
  /\ (_is_repeatable (actions this) = true
      \/ 500 <= elapsed_since (_last_action_time s) s ->
      configured s ->
      exists s_fn,
        _action_fn (actions this) (entering this s) = Some s_fn
        /\ Action_call this s = Some (notified s_fn)
        /\ trace (notified s_fn) =
             trace s
               ++ [ Serial_println "Repeating Action";
                    DEBUG_PRINTF_Performing_Action (name (actions this));
                    call_action_fn this;
                    call_colorUpdated NOTIFIER_CALL_MODE_BUTTON ]).
Proof.
  intros Hlast. apply is_lastRepeatableAction_true in Hlast. split.
  - intros Hrep Hlt. apply Action_call_suppressed.
    unfold suppressed. rewrite Hlast, Hrep. simpl.
    apply Z.ltb_lt. exact Hlt.
  - intros Hexec Hconf.
    assert (Hsup : suppressed this s = false).
    { unfold suppressed. rewrite Hlast. simpl.
      destruct Hexec as [->|Hge]; [reflexivity|].
      apply andb_false_iff. right. apply Z.ltb_ge. exact Hge. }
    destruct (Action_call_runs this s Hsup Hconf)
      as (s_fn & Hfn & Hcall & _ & Htrace).
    exists s_fn. repeat split; try assumption.
    rewrite Htrace. unfold entering. rewrite Hlast. simpl.
    repeat rewrite <- app_assoc. reflexivity.
Qed.

(** C8. An invocation that is not suppressed stamps the time ahead of the
    bound function: the function is entered in a state whose stamp is the
    clock read on the globals the invocation found, untouched so far, and
    the stamp is the same when the invocation returns, however long the
    function and the notifier ran. *)
Theorem C8_stamp_before_operation (this : ActionType) (s : State) :
  suppressed this s = false ->
  configured s ->
  exists s_fn,
    _action_fn (actions this) (entering this s) = Some s_fn
    /\ globals (entering this s) = globals s
    /\ _last_action_time (entering this s) = millis (globals s)
    /\ Action_call this s = Some (notified s_fn)
    /\ _last_action_time (notified s_fn) = millis (globals s).
Proof.
  intros Hsup Hconf.
  destruct (Action_call_runs this s Hsup Hconf)
    as (s_fn & Hfn & Hcall & Hframe & _).
  assert (Hg : globals (entering this s) = globals s)
    by (unfold entering; destruct (is_lastRepeatableAction this s);
        reflexivity).
  assert (Ht : _last_action_time (entering this s) = millis (globals s))
    by (unfold entering; destruct (is_lastRepeatableAction this s);
        reflexivity).
  exists s_fn. repeat split; try assumption.
  destruct Hframe as (_ & _ & Hstamp & _). simpl. congruence.
Qed.

(** C9, as the code has it.  An invocation of a repeatable action is never
    suppressed: the bound function and the notifier are called, and the
    action stays the last one, so the run goes on.  A fresh invocation
    sets the counter to 1; a repeat adds one to it as a byte, so the
    counter goes up by one while it is below 255 and goes from 255
    to 0. *)
Theorem C9_repeat_counter_byte (this : ActionType) (s : State) :
  _is_repeatable (actions this) = true ->
  configured s ->
  exists s_fn,
    _action_fn (actions this) (entering this s) = Some s_fn
    /\ Action_call this s = Some (notified s_fn)
    /\ In (call_action_fn this) (events_of s (notified s_fn))
    /\ _lastRepeatableAction (notified s_fn) = Some this
    /\ (_lastRepeatableAction s <> Some this ->
        _repeat_count (notified s_fn) = 1)
    /\ (_lastRepeatableAction s = Some this ->
        _repeat_count (notified s_fn) = (_repeat_count s + 1) mod 256
        /\ (0 <= _repeat_count s < 255 ->
            _repeat_count (notified s_fn) = _repeat_count s + 1)
        /\ (_repeat_count s = 255 -> _repeat_count (notified s_fn) = 0)).
Proof.
  intros Hrep Hconf.
  assert (Hsup : suppressed this s = false).
  { unfold suppressed. rewrite Hrep. simpl. rewrite andb_false_r.
    reflexivity. }
  destruct (Action_call_runs this s Hsup Hconf)
    as (s_fn & Hfn & Hcall & Hframe & Htrace).
  destruct Hframe as (Hlast & Hcount & _).
  exists s_fn. split; [exact Hfn|]. split; [exact Hcall|]. split.
  { unfold events_of. rewrite Htrace. unfold entering.
    destruct (is_lastRepeatableAction this s); simpl;
      repeat rewrite <- app_assoc; rewrite skipn_app, skipn_all, Nat.sub_diag;
      simpl; tauto. }
  split.
  { simpl. rewrite Hlast. unfold entering.
    destruct (is_lastRepeatableAction this s) eqn:His; simpl;
      [apply is_lastRepeatableAction_true; exact His|reflexivity]. }
  split.
  - intros Hfresh. apply is_lastRepeatableAction_false in Hfresh.
    simpl. rewrite Hcount. unfold entering. rewrite Hfresh. reflexivity.
  - intros His. apply is_lastRepeatableAction_true in His.
    assert (Hbyte : _repeat_count (notified s_fn) = (_repeat_count s + 1) mod 256).
    { simpl. rewrite Hcount. unfold entering. rewrite His. reflexivity. }
    split; [exact Hbyte|]. split.
    + intros Hlow. rewrite Hbyte. apply Z.mod_small. lia.
    + intros Hmax. rewrite Hbyte, Hmax. reflexivity.
Qed.
End Invocation.

(** ** Dispatch of a received code *)

Section Dispatch.
Context {E : Externals} {C : Collaborators}.

(** Only the indices of the remotes reach a mapping. *)
Lemma remoteMapping_Some (index : Z) (mapping : list KeyMap) :
  remoteMapping index = Some mapping ->
  1 <= index < ConfigurableRemoteCount.
Proof.
  unfold remoteMapping, ConfigurableRemoteCount.
  destruct (index <? 0) eqn:Hneg; [discriminate|].
  apply Z.ltb_ge in Hneg.
  destruct (nth_error buttonActions (Z.to_nat index)) as [entry_|] eqn:Hnth;
    [|discriminate].
  assert (Hlen : (Z.to_nat index < 12)%nat).
  { change 12%nat with (List.length buttonActions).
    apply nth_error_Some. congruence. }
  destruct (Z.eq_dec index 0) as [->|Hnz].
  - simpl in Hnth. injection Hnth as <-. discriminate.
  - intros _. lia.
Qed.

Lemma remoteMapping_terminated (index : Z) (mapping : list KeyMap) :
  remoteMapping index = Some mapping -> terminated mapping.
Proof.
  intros Hmap.
  destruct (remoteMapping_selected index (remoteMapping_Some _ _ Hmap))
    as (mapping' & Hmap' & Hterm & _).
  congruence.
Qed.

(** A code that the scan finds is handed to the action of its entry. *)
Lemma handleIRCode_found (code : Z) (s : State) (mapping : list KeyMap)
    (a : ActionType) (reads : nat) :
  code <> 0xFFFFFFFF ->
  remoteMapping (irEnabled (globals s)) = Some mapping ->
  handleIRCode_loop mapping code = Some (Some a, reads) ->
  handleIRCode code s = Action_call a (count_reads reads s).
Proof.
  intros Hcode Hmap Hloop. unfold handleIRCode.
  apply Z.eqb_neq in Hcode. rewrite Hcode, Hmap. simpl.
  rewrite Hloop. reflexivity.
Qed.

(** C3. A code other than the repeat code that no recognized entry of the
    selected mapping holds: the scan reads the recognized entries and the
    null entry, no action is invoked and nothing is notified (no call is
    recorded), the last action is cleared, and the repeat code then
    leaves the state as it is. *)
Theorem C3_unmapped_code_clears (code : Z) (s : State) (mapping : list KeyMap) :
  code <> 0xFFFFFFFF ->
  remoteMapping (irEnabled (globals s)) = Some mapping ->
  ~ In code (map irCode (recognized mapping)) ->
  exists s',
    handleIRCode code s = Some s'
    /\ s' = clearLastRepeatableAction
              (count_reads (S (List.length (recognized mapping))) s)
    /\ trace s' = trace s
    /\ globals s' = globals s
    /\ _lastRepeatableAction s' = None
    /\ handleIRCode 0xFFFFFFFF s' = Some s'.
Proof.
  intros Hcode Hmap Hnot. eexists. split; [|split; [reflexivity|]].
  - unfold handleIRCode. apply Z.eqb_neq in Hcode. rewrite Hcode, Hmap.
    simpl. rewrite (handleIRCode_loop_miss mapping code
                      (remoteMapping_terminated _ _ Hmap) Hnot).
    reflexivity.
  - repeat split; reflexivity.
Qed.

(** C4. The repeat code is handed to [repeatLast] whatever the selector
    is: no mapping is fetched and no entry is read.  With no last action
    the state stays as it is; with a last action the code is one more
    invocation of that action, early return included. *)
Theorem C4_repeat_code (s : State) :
  handleIRCode 0xFFFFFFFF s = repeatLast s
  /\ (_lastRepeatableAction s = None ->
      handleIRCode 0xFFFFFFFF s = Some s)
  /\ (forall last,
        _lastRepeatableAction s = Some last ->
        handleIRCode 0xFFFFFFFF s = Action_call last s
        /\ (suppressed last s = true ->
            handleIRCode 0xFFFFFFFF s = Some s)
        /\ (suppressed last s = false ->
            handleIRCode 0xFFFFFFFF s =
              s_fn <- _action_fn (actions last) (entering last s) ;;
              Some (notified s_fn))).
Proof.
  assert (Hrepeat : handleIRCode 0xFFFFFFFF s = repeatLast s) by reflexivity.
  split; [exact Hrepeat|]. rewrite Hrepeat. unfold repeatLast. split.
  - intros ->. reflexivity.
  - intros last ->. split; [reflexivity|]. split.
    + apply Action_call_suppressed.
    + apply Action_call_executes.
Qed.

Lemma Action_call_dispatch_frame (this : ActionType) (s s' : State) :
  Action_call this s = Some s' -> dispatch_frame s s'.
Proof.
  destruct (suppressed this s) eqn:Hsup.
  - rewrite (Action_call_suppressed this s Hsup).
    intros Heq. injection Heq as <-.
    repeat split. exists []. rewrite app_nil_r. split; reflexivity.
  - rewrite (Action_call_executes this s Hsup).
    destruct (_action_fn (actions this) (entering this s)) as [s_fn|] eqn:Hfn;
      [|discriminate].
    simpl. intros Heq. injection Heq as <-.
    destruct (action_fn_frame this _ _ Hfn)
      as (_ & _ & _ & Hrecv & Htime & _ & Htrace).
    unfold dispatch_frame. simpl. rewrite Hrecv, Htime, Htrace.
    unfold entering.
    destruct (is_lastRepeatableAction this s); simpl;
      (split; [reflexivity|]); (split; [reflexivity|]);
      repeat rewrite <- app_assoc; eexists; (split; [reflexivity|]);
      reflexivity.
Qed.

Lemma handleIRCode_dispatch_frame (code : Z) (s s' : State) :
  handleIRCode code s = Some s' -> dispatch_frame s s'.
Proof.
  unfold handleIRCode. destruct (code =? 0xFFFFFFFF).
  - unfold repeatLast. destruct (_lastRepeatableAction s) as [last|].
    + apply Action_call_dispatch_frame.
    + intros Heq. injection Heq as <-.
      repeat split. exists []. rewrite app_nil_r. split; reflexivity.
  - destruct (remoteMapping (irEnabled (globals s))) as [mapping|];
      [|discriminate]. simpl.
    destruct (handleIRCode_loop mapping code) as [[[a|] reads]|];
      [| |discriminate]; simpl.
    + intros Hcall. apply Action_call_dispatch_frame in Hcall. exact Hcall.
    + intros Heq. injection Heq as <-.
      repeat split. exists []. simpl. rewrite app_nil_r. split; reflexivity.
Qed.
End Dispatch.

(** ** The poller *)

Section Poller.
Context {E : Externals} {C : Collaborators}.

Lemma events_of_app (s s' : State) (events : list Event) :
  trace s' = trace s ++ events -> events_of s s' = events.
Proof.
  intros Htrace. unfold events_of. rewrite Htrace.
  rewrite skipn_app, skipn_all, Nat.sub_diag. reflexivity.
Qed.

Lemma events_of_same (s : State) : events_of s s = [].
Proof. apply events_of_app. rewrite app_nil_r. reflexivity. Qed.

(** C5. With the selector 0 or not below [ConfigurableRemoteCount] the
    step disables and deletes the receiver it holds, or does nothing when
    it holds none; it does not ask the decoder, and a second step from
    the state it leaves changes nothing (1).  With the selector of a
    remote and no receiver the step makes the receiver, enables it and
    returns, the decoder not asked (2). *)
Theorem C5_disabled_and_warm_up (s : State) :
  (irEnabled (globals s) = 0
   \/ ConfigurableRemoteCount <= irEnabled (globals s) ->
   exists s',
     handleIR s = Some s'
     /\ irrecv s' = None
     /\ (irrecv s <> None ->
         s' = set_irrecv None
                (emit call_delete_IRrecv (emit call_disableIRIn s))
         /\ events_of s s' = [call_disableIRIn; call_delete_IRrecv])
     /\ (irrecv s = None -> s' = s)
     /\ existsb is_decode (events_of s s') = false
     /\ handleIR s' = Some s')
  /\ (1 <= irEnabled (globals s) < ConfigurableRemoteCount ->
      irrecv s = None ->
      exists s',
        handleIR s = Some s'
        /\ irrecv s' = Some (enableIRIn (new_IRrecv irPin))
        /\ events_of s s' = [call_new_IRrecv irPin; call_enableIRIn]
        /\ existsb is_decode (events_of s s') = false).
Proof.
  split.
  - intros Hoff.
    assert (Htest : (irEnabled (globals s) =? 0)
                    || (ConfigurableRemoteCount <=? irEnabled (globals s))
                    = true).
    { apply orb_true_iff. destruct Hoff as [H0|Hhigh].
      - left. apply Z.eqb_eq. exact H0.
      - right. apply Z.leb_le. exact Hhigh. }
    unfold handleIR. rewrite Htest.
    destruct (irrecv s) as [receiver|] eqn:Hrecv.
    + eexists. split; [reflexivity|].
      assert (Hevents :
                events_of s
                  (set_irrecv None
                     (emit call_delete_IRrecv (emit call_disableIRIn s)))
                = [call_disableIRIn; call_delete_IRrecv]).
      { apply events_of_app. simpl. rewrite <- app_assoc. reflexivity. }
      split; [reflexivity|]. split; [intros _; split; [reflexivity|exact Hevents]|].
      split; [discriminate|]. split; [rewrite Hevents; reflexivity|].
      simpl. rewrite Htest. reflexivity.
    + exists s. split; [reflexivity|]. split; [exact Hrecv|].
      split; [intros Hsome; contradiction|]. split; [reflexivity|].
      split; [rewrite events_of_same; reflexivity|].
      rewrite Htest, Hrecv. reflexivity.
  - intros Hsel Hnone.
    assert (Htest : (irEnabled (globals s) =? 0)
                    || (ConfigurableRemoteCount <=? irEnabled (globals s))
                    = false).
    { apply orb_false_iff. split; [apply Z.eqb_neq|apply Z.leb_gt]; lia. }
    unfold handleIR. rewrite Htest, Hnone.
    eexists. split; [reflexivity|]. split; [reflexivity|].
    assert (Hevents :
              events_of s
                (set_irrecv (Some (enableIRIn (new_IRrecv irPin)))
                   (emit call_enableIRIn (emit (call_new_IRrecv irPin) s)))
              = [call_new_IRrecv irPin; call_enableIRIn]).
    { apply events_of_app. simpl. rewrite <- app_assoc. reflexivity. }
    split; [exact Hevents|]. rewrite Hevents. reflexivity.
Qed.

(** A step asks the decoder only when 120 ms have elapsed on the clock
    since the time of the last poll, and then it takes the clock as the
    new time of the last poll; a step that does not ask keeps the time of
    the last poll. *)
Lemma handleIR_poll (s s' : State) :
  handleIR s = Some s' ->
  (existsb is_decode (events_of s s') = true ->
   120 <= elapsed_since (irCheckedTime s) s
   /\ irCheckedTime s' = millis (globals s))
  /\ (existsb is_decode (events_of s s') = false ->
      irCheckedTime s' = irCheckedTime s).
Proof.
  unfold handleIR.
  destruct ((irEnabled (globals s) =? 0)
            || (ConfigurableRemoteCount <=? irEnabled (globals s))).
  { destruct (irrecv s) as [receiver|]; intros Heq; injection Heq as <-.
    - rewrite (events_of_app s _ [call_disableIRIn; call_delete_IRrecv])
        by (simpl; rewrite <- app_assoc; reflexivity).
      split; [discriminate|reflexivity].
    - rewrite events_of_same. split; [discriminate|reflexivity]. }
  destruct (irrecv s) as [receiver|].
  2:{ intros Heq. injection Heq as <-.
      rewrite (events_of_app s _ [call_new_IRrecv irPin; call_enableIRIn])
        by (simpl; rewrite <- app_assoc; reflexivity).
      split; [discriminate|reflexivity]. }
  fold (elapsed_since (irCheckedTime s) s).
  destruct (elapsed_since (irCheckedTime s) s <? 120) eqn:Hrate.
  { intros Heq. injection Heq as <-. rewrite events_of_same.
    split; [discriminate|reflexivity]. }
  apply Z.ltb_ge in Hrate.
  destruct (decode receiver) as [[value|] receiver'].
  2:{ intros Heq. injection Heq as <-.
      rewrite (events_of_app s _ [call_decode false]) by reflexivity.
      split; [intros _; split; [exact Hrate|reflexivity]|discriminate]. }
  destruct (to_uint32 value =? 0).
  { intros Heq. injection Heq as <-.
    rewrite (events_of_app s _ [call_decode true; call_resume])
      by (simpl; rewrite <- app_assoc; reflexivity).
    split; [intros _; split; [exact Hrate|reflexivity]|discriminate]. }
  intros Hdispatch. apply handleIRCode_dispatch_frame in Hdispatch.
  destruct Hdispatch as (_ & Htime & events & Htrace & _).
  simpl in Htime, Htrace.
  rewrite (events_of_app s s'
             ([call_decode true; call_resume;
               Serial_printf_IR_recv (to_uint32 value)] ++ events))
    by (rewrite Htrace; repeat rewrite <- app_assoc; reflexivity).
  split; [intros _; split; [exact Hrate|exact Htime]|discriminate].
Qed.

Lemma polls_stamp (s s' : State) :
  handleIR s = Some s' ->
  polls s ->
  120 <= elapsed_since (irCheckedTime s) s
  /\ irCheckedTime s' = millis (globals s).
Proof.
  intros Hstep (s1 & Hstep1 & Hdecode).
  assert (s1 = s') by congruence. subst s1.
  apply (proj1 (handleIR_poll s s' Hstep) Hdecode).
Qed.

Lemma polled_since_blocks (t0 : Z) (s : State) :
  polled_since t0 s ->
  clock_ms (globals s) - t0 < 120 ->
  ~ polls s.
Proof.
  intros (t & Ht & Hstamp) Hnear (s' & Hstep & Hdecode).
  destruct (proj1 (handleIR_poll s s' Hstep) Hdecode) as (Hge & _).
  unfold elapsed_since, sub_uint32, millis, to_uint32 in Hge.
  rewrite Hstamp in Hge. unfold to_uint32 in Hge.
  rewrite <- Zminus_mod in Hge.
  rewrite Z.mod_small in Hge by lia. lia.
Qed.

Lemma polled_since_step (t0 : Z) (s s' next : State) :
  polled_since t0 s ->
  handleIR s = Some s' ->
  between_ticks s' next ->
  clock_ms (globals s) <= clock_ms (globals next) ->
  polled_since t0 next.
Proof.
  intros (t & Ht & Hstamp) Hstep (Hkeep & _) Hclock.
  destruct (existsb is_decode (events_of s s')) eqn:Hdecode.
  - destruct (proj1 (handleIR_poll s s' Hstep) Hdecode) as (_ & Hnew).
    exists (clock_ms (globals s)). split; [lia|].
    rewrite Hkeep, Hnew. reflexivity.
  - pose proof (proj2 (handleIR_poll s s' Hstep) Hdecode) as Hsame.
    exists t. split; [lia|]. rewrite Hkeep, Hsame. exact Hstamp.
Qed.

(** After a step that polls, no later step of the run polls while less
    than 120 ms separate it from that step. *)
Lemma poller_run_rate (s : State) (rest : list State) :
  poller_run (s :: rest) ->
  forall t0,
    polled_since t0 s \/ (polls s /\ t0 = clock_ms (globals s)) ->
    forall later,
      In later rest ->
      clock_ms (globals later) - t0 < 120 ->
      ~ polls later.
Proof.
  revert s. induction rest as [|next rest IH]; intros s Hrun t0 Hinv later Hin;
    [contradiction|].
  inversion Hrun as [|s0 s' next0 rest0 Hstep Hbetween Hclock Htail]; subst.
  assert (Hnext : polled_since t0 next).
  { destruct Hinv as [Hsince|(Hpolls & ->)].
    - exact (polled_since_step t0 s s' next Hsince Hstep Hbetween Hclock).
    - destruct (polls_stamp s s' Hstep Hpolls) as (_ & Hnew).
      destruct Hbetween as (Hkeep & _).
      exists (clock_ms (globals s)). split; [lia|].
      rewrite Hkeep, Hnew. reflexivity. }
  destruct Hin as [<-|Hin].
  - intros Hnear. exact (polled_since_blocks t0 next Hnext Hnear).
  - exact (IH next Htail t0 (or_introl Hnext) later Hin).
Qed.

Lemma poller_run_tail (s : State) (rest : list State) :
  poller_run (s :: rest) -> rest = [] \/ poller_run rest.
Proof.
  intros Hrun. inversion Hrun; subst; [left; reflexivity|right; assumption].
Qed.

Lemma poller_run_skip (n : nat) (states : list State) :
  poller_run states ->
  skipn n states = [] \/ poller_run (skipn n states).
Proof.
  revert states. induction n as [|n IH]; intros states Hrun.
  - right. exact Hrun.
  - destruct states as [|s rest]; [left; reflexivity|]. simpl.
    destruct (poller_run_tail s rest Hrun) as [->|Htail].
    + left. destruct n; reflexivity.
    + apply IH. exact Htail.
Qed.
End Poller.

Section PollerRate.
Context {E : Externals} {C : Collaborators}.

Lemma configured_same (s s' : State) :
  globals s' = globals s ->
  color_index s' = color_index s ->
  configured s -> configured s'.
Proof. unfold configured. intros -> ->. tauto. Qed.

Lemma Action_call_defined (this : ActionType) (s : State) :
  configured s -> exists s', Action_call this s = Some s'.
Proof.
  intros Hconf. destruct (suppressed this s) eqn:Hsup.
  - rewrite (Action_call_suppressed _ _ Hsup). eauto.
  - destruct (Action_call_runs this s Hsup Hconf) as (s_fn & _ & -> & _).
    eauto.
Qed.

Lemma handleIRCode_loop_defined (keyMap : list KeyMap) (code : Z) :
  terminated keyMap ->
  exists found reads, handleIRCode_loop keyMap code = Some (found, reads).
Proof.
  intros (z & Hin & Hz).
  induction keyMap as [|k next IH]; [contradiction|]. simpl.
  destruct (irCode k =? 0) eqn:Hk; [eauto|].
  destruct (irCode k =? code); [eauto|].
  destruct Hin as [->|Hin]; [apply Z.eqb_neq in Hk; contradiction|].
  destruct (IH Hin) as (found & reads & ->). simpl. eauto.
Qed.

(** A dispatch returns in every configured state. *)
Lemma handleIRCode_defined (code : Z) (s : State) :
  configured s -> exists s', handleIRCode code s = Some s'.
Proof.
  intros Hconf. unfold handleIRCode. destruct (code =? 0xFFFFFFFF).
  - unfold repeatLast. destruct (_lastRepeatableAction s) as [last|];
      [apply Action_call_defined; exact Hconf|eauto].
  - destruct (remoteMapping_selected _ (proj1 Hconf))
      as (mapping & -> & Hterm & _).
    simpl.
    destruct (handleIRCode_loop_defined mapping code Hterm)
      as (found & reads & ->).
    simpl. destruct found as [a|]; [|eauto].
    apply Action_call_defined.
    apply (configured_same s); [reflexivity|reflexivity|exact Hconf].
Qed.

(** The poller returns from every step when the selector is a byte, the
    effect and palette counts are not zero and [color_index] is inside
    [colors]. *)
Lemma handleIR_defined (s : State) :
  0 <= irEnabled (globals s) ->
  MODE_COUNT <> 0 ->
  getPaletteCount (globals s) <> 0 ->
  0 <= color_index s < 13 ->
  exists s', handleIR s = Some s'.
Proof.
  intros Hbyte Hmode Hpal Hci. unfold handleIR.
  destruct ((irEnabled (globals s) =? 0)
            || (ConfigurableRemoteCount <=? irEnabled (globals s))) eqn:Htest.
  { destruct (irrecv s); eauto. }
  apply orb_false_iff in Htest. destruct Htest as (H0 & Hhigh).
  apply Z.eqb_neq in H0. apply Z.leb_gt in Hhigh.
  destruct (irrecv s) as [receiver|]; [|eauto].
  destruct (sub_uint32 (millis (globals s)) (irCheckedTime s) <? 120);
    [eauto|].
  destruct (decode receiver) as [[value|] receiver']; [|eauto].
  destruct (to_uint32 value =? 0) eqn:Hcode; [eauto|].
  apply handleIRCode_defined.
  apply (configured_same s); [reflexivity|reflexivity|].
  unfold configured. repeat split; try assumption; lia.
Qed.

(** C6. In a run of the poller, of two steps whose starts are less than
    120 ms of clock time apart at most one asks the decoder (1).  A step
    that holds a receiver and starts less than 120 ms, as the unsigned
    clock difference has it, after the time of the last poll returns in
    the state it started in (2).  A step that asks the decoder has taken
    the clock as the time of the last poll (3). *)
Theorem C6_poll_rate_limit :
  (forall (states : list State) (i j : nat) (si sj : State),
      poller_run states ->
      nth_error states i = Some si ->
      nth_error states j = Some sj ->
      (i < j)%nat ->
      clock_ms (globals sj) - clock_ms (globals si) < 120 ->
      ~ (polls si /\ polls sj))
  /\ (forall s,
        1 <= irEnabled (globals s) < ConfigurableRemoteCount ->
        irrecv s <> None ->
        elapsed_since (irCheckedTime s) s < 120 ->
        handleIR s = Some s /\ ~ polls s)
  /\ (forall s s',
        handleIR s = Some s' ->
        polls s ->
        irCheckedTime s' = millis (globals s)).
Proof.
  split; [intros states i j si sj Hrun Hi Hj Hlt Hnear|split].
  - intros (Hpi & Hpj).
    destruct (nth_error_split _ _ Hi) as (front & back & -> & Hlen).
    assert (Hback : In sj back).
    { rewrite nth_error_app2 in Hj by lia.
      destruct (j - List.length front)%nat as [|m] eqn:Hm; [lia|].
      simpl in Hj. apply nth_error_In in Hj. exact Hj. }
    destruct (poller_run_skip (List.length front) _ Hrun) as [Hnil|Htail];
      rewrite skipn_app, skipn_all, Nat.sub_diag in *; simpl in *;
      [discriminate|].
    exact (poller_run_rate si back Htail (clock_ms (globals si))
             (or_intror (conj Hpi eq_refl)) sj Hback Hnear Hpj).
  - intros s Hsel Hrecv Hlow.
    assert (Hstep : handleIR s = Some s).
    { unfold handleIR.
      replace ((irEnabled (globals s) =? 0)
               || (ConfigurableRemoteCount <=? irEnabled (globals s)))
        with false
        by (symmetry; apply orb_false_iff; split;
            [apply Z.eqb_neq|apply Z.leb_gt]; lia).
      destruct (irrecv s) as [receiver|]; [|contradiction].
      fold (elapsed_since (irCheckedTime s) s).
      apply Z.ltb_lt in Hlow. rewrite Hlow. reflexivity. }
    split; [exact Hstep|].
    intros Hpolls. destruct (polls_stamp s s Hstep Hpolls) as (Hge & _). lia.
  - intros s s' Hstep Hpolls. apply (polls_stamp s s' Hstep Hpolls).
Qed.
End PollerRate.

(** ** The count of the preset buttons *)

Section PresetButtons.
Context {E : Externals} {C : Collaborators}.

(** A call that finds the cache byte at zero scans the mapping. *)
Lemma presetButtonsConfigured_scan (s : State) (mapping : list KeyMap) :
  remoteMapping (irEnabled (globals s)) = Some mapping ->
  preset_results s (irEnabled (globals s)) = 0 ->
  exists s',
    presetButtonsConfigured s =
      Some (Z.of_nat (tenth_preset_buttons mapping), s')
    /\ preset_results s' (irEnabled (globals s)) =
         Z.of_nat (tenth_preset_buttons mapping)
    /\ keymap_reads s' =
         (keymap_reads s + S (List.length (recognized mapping)))%nat
    /\ globals s' = globals s.
Proof.
  intros Hmap Hzero.
  pose proof (remoteMapping_Some _ _ Hmap) as Hsel.
  destruct (remoteMapping_selected _ Hsel) as (mapping' & Hmap' & Hterm & Hone).
  assert (mapping' = mapping) by congruence. subst mapping'.
  destruct (presetButtonsConfigured_loop_defined mapping Hterm s)
    as (s' & Hloop).
  destruct (presetButtonsConfigured_loop_result mapping s s' Hloop)
    as (_ & Hg & _ & _ & Hreads & _ & Hcount).
  rewrite Hzero, bump_from_zero in Hcount by lia.
  exists s'. unfold presetButtonsConfigured.
  replace ((0 <=? irEnabled (globals s))
           && (irEnabled (globals s) <? ConfigurableRemoteCount)) with true
    by (symmetry; apply andb_true_iff; split;
        [apply Z.leb_le|apply Z.ltb_lt]; lia).
  rewrite Hzero, Hmap. simpl. rewrite Hloop. simpl. rewrite Hcount.
  repeat split; assumption.
Qed.

(** A call that finds the cache byte set returns it. *)
Lemma presetButtonsConfigured_cached (s : State) :
  0 <= irEnabled (globals s) < ConfigurableRemoteCount ->
  preset_results s (irEnabled (globals s)) <> 0 ->
  presetButtonsConfigured s =
    Some (preset_results s (irEnabled (globals s)), s).
Proof.
  intros Hsel Hset. unfold presetButtonsConfigured.
  replace ((0 <=? irEnabled (globals s))
           && (irEnabled (globals s) <? ConfigurableRemoteCount)) with true
    by (symmetry; apply andb_true_iff; split;
        [apply Z.leb_le|apply Z.ltb_lt]; lia).
  apply Z.eqb_neq in Hset. rewrite Hset. reflexivity.
Qed.

(** C7, as the code has it.  For the selected mapping the function
    returns the number of recognized entries bound to [Action_Preset_10],
    which is 0 or 1 for every mapping of [buttonActions]: 0 when no entry
    is, 1 when exactly one is.  A cache byte that is not zero is returned
    as it is, the state untouched and no entry read (1).  A cache byte at
    zero makes the call scan the mapping up to its null entry and store
    the count (2); so a count of 1 is returned by the next call without a
    scan (3), and after a count of 0 the next call scans again and
    returns 0 again (4). *)
Theorem C7_preset_count_cached_when_nonzero
    (s : State) (mapping : list KeyMap) :
  remoteMapping (irEnabled (globals s)) = Some mapping ->
  let index := irEnabled (globals s) in
  let count := Z.of_nat (tenth_preset_buttons mapping) in
  let scan := S (List.length (recognized mapping)) in
  (count = 0 \/ count = 1)
  /\ (preset_results s index <> 0 ->
      presetButtonsConfigured s = Some (preset_results s index, s))
  /\ (preset_results s index = 0 ->
      exists s',
        presetButtonsConfigured s = Some (count, s')
        /\ keymap_reads s' = (keymap_reads s + scan)%nat
        /\ (count = 1 ->
            presetButtonsConfigured s' = Some (1, s'))
        /\ (count = 0 ->
            exists s'',
              presetButtonsConfigured s' = Some (0, s'')
              /\ keymap_reads s'' = (keymap_reads s' + scan)%nat)).
Proof.
  intros Hmap index count scan. subst index count scan.
  pose proof (remoteMapping_Some _ _ Hmap) as Hsel.
  destruct (remoteMapping_selected _ Hsel) as (mapping' & Hmap' & _ & Hone).
  assert (mapping' = mapping) by congruence. subst mapping'.
  split; [lia|]. split.
  - intros Hset. apply presetButtonsConfigured_cached; [lia|exact Hset].
  - intros Hzero.
    destruct (presetButtonsConfigured_scan s mapping Hmap Hzero)
      as (s' & Hcall & Hcache & Hreads & Hg).
    rewrite <- Hg in Hcache, Hmap.
    exists s'. split; [exact Hcall|]. split; [exact Hreads|]. split.
    + intros Hcount. rewrite Hcount in Hcache.
      rewrite presetButtonsConfigured_cached.
      * rewrite Hcache. reflexivity.
      * rewrite Hg. lia.
      * rewrite Hcache. lia.
    + intros Hcount. rewrite Hcount in Hcache.
      destruct (presetButtonsConfigured_scan s' mapping Hmap Hcache)
        as (s'' & Hcall2 & _ & Hreads2 & _).
      exists s''. rewrite Hcount in Hcall2.
      split; [exact Hcall2|exact Hreads2].
Qed.
End PresetButtons.

(** ** The previous effect and the previous palette *)

Section PreviousEffect.
Context {E : Externals} {C : Collaborators}.

Lemma back_by_255 (current count : Z) :
  0 < count ->
  ((current + 255) mod count = (current - 1) mod count <-> (count | 256)).
Proof.
  intros Hpos. split.
  - intros Heq. apply Z.mod_divide; [lia|].
    replace 256 with ((current + 255) - (current - 1)) by lia.
    rewrite Zminus_mod, Heq, Z.sub_diag. apply Z.mod_0_l. lia.
  - intros (q & Hq).
    replace (current + 255) with (current - 1 + q * count) by lia.
    apply Z_mod_plus_full.
Qed.

Lemma rem_255_byte (current count : Z) :
  0 < count <= 256 ->
  0 <= current ->
  to_byte (Z.rem (current + to_byte (-1)) count) = (current + 255) mod count.
Proof.
  intros Hcount Hcur. change (to_byte (-1)) with 255.
  rewrite Z.rem_mod_nonneg by lia.
  unfold to_byte. apply Z.mod_small.
  pose proof (Z.mod_pos_bound (current + 255) count ltac:(lia)). lia.
Qed.

(** C10. [actionDecPreset] is the function of the action "Prev Preset";
    its step -1 reaches the sum as 255, so the effect index becomes
    (current + 255) mod [MODE_COUNT], and that is (current - 1) mod
    [MODE_COUNT] exactly when [MODE_COUNT] divides 256.  The same holds
    of [actionDecPalette], the function of "Prev Palette", with the
    palette count. *)
Theorem C10_prev_steps_by_255 (g : Globals) :
  0 < MODE_COUNT <= 256 ->
  0 <= effectCurrent g < 256 ->
  0 < getPaletteCount g <= 256 ->
  0 <= effectPalette g < 256 ->
  (name (actions Action_Preset_Prev) = "Prev Preset"
   /\ _action_fn (actions Action_Preset_Prev) = partial actionDecPreset
   /\ exists g',
        actionDecPreset g = Some g'
        /\ effectCurrent g' = (effectCurrent g + 255) mod MODE_COUNT
        /\ (effectCurrent g' = (effectCurrent g - 1) mod MODE_COUNT
            <-> (MODE_COUNT | 256)))
  /\ (name (actions Action_Palette_Prev) = "Prev Palette"
      /\ _action_fn (actions Action_Palette_Prev) = partial actionDecPalette
      /\ exists g',
           actionDecPalette g = Some g'
           /\ effectPalette g' =
                (effectPalette g + 255) mod getPaletteCount g
           /\ (effectPalette g' = (effectPalette g - 1) mod getPaletteCount g
               <-> (getPaletteCount g | 256))).
Proof.
  intros Hmode Hcur Hpal Hidx. split.
  - split; [reflexivity|]. split; [reflexivity|].
    unfold actionDecPreset, actionChangePreset.
    replace (MODE_COUNT =? 0) with false by (symmetry; apply Z.eqb_neq; lia).
    eexists. split; [reflexivity|]. simpl effectCurrent.
    rewrite rem_255_byte by lia.
    split; [reflexivity|]. apply back_by_255. lia.
  - split; [reflexivity|]. split; [reflexivity|].
    unfold actionDecPalette, actionChangePalette.
    replace (getPaletteCount g =? 0) with false
      by (symmetry; apply Z.eqb_neq; lia).
    eexists. split; [reflexivity|]. simpl effectPalette.
    rewrite rem_255_byte by lia.
    split; [reflexivity|]. apply back_by_255. lia.
Qed.
End PreviousEffect.

(** * Further properties of the code *)

(** ** Brightness steps *)

Section Brightness.

(** The loop of [incBrightness] over rising steps gives the least step
    above the value, and the value itself when no step is above it. *)
Lemma incBrightness_loop_least (steps : list Z) (d : Z) :
  StronglySorted Z.lt steps ->
  (Forall (fun b => b <= d) steps /\ incBrightness_loop steps d = d)
  \/ (In (incBrightness_loop steps d) steps
      /\ d < incBrightness_loop steps d
      /\ Forall (fun b => d < b -> incBrightness_loop steps d <= b) steps).
Proof.
  induction 1 as [|b steps Hsorted IH Hall]; simpl.
  - left. split; [constructor|reflexivity].
  - destruct (d <? b) eqn:Hlt.
    + apply Z.ltb_lt in Hlt. right. split; [left; reflexivity|].
      split; [exact Hlt|]. constructor; [lia|].
      rewrite Forall_forall in *. intros x Hx _. specialize (Hall x Hx). lia.
    + apply Z.ltb_ge in Hlt. destruct IH as [(Hnone & Hsame)|(Hin & Hup & Hleast)].
      * left. split; [constructor; assumption|exact Hsame].
      * right. split; [right; exact Hin|]. split; [exact Hup|].
        constructor; [lia|exact Hleast].
Qed.

(** The loop of [decBrightness] over falling steps gives the greatest step
    below the value, and the value itself when no step is below it. *)
Lemma decBrightness_loop_greatest (steps_down : list Z) (d : Z) :
  StronglySorted Z.gt steps_down ->
  (Forall (fun b => d <= b) steps_down /\ decBrightness_loop steps_down d = d)
  \/ (In (decBrightness_loop steps_down d) steps_down
      /\ decBrightness_loop steps_down d < d
      /\ Forall (fun b => b < d -> b <= decBrightness_loop steps_down d)
           steps_down).
Proof.
  induction 1 as [|b steps Hsorted IH Hall]; simpl.
  - left. split; [constructor|reflexivity].
  - destruct (b <? d) eqn:Hlt.
    + apply Z.ltb_lt in Hlt. right. split; [left; reflexivity|].
      split; [exact Hlt|]. constructor; [lia|].
      rewrite Forall_forall in *. intros x Hx _. specialize (Hall x Hx). lia.
    + apply Z.ltb_ge in Hlt. destruct IH as [(Hnone & Hsame)|(Hin & Hup & Hleast)].
      * left. split; [constructor; assumption|exact Hsame].
      * right. split; [right; exact Hin|]. split; [exact Hup|].
        constructor; [lia|exact Hleast].
Qed.

Lemma brightnessSteps_rising : StronglySorted Z.lt brightnessSteps.
Proof.
  unfold brightnessSteps.
  repeat (constructor; [|repeat (constructor; [lia|]); constructor]).
  constructor.
Qed.

Lemma brightnessSteps_falling : StronglySorted Z.gt (rev brightnessSteps).
Proof.
  simpl.
  repeat (constructor; [|repeat (constructor; [lia|]); constructor]).
  constructor.
Qed.

Lemma relativeChange_clamp
    (property amount lowerBoundary higherBoundary : Z) :
  0 <= lowerBoundary <= higherBoundary ->
  higherBoundary <= 255 ->
  relativeChange property amount lowerBoundary higherBoundary
  = Z.max lowerBoundary (Z.min higherBoundary (property + amount)).
Proof.
  intros Hbounds Hbyte. unfold relativeChange, to_byte.
  destruct (higherBoundary <? property + amount) eqn:Hhigh.
  - apply Z.ltb_lt in Hhigh. rewrite Z.mod_small by lia. lia.
  - apply Z.ltb_ge in Hhigh.
    destruct (property + amount <? lowerBoundary) eqn:Hlow.
    + apply Z.ltb_lt in Hlow. rewrite Z.mod_small by lia. lia.
    + apply Z.ltb_ge in Hlow. rewrite Z.mod_small by lia. lia.
Qed.

(** X1. [relativeChange] with boundaries that are bytes in order: the
    result lies within the boundaries, it is the sum when the sum lies
    within them, the higher boundary when the sum is above and the lower
    one when it is below; the byte never wraps. *)
Theorem X1_relativeChange_clamps
    (property amount lowerBoundary higherBoundary : Z) :
  0 <= lowerBoundary <= higherBoundary ->
  higherBoundary <= 255 ->
  lowerBoundary <= relativeChange property amount lowerBoundary higherBoundary
    <= higherBoundary
  /\ relativeChange property amount lowerBoundary higherBoundary
     = Z.max lowerBoundary (Z.min higherBoundary (property + amount)).
Proof.
  intros Hbounds Hbyte.
  rewrite (relativeChange_clamp _ _ _ _ Hbounds Hbyte). lia.
Qed.

(** X2. [incBrightness] below 255 moves to a brightness step that is above
    the value and is the least such step; from 255 on it leaves the value
    as it is. *)
Theorem X2_incBrightness_next_step (d : Z) :
  (d < 255 ->
   In (incBrightness d) brightnessSteps
   /\ d < incBrightness d
   /\ forall b, In b brightnessSteps -> d < b -> incBrightness d <= b)
  /\ (255 <= d -> incBrightness d = d).
Proof.
  unfold incBrightness.
  destruct (incBrightness_loop_least brightnessSteps d brightnessSteps_rising)
    as [(Hnone & Hsame)|(Hin & Hup & Hleast)].
  - split; [|intros _; exact Hsame].
    intros Hlow. rewrite Forall_forall in Hnone.
    specialize (Hnone 255). simpl in Hnone.
    assert (255 <= d) by (apply Hnone; tauto). lia.
  - split.
    + intros _. rewrite Forall_forall in Hleast. repeat split; assumption.
    + intros Hmax. exfalso.
      assert (Hle : incBrightness_loop brightnessSteps d <= 255).
      { revert Hin. generalize (incBrightness_loop brightnessSteps d).
        intros b Hb. simpl in Hb.
        repeat (destruct Hb as [<-|Hb]; [lia|]). contradiction. }
      lia.
Qed.

(** X3. [decBrightness] above 5 moves to a brightness step that is below
    the value and is the greatest such step; from 5 down it leaves the value
    as it is, so dimming never reaches zero. *)
Theorem X3_decBrightness_previous_step (d : Z) :
  (5 < d ->
   In (decBrightness d) brightnessSteps
   /\ decBrightness d < d
   /\ forall b, In b brightnessSteps -> b < d -> b <= decBrightness d)
  /\ (d <= 5 -> decBrightness d = d).
Proof.
  unfold decBrightness.
  destruct (decBrightness_loop_greatest (rev brightnessSteps) d
              brightnessSteps_falling)
    as [(Hnone & Hsame)|(Hin & Hdown & Hgreatest)].
  - split; [|intros _; exact Hsame].
    intros Hhigh. rewrite Forall_forall in Hnone.
    specialize (Hnone 5). simpl in Hnone.
    assert (d <= 5) by (apply Hnone; tauto). lia.
  - split.
    + intros _. rewrite Forall_forall in Hgreatest.
      split; [apply in_rev; exact Hin|]. split; [exact Hdown|].
      intros b Hb. apply Hgreatest. apply in_rev. rewrite rev_involutive.
      exact Hb.
    + intros Hmin. exfalso.
      assert (Hge : 5 <= decBrightness_loop (rev brightnessSteps) d).
      { revert Hin. generalize (decBrightness_loop (rev brightnessSteps) d).
        intros b Hb. simpl in Hb.
        repeat (destruct Hb as [<-|Hb]; [lia|]). contradiction. }
      lia.
Qed.

Lemma forall_below (f : Z -> bool) (n : nat) :
  forallb f (map Z.of_nat (seq 0 n)) = true ->
  forall d, 0 <= d < Z.of_nat n -> f d = true.
Proof.
  rewrite forallb_forall. intros Hall d Hd. apply Hall.
  apply in_map_iff. exists (Z.to_nat d). split; [lia|].
  apply in_seq. lia.
Qed.

Lemma In_brightnessSteps (d : Z) :
  In d brightnessSteps <-> existsb (Z.eqb d) brightnessSteps = true.
Proof.
  rewrite existsb_exists. split.
  - intros Hin. exists d. split; [exact Hin|apply Z.eqb_refl].
  - intros (b & Hin & Heq). apply Z.eqb_eq in Heq. subst b. exact Hin.
Qed.

(** X4. For a byte, a step up followed by a step down gives the value back
    exactly when the value is one of the brightness steps (below 255), and
    a step down followed by a step up does so exactly when it is one of the
    steps (above 5): on the steps the two keys undo each other, off them
    they do not. *)
Theorem X4_brightness_steps_undo (d : Z) :
  0 <= d <= 255 ->
  (d < 255 ->
   (decBrightness (incBrightness d) = d <-> In d brightnessSteps))
  /\ (5 < d ->
      (incBrightness (decBrightness d) = d <-> In d brightnessSteps)).
Proof.
  intros Hbyte.
  pose (check := fun d =>
    implb (d <? 255)
      (Bool.eqb (decBrightness (incBrightness d) =? d)
         (existsb (Z.eqb d) brightnessSteps))
    && implb (5 <? d)
         (Bool.eqb (incBrightness (decBrightness d) =? d)
            (existsb (Z.eqb d) brightnessSteps))).
  assert (Hcheck : check d = true).
  { apply (forall_below check 256); [vm_compute; reflexivity|lia]. }
  unfold check in Hcheck. apply andb_true_iff in Hcheck.
  destruct Hcheck as (Hup & Hdown). split.
  - intros Hlt. apply Z.ltb_lt in Hlt. rewrite Hlt in Hup. cbn [implb] in Hup.
    apply Bool.eqb_prop in Hup.
    rewrite In_brightnessSteps, <- Hup. symmetry. apply Z.eqb_eq.
  - intros Hgt. apply Z.ltb_lt in Hgt. rewrite Hgt in Hdown. cbn [implb] in Hdown.
    apply Bool.eqb_prop in Hdown.
    rewrite In_brightnessSteps, <- Hdown. symmetry. apply Z.eqb_eq.
Qed.
End Brightness.

(** ** Speed, intensity, colours and effects *)

Section Effects.
Context {E : Externals} {C : Collaborators}.

(** X5. While an effect runs, the speed and intensity keys move the value
    by 10 and stop at 255 and at 0 without wrapping, and change nothing
    else; with the static effect they hand the step to [changeHue] and
    [changeSaturation] and leave speed and intensity to them. *)
Theorem X5_speed_and_intensity_saturate (g : Globals) :
  (effectCurrent g <> 0 ->
   incEffectSpeed g = set_effectSpeed (Z.max 0 (Z.min 255 (effectSpeed g + 10))) g
   /\ decEffectSpeed g
      = set_effectSpeed (Z.max 0 (Z.min 255 (effectSpeed g - 10))) g
   /\ incEffectIntensity g
      = set_effectIntensity (Z.max 0 (Z.min 255 (effectIntensity g + 10))) g
   /\ decEffectIntensity g
      = set_effectIntensity (Z.max 0 (Z.min 255 (effectIntensity g - 10))) g)
  /\ (effectCurrent g = 0 ->
      incEffectSpeed g = changeHue 10 g
      /\ decEffectSpeed g = changeHue (-10) g
      /\ incEffectIntensity g = changeSaturation 10 g
      /\ decEffectIntensity g = changeSaturation (-10) g).
Proof.
  unfold incEffectSpeed, decEffectSpeed, incEffectIntensity,
    decEffectIntensity, changeEffectSpeed, changeEffectIntensity.
  split.
  - intros Hrun. apply Z.eqb_neq in Hrun. rewrite Hrun. simpl.
    repeat split; f_equal;
      apply (relativeChange_clamp _ _ 0 255); lia.
  - intros Hstatic. apply Z.eqb_eq in Hstatic. rewrite Hstatic. simpl.
    repeat split; reflexivity.
Qed.

(** X7. With at most 256 effects, "Next Preset" moves a byte index to the
    index after it modulo [MODE_COUNT], always a valid index; "Prev Preset"
    after it lands on (index + 256) mod [MODE_COUNT], which is the index it
    started from exactly when [MODE_COUNT] divides 256. *)
Theorem X7_next_then_previous_effect (g : Globals) :
  0 < MODE_COUNT <= 256 ->
  0 <= effectCurrent g < 256 ->
  exists g1 g2,
    actionIncPreset g = Some g1
    /\ effectCurrent g1 = (effectCurrent g + 1) mod MODE_COUNT
    /\ 0 <= effectCurrent g1 < MODE_COUNT
    /\ actionDecPreset g1 = Some g2
    /\ effectCurrent g2 = (effectCurrent g + 256) mod MODE_COUNT
    /\ (effectCurrent g < MODE_COUNT ->
        (effectCurrent g2 = effectCurrent g <-> (MODE_COUNT | 256))).
Proof.
  intros Hmode Hcur.
  assert (Hnz : (MODE_COUNT =? 0) = false) by (apply Z.eqb_neq; lia).
  assert (Hpos : 0 < MODE_COUNT) by lia.
  assert (Hone : to_byte (Z.rem (effectCurrent g + to_byte 1) MODE_COUNT)
                 = (effectCurrent g + 1) mod MODE_COUNT).
  { change (to_byte 1) with 1. rewrite Z.rem_mod_nonneg by lia.
    unfold to_byte. apply Z.mod_small.
    pose proof (Z.mod_pos_bound (effectCurrent g + 1) MODE_COUNT Hpos).
    lia. }
  pose proof (Z.mod_pos_bound (effectCurrent g + 1) MODE_COUNT Hpos)
    as Hrange.
  unfold actionIncPreset, actionDecPreset, actionChangePreset.
  rewrite Hnz. do 2 eexists. split; [reflexivity|].
  simpl effectCurrent. rewrite Hone. split; [reflexivity|].
  split; [exact Hrange|]. split; [reflexivity|].
  rewrite rem_255_byte by lia. rewrite Zplus_mod_idemp_l.
  replace (effectCurrent g + 1 + 255) with (effectCurrent g + 256) by lia.
  split; [reflexivity|].
  intros Hvalid.
  pose proof (back_by_255 (effectCurrent g + 1) MODE_COUNT Hpos) as Hback.
  replace (effectCurrent g + 1 + 255) with (effectCurrent g + 256) in Hback
    by lia.
  replace (effectCurrent g + 1 - 1) with (effectCurrent g) in Hback by lia.
  rewrite (Z.mod_small (effectCurrent g)) in Hback by lia. exact Hback.
Qed.

(** X6. With its index inside [colors], [actionColorRotate] shows the colour
    at the index and moves the index on by one modulo 13; so after [n]
    calls the index is (index + n) mod 13, it never leaves [colors], and
    the thirteenth call brings it back to where it started. *)
Theorem X6_color_rotation_cycles (s : State) :
  0 <= color_index s < 13 ->
  (exists color,
     nth_error actionColorRotate_colors (Z.to_nat (color_index s)) = Some color
     /\ actionColorRotate s =
          Some (set_color_index ((color_index s + 1) mod 13)
                  (on_globals (colorFromUint32 (macro color)) s)))
  /\ (forall n,
        exists s',
          times n actionColorRotate s = Some s'
          /\ color_index s' = (color_index s + Z.of_nat n) mod 13)
  /\ (exists s',
        times 13 actionColorRotate s = Some s'
        /\ color_index s' = color_index s).
Proof.
  assert (Hone : forall s0,
             0 <= color_index s0 < 13 ->
             exists color,
               nth_error actionColorRotate_colors (Z.to_nat (color_index s0))
               = Some color
               /\ actionColorRotate s0 =
                    Some (set_color_index ((color_index s0 + 1) mod 13)
                            (on_globals (colorFromUint32 (macro color)) s0))).
  { intros s0 Hci. unfold actionColorRotate.
    replace (color_index s0 <? 0) with false by (symmetry; apply Z.ltb_ge; lia).
    destruct (nth_error actionColorRotate_colors (Z.to_nat (color_index s0)))
      as [color|] eqn:Hc.
    - exists color. split; [reflexivity|]. simpl. do 2 f_equal.
      change (Z.of_nat (List.length actionColorRotate_colors)) with 13.
      rewrite Z.rem_mod_nonneg by lia. unfold to_byte. apply Z.mod_small.
      pose proof (Z.mod_pos_bound (color_index s0 + 1) 13 ltac:(lia)). lia.
    - apply nth_error_None in Hc. simpl in Hc. lia. }
  assert (Hmany : forall n s0,
             0 <= color_index s0 < 13 ->
             exists s',
               times n actionColorRotate s0 = Some s'
               /\ color_index s' = (color_index s0 + Z.of_nat n) mod 13).
  { induction n as [|n IH]; intros s0 Hci.
    - exists s0. split; [reflexivity|].
      rewrite Z.add_0_r, Z.mod_small by lia. reflexivity.
    - destruct (Hone s0 Hci) as (color & _ & Hcall).
      cbn [times]. rewrite Hcall. cbn [bind].
      match goal with
      | |- context [times n actionColorRotate ?s1] =>
          destruct (IH s1) as (s' & Htimes & Hidx)
      end.
      { simpl. apply Z.mod_pos_bound. lia. }
      exists s'. split; [exact Htimes|]. rewrite Hidx. simpl color_index.
      rewrite Zplus_mod_idemp_l. f_equal. lia. }
  intros Hci. split; [exact (Hone s Hci)|]. split; [intros n; exact (Hmany n s Hci)|].
  destruct (Hmany 13%nat s Hci) as (s' & Htimes & Hidx).
  exists s'. split; [exact Htimes|]. rewrite Hidx.
  change (Z.of_nat 13) with (1 * 13). rewrite Z_mod_plus_full.
  apply Z.mod_small. exact Hci.
Qed.
End Effects.

(** ** Presets *)

Section Presets.
Context {E : Externals} {C : Collaborators}.

Lemma cache_consistent_same (s s' : State) :
  preset_results s' = preset_results s ->
  cache_consistent s -> cache_consistent s'.
Proof. unfold cache_consistent. intros ->. tauto. Qed.

(** A call of [presetButtonsConfigured] that returns keeps the cache
    consistent. *)
Lemma presetButtonsConfigured_keeps (s s' : State) (n : Z) :
  presetButtonsConfigured s = Some (n, s') ->
  cache_consistent s -> cache_consistent s'.
Proof.
  unfold presetButtonsConfigured.
  destruct ((0 <=? irEnabled (globals s))
            && (irEnabled (globals s) <? ConfigurableRemoteCount));
    [|discriminate].
  destruct (preset_results s (irEnabled (globals s)) =? 0) eqn:Hzero.
  - destruct (remoteMapping (irEnabled (globals s))) as [mapping|] eqn:Hmap;
      [|discriminate]. simpl.
    destruct (presetButtonsConfigured_loop mapping s) as [s1|] eqn:Hloop;
      [|discriminate]. simpl.
    intros Heq. injection Heq as _ <-. intros Hcache index mapping' Hmap'.
    destruct (presetButtonsConfigured_loop_result mapping s s1 Hloop)
      as (_ & _ & _ & _ & _ & Hother & Hcount).
    destruct (remoteMapping_selected _ (remoteMapping_Some _ _ Hmap))
      as (m & Hm & _ & Hone).
    assert (m = mapping) by congruence. subst m.
    apply Z.eqb_eq in Hzero. rewrite Hzero, bump_from_zero in Hcount by lia.
    destruct (Z.eq_dec index (irEnabled (globals s))) as [->|Hne].
    + right. rewrite Hcount. congruence.
    + rewrite (Hother index Hne). exact (Hcache index mapping' Hmap').
  - simpl. intros Heq. injection Heq as _ <-. tauto.
Qed.

(** With a consistent cache the call returns the count of the mapping. *)
Lemma presetButtonsConfigured_count (s : State) (mapping : list KeyMap) :
  cache_consistent s ->
  remoteMapping (irEnabled (globals s)) = Some mapping ->
  exists s',
    presetButtonsConfigured s
    = Some (Z.of_nat (tenth_preset_buttons mapping), s')
    /\ cache_consistent s'
    /\ globals s' = globals s.
Proof.
  intros Hcache Hmap.
  destruct (Z.eq_dec (preset_results s (irEnabled (globals s))) 0)
    as [Hzero|Hset].
  - destruct (presetButtonsConfigured_scan s mapping Hmap Hzero)
      as (s' & Hcall & _ & _ & Hg).
    exists s'. split; [exact Hcall|]. split; [|exact Hg].
    exact (presetButtonsConfigured_keeps s s' _ Hcall Hcache).
  - pose proof (remoteMapping_Some _ _ Hmap) as Hsel.
    exists s. rewrite presetButtonsConfigured_cached by (assumption || lia).
    destruct (Hcache _ _ Hmap) as [Hz|Hcount]; [contradiction|].
    rewrite Hcount. repeat split. exact Hcache.
Qed.

Lemma cache_consistent_boot (g : Globals) : cache_consistent (boot g).
Proof. intros index mapping _. left. reflexivity. Qed.

(** X8. The cache of [presetButtonsConfigured] is consistent at program
    start, and with a consistent cache a call under a selected remote
    returns the number of recognized entries of the mapping bound to the
    tenth preset, whether the byte was cached or not, keeps the cache
    consistent and leaves the globals alone. *)
Theorem X8_preset_count_with_consistent_cache :
  (forall g, cache_consistent (boot g))
  /\ (forall s mapping,
        cache_consistent s ->
        remoteMapping (irEnabled (globals s)) = Some mapping ->
        exists s',
          presetButtonsConfigured s
          = Some (Z.of_nat (tenth_preset_buttons mapping), s')
          /\ cache_consistent s'
          /\ globals s' = globals s).
Proof.
  split; [exact cache_consistent_boot|exact presetButtonsConfigured_count].
Qed.

(** X9. A press that is not a second press (another preset than the
    current one, or not later than 500 ms, or 20 s or more after the last
    one) hands [presetNum] itself to [applyPreset] and reads no key map.
    When the preset is applied the globals are those [applyPreset] left;
    when it is not, the default palette and the fallback effect at
    (presetNum - 1) modulo 10 are set.  The time of the press is the clock
    after [applyPreset] returned. *)
Theorem X9_preset_first_press
    (presetNum : Z) (s : State) (applied : bool) (g : Globals) :
  presetNum <> currentPreset (globals s)
  \/ elapsed_since (presetSelectTime s) s <= 500
  \/ 20000 <= elapsed_since (presetSelectTime s) s ->
  1 <= presetNum < 256 ->
  applyPreset presetNum (globals s) = (applied, g) ->
  exists s',
    actionApplyPreset presetNum s = Some s'
    /\ presetSelectTime s' = millis g
    /\ keymap_reads s' = keymap_reads s
    /\ preset_results s' = preset_results s
    /\ (applied = true -> globals s' = g)
    /\ (applied = false ->
        exists fx,
          nth_error fallbacks (Z.to_nat ((presetNum - 1) mod 10)) = Some fx
          /\ globals s' =
               set_effectCurrent (to_byte (to_uint16 (macro fx)))
                 (set_effectPalette 0 g)).
Proof.
  intros Hfirst Hnum Happly. unfold actionApplyPreset.
  fold (elapsed_since (presetSelectTime s) s).
  assert (Htest : (presetNum =? currentPreset (globals s))
                  && (500 <? elapsed_since (presetSelectTime s) s)
                  && (elapsed_since (presetSelectTime s) s <? 20000) = false).
  { destruct Hfirst as [Hne|[Hlow|Hhigh]].
    - apply Z.eqb_neq in Hne. rewrite Hne. reflexivity.
    - apply andb_false_iff. left. apply andb_false_iff. right.
      apply Z.ltb_ge. exact Hlow.
    - apply andb_false_iff. right. apply Z.ltb_ge. exact Hhigh. }
  rewrite Htest. cbn [bind]. rewrite Happly.
  assert (Hidx : to_uint32 (presetNum - 1) mod Z.of_nat (List.length fallbacks)
                 = (presetNum - 1) mod 10).
  { unfold to_uint32. rewrite (Z.mod_small (presetNum - 1) (2 ^ 32)) by lia.
    reflexivity. }
  rewrite Hidx.
  destruct applied.
  - eexists. split; [reflexivity|]. repeat split; try reflexivity.
    discriminate.
  - destruct (nth_error fallbacks (Z.to_nat ((presetNum - 1) mod 10)))
      as [fx|] eqn:Hfx.
    + eexists. split; [reflexivity|]. repeat split; try reflexivity.
      * discriminate.
      * intros _. exists fx. split; reflexivity.
    + apply nth_error_None in Hfx. simpl in Hfx.
      pose proof (Z.mod_pos_bound (presetNum - 1) 10 ltac:(lia)). lia.
Qed.

(** X10. A second press of the current preset, later than 500 ms and
    sooner than 20 s after the last one, with a consistent cache: the
    preset handed to [applyPreset] is [presetNum] moved on by the count of
    the buttons bound to the tenth preset, as a byte.  That count is 0 or 1
    for every mapping, so under a remote without such a button the second
    press applies the same preset again. *)
Theorem X10_preset_second_press
    (presetNum : Z) (s : State) (mapping : list KeyMap)
    (applied : bool) (g : Globals) :
  presetNum = currentPreset (globals s) ->
  500 < elapsed_since (presetSelectTime s) s < 20000 ->
  cache_consistent s ->
  remoteMapping (irEnabled (globals s)) = Some mapping ->
  applyPreset
    (to_byte (presetNum + Z.of_nat (tenth_preset_buttons mapping)))
    (globals s) = (applied, g) ->
  (tenth_preset_buttons mapping <= 1)%nat
  /\ exists s',
       actionApplyPreset presetNum s = Some s'
       /\ presetSelectTime s' = millis g
       /\ cache_consistent s'
       /\ (applied = true -> globals s' = g).
Proof.
  intros Hcur Hwindow Hcache Hmap Happly.
  destruct (remoteMapping_selected _ (remoteMapping_Some _ _ Hmap))
    as (m & Hm & _ & Hone).
  assert (m = mapping) by congruence. subst m.
  split; [exact Hone|].
  destruct (presetButtonsConfigured_count s mapping Hcache Hmap)
    as (s1 & Hcount & Hcache1 & Hg1).
  unfold actionApplyPreset.
  fold (elapsed_since (presetSelectTime s) s).
  assert (Htest : (presetNum =? currentPreset (globals s))
                  && (500 <? elapsed_since (presetSelectTime s) s)
                  && (elapsed_since (presetSelectTime s) s <? 20000) = true).
  { apply andb_true_iff. split; [apply andb_true_iff; split|].
    - apply Z.eqb_eq. exact Hcur.
    - apply Z.ltb_lt. lia.
    - apply Z.ltb_lt. lia. }
  rewrite Htest, Hcount. cbn [bind]. rewrite Hg1, Happly.
  destruct applied.
  - eexists. split; [reflexivity|]. repeat split; try reflexivity.
    apply (cache_consistent_same s1); [reflexivity|exact Hcache1].
  - match goal with
    | |- context [nth_error fallbacks ?i] =>
        destruct (nth_error fallbacks i) as [fx|] eqn:Hfx
    end.
    + eexists. split; [reflexivity|]. repeat split; try reflexivity.
      * apply (cache_consistent_same s1); [reflexivity|exact Hcache1].
      * discriminate.
    + apply nth_error_None in Hfx. simpl in Hfx.
      match type of Hfx with
      | (_ <= Z.to_nat (?a mod _))%nat =>
          pose proof (Z.mod_pos_bound a 10 ltac:(lia))
      end.
      lia.
Qed.
End Presets.

(** ** Invocation and dispatch, further *)

Section InvocationFurther.
Context {E : Externals} {C : Collaborators}.

(** An invocation that returns has the action as the last one. *)
Lemma Action_call_records (this : ActionType) (s s' : State) :
  Action_call this s = Some s' -> _lastRepeatableAction s' = Some this.
Proof.
  destruct (suppressed this s) eqn:Hsup.
  - rewrite (Action_call_suppressed this s Hsup).
    intros Heq. injection Heq as <-.
    unfold suppressed in Hsup. apply andb_true_iff in Hsup.
    destruct Hsup as (Hsup & _). apply andb_true_iff in Hsup.
    destruct Hsup as (Hlast & _).
    apply is_lastRepeatableAction_true. exact Hlast.
  - rewrite (Action_call_executes this s Hsup).
    destruct (_action_fn (actions this) (entering this s)) as [s_fn|] eqn:Hfn;
      [|discriminate].
    cbn [bind]. intros Heq. injection Heq as <-.
    destruct (action_fn_frame this _ _ Hfn) as (Hlast & _).
    simpl. rewrite Hlast. unfold entering.
    destruct (is_lastRepeatableAction this s) eqn:His; simpl;
      [apply is_lastRepeatableAction_true; exact His|reflexivity].
Qed.

(** X11. In a configured state every invocation returns with the action
    recorded as the last one.  An invocation of another action than the
    last one is never held back, whatever the clock and whether the action
    repeats or not: its function is called once, the counter is 1 and the
    stamp is the clock of the invocation. *)
Theorem X11_invocation_records_action (this : ActionType) (s : State) :
  configured s ->
  exists s',
    Action_call this s = Some s'
    /\ _lastRepeatableAction s' = Some this
    /\ (_lastRepeatableAction s <> Some this ->
        events_of s s'
        = [ DEBUG_PRINTF_Performing_Action (name (actions this));
            call_action_fn this;
            call_colorUpdated NOTIFIER_CALL_MODE_BUTTON ]
        /\ _repeat_count s' = 1
        /\ _last_action_time s' = millis (globals s)).
Proof.
  intros Hconf.
  destruct (Action_call_defined this s Hconf) as (s' & Hcall).
  exists s'. split; [exact Hcall|].
  split; [exact (Action_call_records this s s' Hcall)|].
  intros Hfresh. apply is_lastRepeatableAction_false in Hfresh.
  assert (Hsup : suppressed this s = false)
    by (unfold suppressed; rewrite Hfresh; reflexivity).
  destruct (Action_call_runs this s Hsup Hconf)
    as (s_fn & Hfn & Hcall' & Hframe & Htrace).
  assert (s' = notified s_fn) by congruence. subst s'.
  destruct Hframe as (_ & Hcount & Hstamp & _).
  split; [|split].
  - apply events_of_app. rewrite Htrace. unfold entering. rewrite Hfresh.
    simpl. repeat rewrite <- app_assoc. reflexivity.
  - simpl. rewrite Hcount. unfold entering. rewrite Hfresh. reflexivity.
  - simpl. rewrite Hstamp. unfold entering. rewrite Hfresh. reflexivity.
Qed.

(** X12. The window of a non-repeatable action runs from the start of its
    last performed invocation.  Let the invocation in [s] be performed and
    [later] hold the repeat state it left, [d] milliseconds of clock time
    after [s], with [d] below 2^32 (the clock may have wrapped).  Then an
    invocation in [later] is held back and leaves [later] as it is when
    [d] is below 500, and is performed when [d] is 500 or more. *)
Theorem X12_debounce_window_from_start
    (this : ActionType) (s s' later : State) :
  _is_repeatable (actions this) = false ->
  suppressed this s = false ->
  Action_call this s = Some s' ->
  _lastRepeatableAction later = _lastRepeatableAction s' ->
  _last_action_time later = _last_action_time s' ->
  0 <= clock_ms (globals later) - clock_ms (globals s) < 2 ^ 32 ->
  (clock_ms (globals later) - clock_ms (globals s) < 500 ->
   Action_call this later = Some later)
  /\ (500 <= clock_ms (globals later) - clock_ms (globals s) ->
      suppressed this later = false
      /\ Action_call this later =
           s_fn <- _action_fn (actions this) (entering this later) ;;
           Some (notified s_fn)).
Proof.
  intros Hrep Hsup Hcall Hlast Hstamp Hd.
  pose proof (Action_call_records this s s' Hcall) as Hrec.
  assert (Hstamp' : _last_action_time s' = millis (globals s)).
  { rewrite (Action_call_executes this s Hsup) in Hcall.
    destruct (_action_fn (actions this) (entering this s)) as [s_fn|] eqn:Hfn;
      [|discriminate].
    cbn [bind] in Hcall. injection Hcall as <-.
    destruct (action_fn_frame this _ _ Hfn) as (_ & _ & Hkeep & _).
    simpl. rewrite Hkeep. unfold entering.
    destruct (is_lastRepeatableAction this s); reflexivity. }
  assert (Helapsed : elapsed_since (_last_action_time later) later
                     = clock_ms (globals later) - clock_ms (globals s)).
  { unfold elapsed_since, sub_uint32. rewrite Hstamp, Hstamp'.
    unfold millis, to_uint32. rewrite <- Zminus_mod.
    apply Z.mod_small. exact Hd. }
  assert (His : is_lastRepeatableAction this later = true)
    by (apply is_lastRepeatableAction_true; congruence).
  split.
  - intros Hnear. apply Action_call_suppressed.
    unfold suppressed. rewrite His, Hrep, Helapsed. simpl.
    apply Z.ltb_lt. exact Hnear.
  - intros Hfar.
    assert (Hsup2 : suppressed this later = false).
    { unfold suppressed. rewrite His, Hrep, Helapsed. simpl.
      apply Z.ltb_ge. exact Hfar. }
    split; [exact Hsup2|]. exact (Action_call_executes this later Hsup2).
Qed.

(** X13. A code other than 0 and the repeat code, held by an entry of the
    selected mapping with no entry ahead of it that holds it or is null:
    the dispatch returns with the action of that entry recorded as the last
    one; it calls the function of that action once and notifies once, or,
    when the invocation is held back, it calls nothing. *)
Theorem X13_mapped_code_invokes_its_action
    (code : Z) (s : State) (before after : list KeyMap) (k : KeyMap) :
  code <> 0xFFFFFFFF ->
  code <> 0 ->
  remoteMapping (irEnabled (globals s)) = Some (before ++ k :: after) ->
  Forall (fun e => irCode e <> 0 /\ irCode e <> code) before ->
  irCode k = code ->
  configured s ->
  exists s',
    handleIRCode code s = Some s'
    /\ _lastRepeatableAction s' = Some (actionType k)
    /\ (suppressed (actionType k) s = true -> events_of s s' = [])
    /\ (suppressed (actionType k) s = false ->
        events_of s s'
        = (if is_lastRepeatableAction (actionType k) s
           then [Serial_println "Repeating Action"] else [])
          ++ [ DEBUG_PRINTF_Performing_Action (name (actions (actionType k)));
               call_action_fn (actionType k);
               call_colorUpdated NOTIFIER_CALL_MODE_BUTTON ]).
Proof.
  intros Hrepeat Hnz Hmap Hbefore Hk Hconf.
  assert (Hloop : handleIRCode_loop (before ++ k :: after) code
                  = Some (Some (actionType k), S (List.length before))).
  { rewrite handleIRCode_loop_app by assumption. simpl.
    subst code. apply Z.eqb_neq in Hnz. rewrite Hnz, Z.eqb_refl.
    simpl. rewrite Nat.add_1_r. reflexivity. }
  rewrite (handleIRCode_found code s _ _ _ Hrepeat Hmap Hloop).
  set (s0 := count_reads (S (List.length before)) s).
  assert (Hconf0 : configured s0)
    by (apply (configured_same s); [reflexivity|reflexivity|exact Hconf]).
  destruct (Action_call_defined (actionType k) s0 Hconf0) as (s' & Hcall).
  exists s'. split; [exact Hcall|].
  split; [exact (Action_call_records _ _ _ Hcall)|].
  change (suppressed (actionType k) s) with (suppressed (actionType k) s0).
  change (is_lastRepeatableAction (actionType k) s)
    with (is_lastRepeatableAction (actionType k) s0).
  change (events_of s s') with (events_of s0 s').
  split.
  - intros Hsup. rewrite (Action_call_suppressed _ _ Hsup) in Hcall.
    injection Hcall as <-. apply events_of_same.
  - intros Hsup.
    destruct (Action_call_runs _ s0 Hsup Hconf0)
      as (s_fn & _ & Hcall' & _ & Htrace).
    assert (s' = notified s_fn) by congruence. subst s'.
    apply events_of_app. rewrite Htrace. unfold entering.
    destruct (is_lastRepeatableAction (actionType k) s0); simpl;
      repeat rewrite <- app_assoc; reflexivity.
Qed.
End InvocationFurther.

(** ** The poller, further *)

Section PollerFurther.
Context {E : Externals} {C : Collaborators}.

Lemma action_fn_invariant (a : ActionType) (s s' : State) :
  _action_fn (actions a) s = Some s' ->
  ir_invariant s -> ir_invariant s'.
Proof.
  intros Hfn (Hci & Hcount & Hcache).
  destruct (action_fn_frame a s s' Hfn) as (_ & Hkeep & _).
  unfold ir_invariant. rewrite Hkeep.
  assert (Hboth : 0 <= color_index s' < 13 /\ cache_consistent s');
    [|tauto].
  assert (Htotal : forall f, total f s = Some s' ->
                         0 <= color_index s' < 13 /\ cache_consistent s').
  { unfold total. intros f Heq. injection Heq as <-. simpl.
    split; [exact Hci|].
    apply (cache_consistent_same s); [reflexivity|exact Hcache]. }
  assert (Hpartial : forall f, partial f s = Some s' ->
                           0 <= color_index s' < 13 /\ cache_consistent s').
  { unfold partial. intros f. destruct (f (globals s)); [|discriminate].
    cbn [bind]. intros Heq. injection Heq as <-. simpl.
    split; [exact Hci|].
    apply (cache_consistent_same s); [reflexivity|exact Hcache]. }
  assert (Hpreset : forall n, actionApplyPreset n s = Some s' ->
                          0 <= color_index s' < 13 /\ cache_consistent s').
  { intros n. unfold actionApplyPreset.
    match goal with
    | |- context [bind ?second_press _] =>
        assert (Hfirst : forall p s1, second_press = Some (p, s1) ->
                           color_index s1 = color_index s
                           /\ cache_consistent s1);
        [|destruct second_press as [[p s1]|]; [|discriminate]]
    end.
    { intros p s1.
      match goal with |- context [if ?c then _ else _] => destruct c end.
      - destruct (presetButtonsConfigured s) as [[m s2]|] eqn:Hp;
          [|discriminate].
        cbn [bind]. intros Heq. injection Heq as _ <-.
        split; [apply (presetButtonsConfigured_frame s s2 m Hp)|].
        exact (presetButtonsConfigured_keeps s s2 m Hp Hcache).
      - intros Heq. injection Heq as _ <-. tauto. }
    destruct (Hfirst p s1 eq_refl) as (Hci1 & Hcache1). cbn [bind].
    destruct (applyPreset p (globals s1)) as [applied g].
    match goal with
    | |- context [bind ?fallback _] => destruct fallback as [g1|]
    end; [|discriminate].
    cbn [bind]. intros Heq. injection Heq as <-. simpl.
    split; [rewrite Hci1; exact Hci|].
    apply (cache_consistent_same s1); [reflexivity|exact Hcache1]. }
  assert (Hrotate : actionColorRotate s = Some s' ->
                    0 <= color_index s' < 13 /\ cache_consistent s').
  { unfold actionColorRotate.
    destruct (color_index s <? 0); [discriminate|].
    destruct (nth_error actionColorRotate_colors (Z.to_nat (color_index s)));
      [|discriminate].
    cbn [bind]. intros Heq. injection Heq as <-. simpl.
    split.
    - rewrite Z.rem_mod_nonneg by lia. unfold to_byte.
      pose proof (Z.mod_pos_bound (color_index s + 1) 13 ltac:(lia)).
      rewrite Z.mod_small by lia. lia.
    - apply (cache_consistent_same s); [reflexivity|exact Hcache]. }
  revert Hfn.
  destruct a; cbv beta iota delta [actions default_Action _action_fn];
    intros Hfn;
    first [ exact (Htotal _ Hfn)
          | exact (Hpartial _ Hfn)
          | exact (Hpreset _ Hfn)
          | exact (Hrotate Hfn) ].
Qed.

Lemma Action_call_invariant (this : ActionType) (s s' : State) :
  Action_call this s = Some s' ->
  ir_invariant s -> ir_invariant s'.
Proof.
  intros Hcall Hinv. destruct (suppressed this s) eqn:Hsup.
  - rewrite (Action_call_suppressed this s Hsup) in Hcall.
    injection Hcall as <-. exact Hinv.
  - rewrite (Action_call_executes this s Hsup) in Hcall.
    destruct (_action_fn (actions this) (entering this s)) as [s_fn|] eqn:Hfn;
      [|discriminate].
    cbn [bind] in Hcall. injection Hcall as <-.
    assert (Hentering : ir_invariant (entering this s)).
    { destruct Hinv as (Hci & Hcount & Hcache). unfold entering.
      destruct (is_lastRepeatableAction this s); simpl;
        (split; [exact Hci|]); (split; [|
          apply (cache_consistent_same s); [reflexivity|exact Hcache]]).
      - unfold to_byte. apply Z.mod_pos_bound. lia.
      - first [lia | split; [discriminate|reflexivity]]. }
    destruct (action_fn_invariant this _ _ Hfn Hentering)
      as (Hci & Hcount & Hcache).
    split; [exact Hci|]. split; [exact Hcount|].
    apply (cache_consistent_same s_fn); [reflexivity|exact Hcache].
Qed.

Lemma handleIRCode_invariant (code : Z) (s s' : State) :
  handleIRCode code s = Some s' ->
  ir_invariant s -> ir_invariant s'.
Proof.
  unfold handleIRCode. destruct (code =? 0xFFFFFFFF).
  - unfold repeatLast. destruct (_lastRepeatableAction s) as [last|].
    + apply Action_call_invariant.
    + intros Heq. injection Heq as <-. tauto.
  - destruct (remoteMapping (irEnabled (globals s))) as [mapping|];
      [|discriminate]. cbn [bind].
    destruct (handleIRCode_loop mapping code) as [[[a|] reads]|];
      [| |discriminate]; cbn [bind].
    + intros Hcall Hinv. apply (Action_call_invariant a _ _ Hcall).
      destruct Hinv as (Hci & Hcount & Hcache).
      split; [exact Hci|]. split; [exact Hcount|].
      apply (cache_consistent_same s); [reflexivity|exact Hcache].
    + intros Heq. injection Heq as <-. intros (Hci & Hcount & Hcache).
      split; [exact Hci|]. split; [exact Hcount|].
      apply (cache_consistent_same s); [reflexivity|exact Hcache].
Qed.

Lemma ir_invariant_same (s s' : State) :
  color_index s' = color_index s ->
  _repeat_count s' = _repeat_count s ->
  preset_results s' = preset_results s ->
  ir_invariant s -> ir_invariant s'.
Proof.
  intros Hci Hcount Hres (H1 & H2 & H3). unfold ir_invariant.
  rewrite Hci, Hcount. split; [exact H1|]. split; [exact H2|].
  exact (cache_consistent_same s s' Hres H3).
Qed.

Lemma handleIR_invariant (s s' : State) :
  handleIR s = Some s' -> ir_invariant s -> ir_invariant s'.
Proof.
  unfold handleIR.
  destruct ((irEnabled (globals s) =? 0)
            || (ConfigurableRemoteCount <=? irEnabled (globals s))).
  { destruct (irrecv s); intros Heq; injection Heq as <-;
      apply ir_invariant_same; reflexivity. }
  destruct (irrecv s) as [receiver|].
  2:{ intros Heq. injection Heq as <-. apply ir_invariant_same; reflexivity. }
  destruct (sub_uint32 (millis (globals s)) (irCheckedTime s) <? 120).
  { intros Heq. injection Heq as <-. tauto. }
  destruct (decode receiver) as [[value|] receiver'].
  2:{ intros Heq. injection Heq as <-. apply ir_invariant_same; reflexivity. }
  destruct (to_uint32 value =? 0).
  { intros Heq. injection Heq as <-. apply ir_invariant_same; reflexivity. }
  intros Hdispatch Hinv.
  apply (handleIRCode_invariant _ _ _ Hdispatch).
  revert Hinv. apply ir_invariant_same; reflexivity.
Qed.

(** X15. A key of the selected remote received on a polling step: the
    receiver is held, 120 ms or more have elapsed since the last poll, the
    decoder delivers a value whose low 32 bits are the code of an entry of
    the mapping with no entry ahead of it that holds that code or is null,
    and the action of the entry is not the last one.  Then the step takes
    the clock as the time of the last poll, resumes the decoder, reports the
    code, calls the function of the action once and notifies once, in that
    order, and records the action as the last one with the counter at 1. *)
Theorem X15_received_key_performs_action
    (s : State) (receiver receiver' : IRrecv) (value : Z)
    (before after : list KeyMap) (k : KeyMap) :
  configured s ->
  irrecv s = Some receiver ->
  120 <= elapsed_since (irCheckedTime s) s ->
  decode receiver = (Some value, receiver') ->
  irCode k = value mod 2 ^ 32 ->
  irCode k <> 0 ->
  irCode k <> 0xFFFFFFFF ->
  remoteMapping (irEnabled (globals s)) = Some (before ++ k :: after) ->
  Forall (fun e => irCode e <> 0 /\ irCode e <> irCode k) before ->
  _lastRepeatableAction s <> Some (actionType k) ->
  exists s',
    handleIR s = Some s'
    /\ events_of s s'
       = [ call_decode true; call_resume; Serial_printf_IR_recv (irCode k);
           DEBUG_PRINTF_Performing_Action (name (actions (actionType k)));
           call_action_fn (actionType k);
           call_colorUpdated NOTIFIER_CALL_MODE_BUTTON ]
    /\ _lastRepeatableAction s' = Some (actionType k)
    /\ _repeat_count s' = 1
    /\ _last_action_time s' = millis (globals s)
    /\ irrecv s' = Some (resume receiver')
    /\ irCheckedTime s' = millis (globals s).
Proof.
  intros Hconf Hrecv Hrate Hdecode Hcode Hnz Hrepeat Hmap Hbefore Hfresh.
  pose proof (proj1 Hconf) as Hsel.
  unfold handleIR.
  replace ((irEnabled (globals s) =? 0)
           || (ConfigurableRemoteCount <=? irEnabled (globals s)))
    with false
    by (symmetry; apply orb_false_iff; split;
        [apply Z.eqb_neq|apply Z.leb_gt]; lia).
  rewrite Hrecv. fold (elapsed_since (irCheckedTime s) s).
  replace (elapsed_since (irCheckedTime s) s <? 120) with false
    by (symmetry; apply Z.ltb_ge; exact Hrate).
  rewrite Hdecode. unfold to_uint32. rewrite <- Hcode.
  replace (irCode k =? 0) with false by (symmetry; apply Z.eqb_neq; exact Hnz).
  match goal with
  | |- exists s', handleIRCode _ ?s0 = Some s' /\ _ => set (dispatching := s0)
  end.
  assert (Hloop : handleIRCode_loop (before ++ k :: after) (irCode k)
                  = Some (Some (actionType k), S (List.length before))).
  { rewrite handleIRCode_loop_app by assumption. simpl.
    apply Z.eqb_neq in Hnz. rewrite Hnz, Z.eqb_refl.
    simpl. rewrite Nat.add_1_r. reflexivity. }
  rewrite (handleIRCode_found (irCode k) dispatching _ _ _ Hrepeat Hmap Hloop).
  set (s0 := count_reads (S (List.length before)) dispatching).
  assert (Hconf0 : configured s0)
    by (apply (configured_same s); [reflexivity|reflexivity|exact Hconf]).
  assert (Hfresh0 : is_lastRepeatableAction (actionType k) s0 = false)
    by (apply is_lastRepeatableAction_false; exact Hfresh).
  assert (Hsup : suppressed (actionType k) s0 = false)
    by (unfold suppressed; rewrite Hfresh0; reflexivity).
  destruct (Action_call_runs _ s0 Hsup Hconf0)
    as (s_fn & Hfn & Hcall & Hframe & Htrace).
  exists (notified s_fn). split; [exact Hcall|].
  destruct Hframe as (Hlast & Hcount & Hstamp & Hkeep & Htime & _).
  split; [|split; [|split; [|split; [|split]]]].
  - apply events_of_app. rewrite Htrace. unfold entering. rewrite Hfresh0.
    simpl. repeat rewrite <- app_assoc. reflexivity.
  - simpl. rewrite Hlast. unfold entering. rewrite Hfresh0. reflexivity.
  - simpl. rewrite Hcount. unfold entering. rewrite Hfresh0. reflexivity.
  - simpl. rewrite Hstamp. unfold entering. rewrite Hfresh0. reflexivity.
  - simpl. rewrite Hkeep. unfold entering. rewrite Hfresh0. reflexivity.
  - simpl. rewrite Htime. unfold entering. rewrite Hfresh0. reflexivity.
Qed.

(** X16. The statics at program start satisfy the invariant: the index of
    the colour rotation inside [colors], the repeat counter a byte, the
    preset cache consistent.  From a state that satisfies it, with the
    selector a byte and the effect and palette counts not zero, a step of
    the poller returns, whatever the selector and whatever the decoder
    delivers, and the state it leaves satisfies the invariant again: no
    step indexes [buttonActions], the preset cache or [colors] out of
    range, follows the null mapping or runs off a key map. *)
Theorem X16_poller_step_is_safe :
  (forall g, ir_invariant (boot g))
  /\ (forall s,
        ir_invariant s ->
        0 <= irEnabled (globals s) ->
        MODE_COUNT <> 0 ->
        getPaletteCount (globals s) <> 0 ->
        exists s', handleIR s = Some s' /\ ir_invariant s').
Proof.
  split.
  - intros g. split; [simpl; lia|]. split; [simpl; lia|].
    apply cache_consistent_boot.
  - intros s Hinv Hbyte Hmode Hpal.
    destruct (handleIR_defined s Hbyte Hmode Hpal (proj1 Hinv)) as (s' & Hstep).
    exists s'. split; [exact Hstep|]. exact (handleIR_invariant s s' Hstep Hinv).
Qed.

(** X14. A step that reports no code on [Serial] has dispatched nothing:
    the globals, the repeat state, the preset cache and the other statics
    of the actions are as they were (1).  A decoded value whose low 32 bits
    are zero is such a case, whatever its high bits: the decoder is asked
    and resumed, and nothing else happens (2). *)
Theorem X14_step_without_dispatch :
  (forall s s',
      handleIR s = Some s' ->
      existsb is_IR_recv (events_of s s') = false ->
      globals s' = globals s
      /\ _lastRepeatableAction s' = _lastRepeatableAction s
      /\ _repeat_count s' = _repeat_count s
      /\ _last_action_time s' = _last_action_time s
      /\ preset_results s' = preset_results s
      /\ color_index s' = color_index s
      /\ presetSelectTime s' = presetSelectTime s
      /\ keymap_reads s' = keymap_reads s)
  /\ (forall s receiver value receiver',
        1 <= irEnabled (globals s) < ConfigurableRemoteCount ->
        irrecv s = Some receiver ->
        120 <= elapsed_since (irCheckedTime s) s ->
        decode receiver = (Some value, receiver') ->
        value mod 2 ^ 32 = 0 ->
        exists s',
          handleIR s = Some s'
          /\ events_of s s' = [call_decode true; call_resume]
          /\ irrecv s' = Some (resume receiver')
          /\ irCheckedTime s' = millis (globals s)).
Proof.
  split.
  - intros s s'. unfold handleIR.
    destruct ((irEnabled (globals s) =? 0)
              || (ConfigurableRemoteCount <=? irEnabled (globals s))).
    { destruct (irrecv s); intros Heq; injection Heq as <-; intros _;
        repeat split; reflexivity. }
    destruct (irrecv s) as [receiver|].
    2:{ intros Heq. injection Heq as <-. intros _. repeat split; reflexivity. }
    destruct (sub_uint32 (millis (globals s)) (irCheckedTime s) <? 120).
    { intros Heq. injection Heq as <-. intros _. repeat split; reflexivity. }
    destruct (decode receiver) as [[value|] receiver'].
    2:{ intros Heq. injection Heq as <-. intros _. repeat split; reflexivity. }
    destruct (to_uint32 value =? 0).
    { intros Heq. injection Heq as <-. intros _. repeat split; reflexivity. }
    intros Hdispatch Hnone. exfalso.
    apply handleIRCode_dispatch_frame in Hdispatch.
    destruct Hdispatch as (_ & _ & events & Htrace & _).
    simpl in Htrace.
    rewrite (events_of_app s s'
               ([call_decode true; call_resume;
                 Serial_printf_IR_recv (to_uint32 value)] ++ events))
      in Hnone
      by (rewrite Htrace; repeat rewrite <- app_assoc; reflexivity).
    simpl in Hnone. discriminate Hnone.
  - intros s receiver value receiver' Hsel Hrecv Hrate Hdecode Hlow.
    unfold handleIR.
    replace ((irEnabled (globals s) =? 0)
             || (ConfigurableRemoteCount <=? irEnabled (globals s)))
      with false
      by (symmetry; apply orb_false_iff; split;
          [apply Z.eqb_neq|apply Z.leb_gt]; lia).
    rewrite Hrecv. fold (elapsed_since (irCheckedTime s) s).
    replace (elapsed_since (irCheckedTime s) s <? 120) with false
      by (symmetry; apply Z.ltb_ge; exact Hrate).
    rewrite Hdecode. unfold to_uint32. rewrite Hlow. simpl (0 =? 0).
    cbv iota. eexists. split; [reflexivity|].
    split; [|split; reflexivity].
    apply events_of_app. simpl. rewrite <- app_assoc. reflexivity.
Qed.

(** X17. After a step that starts with a byte selector the receiver is
    held exactly when that selector is the one of a remote: a step never
    leaves a receiver behind a disabled selector, and never leaves a
    selected remote without one. *)
Theorem X17_receiver_held_iff_selected (s s' : State) :
  0 <= irEnabled (globals s) ->
  handleIR s = Some s' ->
  (irrecv s' <> None <-> 1 <= irEnabled (globals s) < ConfigurableRemoteCount).
Proof.
  intros Hbyte. unfold handleIR.
  destruct ((irEnabled (globals s) =? 0)
            || (ConfigurableRemoteCount <=? irEnabled (globals s))) eqn:Htest.
  - apply orb_true_iff in Htest.
    assert (Hoff : ~ 1 <= irEnabled (globals s) < ConfigurableRemoteCount).
    { destruct Htest as [H0|Hhigh];
        [apply Z.eqb_eq in H0|apply Z.leb_le in Hhigh]; lia. }
    destruct (irrecv s) eqn:Hrecv; intros Heq; injection Heq as <-; simpl;
      [|rewrite Hrecv]; split; intros Hx; contradiction || tauto.
  - apply orb_false_iff in Htest. destruct Htest as (H0 & Hhigh).
    apply Z.eqb_neq in H0. apply Z.leb_gt in Hhigh.
    assert (Hon : 1 <= irEnabled (globals s) < ConfigurableRemoteCount) by lia.
    intros Hstep. split; [intros _; exact Hon|]. intros _. revert Hstep.
    destruct (irrecv s) as [receiver|] eqn:Hrecv.
    2:{ intros Heq. injection Heq as <-. discriminate. }
    destruct (sub_uint32 (millis (globals s)) (irCheckedTime s) <? 120).
    { intros Heq. injection Heq as <-. rewrite Hrecv. discriminate. }
    destruct (decode receiver) as [[value|] receiver'].
    2:{ intros Heq. injection Heq as <-. discriminate. }
    destruct (to_uint32 value =? 0).
    { intros Heq. injection Heq as <-. discriminate. }
    intros Hdispatch. apply handleIRCode_dispatch_frame in Hdispatch.
    destruct Hdispatch as (Hkeep & _). rewrite Hkeep. discriminate.
Qed.
End PollerFurther.

(** ** The properties on the stand-in firmware *)

#[local] Existing Instance demo_Externals.
#[local] Existing Instance demo_Collaborators.

Lemma demo_configured (selector now : Z) (s : State) :
  globals s = demo_globals selector now ->
  color_index s = 0 ->
  1 <= selector < 12 ->
  configured s.
Proof.
  intros Hg Hci Hsel. unfold configured. rewrite Hg, Hci.
  repeat split; simpl; unfold ConfigurableRemoteCount; try lia;
    vm_compute; discriminate.
Qed.

(** The power toggle pressed at 1000 and again at 1300 is suppressed; again
    at 1600 it is performed. *)
Lemma C1_debounce_witness :
  Action_call Action_PowerToggle (demo_pressed 6 Action_PowerToggle 1000 1300)
  = Some (demo_pressed 6 Action_PowerToggle 1000 1300)
  /\ exists s_fn,
       _action_fn (actions Action_PowerToggle)
         (entering Action_PowerToggle
            (demo_pressed 6 Action_PowerToggle 1000 1600)) = Some s_fn
       /\ Action_call Action_PowerToggle
            (demo_pressed 6 Action_PowerToggle 1000 1600)
          = Some (notified s_fn)
       /\ trace (notified s_fn) =
            trace (demo_pressed 6 Action_PowerToggle 1000 1600)
              ++ [ Serial_println "Repeating Action";
                   DEBUG_PRINTF_Performing_Action
                     (name (actions Action_PowerToggle));
                   call_action_fn Action_PowerToggle;
                   call_colorUpdated NOTIFIER_CALL_MODE_BUTTON ].
Proof.
  split.
  - apply (proj1 (C1_debounce Action_PowerToggle
                    (demo_pressed 6 Action_PowerToggle 1000 1300) eq_refl)).
    + reflexivity.
    + vm_compute. reflexivity.
  - apply (proj2 (C1_debounce Action_PowerToggle
                    (demo_pressed 6 Action_PowerToggle 1000 1600) eq_refl)).
    + right. vm_compute. discriminate.
    + apply (demo_configured 6 1600); [reflexivity|reflexivity|lia].
Defined.

(** The first preset applied at 1000: the function takes 700 ms and the
    notifier 3 ms, and the stamp is 1000. *)
Lemma C8_stamp_before_operation_witness :
  exists s_fn,
    _action_fn (actions Action_Preset_1)
      (entering Action_Preset_1 (demo_boot 1 1000)) = Some s_fn
    /\ globals (entering Action_Preset_1 (demo_boot 1 1000))
       = globals (demo_boot 1 1000)
    /\ _last_action_time (entering Action_Preset_1 (demo_boot 1 1000))
       = millis (globals (demo_boot 1 1000))
    /\ Action_call Action_Preset_1 (demo_boot 1 1000) = Some (notified s_fn)
    /\ _last_action_time (notified s_fn) = millis (globals (demo_boot 1 1000)).
Proof.
  apply (C8_stamp_before_operation Action_Preset_1 (demo_boot 1 1000)).
  - reflexivity.
  - apply (demo_configured 1 1000); [reflexivity|reflexivity|lia].
Defined.

Example stamp_excludes_operation_time :
  option_map (fun s => (_last_action_time s, millis (globals s)))
    (Action_call Action_Preset_1 (demo_boot 1 1000))
  = Some (1000, 1703).
Proof. vm_compute. reflexivity. Qed.

(** Brightness up repeated 10 ms after it was pressed. *)
Lemma C9_repeat_counter_byte_witness :
  exists s_fn,
    _action_fn (actions Action_Bright_Up)
      (entering Action_Bright_Up (demo_pressed 1 Action_Bright_Up 1000 1010))
    = Some s_fn
    /\ Action_call Action_Bright_Up (demo_pressed 1 Action_Bright_Up 1000 1010)
       = Some (notified s_fn)
    /\ _repeat_count (notified s_fn) = 2.
Proof.
  destruct (C9_repeat_counter_byte Action_Bright_Up
              (demo_pressed 1 Action_Bright_Up 1000 1010) eq_refl
              (demo_configured 1 1010
                 (demo_pressed 1 Action_Bright_Up 1000 1010)
                 eq_refl eq_refl ltac:(lia)))
    as (s_fn & Hfn & Hcall & _ & _ & _ & Hrepeat).
  exists s_fn. split; [exact Hfn|]. split; [exact Hcall|].
  apply (proj1 (proj2 (Hrepeat eq_refl))). simpl. lia.
Defined.

(** C9 as it is stated fails: brightness up held for 256 invocations in a
    row, each of them a repeat of the one before; the counter stands at 255
    after the 255th and at 0 after the 256th, so it did not increase. *)
Lemma C9_counter_wraps_at_256 :
  _is_repeatable (actions Action_Bright_Up) = true
  /\ option_map (fun s => (_lastRepeatableAction s, _repeat_count s))
       (Action_calls (repeat Action_Bright_Up 255) (demo_boot 1 1000))
     = Some (Some Action_Bright_Up, 255)
  /\ option_map (fun s => (_lastRepeatableAction s, _repeat_count s))
       (Action_calls (repeat Action_Bright_Up 256) (demo_boot 1 1000))
     = Some (Some Action_Bright_Up, 0).
Proof. repeat split; vm_compute; reflexivity. Qed.

(** The code 77 under the six-key remote, after the power toggle. *)
Lemma C3_unmapped_code_clears_witness :
  exists s',
    handleIRCode 77 (demo_pressed 6 Action_PowerToggle 1000 1300) = Some s'
    /\ s' = clearLastRepeatableAction
              (count_reads (S (List.length (recognized IR6_Actions)))
                 (demo_pressed 6 Action_PowerToggle 1000 1300))
    /\ trace s' = trace (demo_pressed 6 Action_PowerToggle 1000 1300)
    /\ globals s' = globals (demo_pressed 6 Action_PowerToggle 1000 1300)
    /\ _lastRepeatableAction s' = None
    /\ handleIRCode 0xFFFFFFFF s' = Some s'.
Proof.
  apply (C3_unmapped_code_clears 77
           (demo_pressed 6 Action_PowerToggle 1000 1300) IR6_Actions).
  - lia.
  - reflexivity.
  - vm_compute. intuition discriminate.
Defined.

(** The repeat code with no remote selected: nothing recorded, nothing
    done; after the power toggle and 300 ms, the early return. *)
Lemma C4_repeat_code_witness :
  handleIRCode 0xFFFFFFFF (demo_boot 0 1000) = Some (demo_boot 0 1000)
  /\ handleIRCode 0xFFFFFFFF (demo_pressed 0 Action_PowerToggle 1000 1300)
     = Action_call Action_PowerToggle
         (demo_pressed 0 Action_PowerToggle 1000 1300).
Proof.
  split.
  - exact (proj1 (proj2 (C4_repeat_code (demo_boot 0 1000))) eq_refl).
  - exact (proj1 (proj2 (proj2 (C4_repeat_code
                                  (demo_pressed 0 Action_PowerToggle 1000 1300)))
                    Action_PowerToggle eq_refl)).
Defined.

(** The selector 0 with a receiver held, and the selector 3 with none. *)
Lemma C5_disabled_and_warm_up_witness :
  (exists s',
     handleIR (demo_armed 0 1000 0 [77]) = Some s'
     /\ irrecv s' = None
     /\ (irrecv (demo_armed 0 1000 0 [77]) <> None ->
         s' = set_irrecv None
                (emit call_delete_IRrecv
                   (emit call_disableIRIn (demo_armed 0 1000 0 [77])))
         /\ events_of (demo_armed 0 1000 0 [77]) s'
            = [call_disableIRIn; call_delete_IRrecv])
     /\ (irrecv (demo_armed 0 1000 0 [77]) = None ->
         s' = demo_armed 0 1000 0 [77])
     /\ existsb is_decode (events_of (demo_armed 0 1000 0 [77]) s') = false
     /\ handleIR s' = Some s')
  /\ (exists s',
        handleIR (demo_boot 3 1000) = Some s'
        /\ irrecv s' = Some (enableIRIn (new_IRrecv irPin))
        /\ events_of (demo_boot 3 1000) s'
           = [call_new_IRrecv irPin; call_enableIRIn]
        /\ existsb is_decode (events_of (demo_boot 3 1000) s') = false).
Proof.
  split.
  - apply (proj1 (C5_disabled_and_warm_up (demo_armed 0 1000 0 [77]))).
    left. reflexivity.
  - apply (proj2 (C5_disabled_and_warm_up (demo_boot 3 1000))).
    + simpl. unfold ConfigurableRemoteCount. lia.
    + reflexivity.
Defined.

(** A step at 1000 that finds a code, and the next step at 1050. *)
Lemma C6_poll_rate_limit_witness :
  polls (demo_armed 10 1000 0 [77])
  /\ ~ polls (demo_at 1050 [78] (demo_step (demo_armed 10 1000 0 [77]))).
Proof.
  assert (Hfirst : polls (demo_armed 10 1000 0 [77])).
  { exists (demo_step (demo_armed 10 1000 0 [77])).
    split; vm_compute; reflexivity. }
  split; [exact Hfirst|]. intros Hsecond.
  apply (proj1 C6_poll_rate_limit
           [ demo_armed 10 1000 0 [77];
             demo_at 1050 [78] (demo_step (demo_armed 10 1000 0 [77])) ]
           0%nat 1%nat
           (demo_armed 10 1000 0 [77])
           (demo_at 1050 [78] (demo_step (demo_armed 10 1000 0 [77])))).
  - apply (run_step _ (demo_step (demo_armed 10 1000 0 [77]))).
    + vm_compute. reflexivity.
    + split; [vm_compute; reflexivity|].
      vm_compute. split; intros Hnone; discriminate Hnone.
    + simpl. lia.
    + apply run_last.
  - reflexivity.
  - reflexivity.
  - lia.
  - simpl. lia.
  - split; assumption.
Defined.

(** The Squeezebox remote binds one button to the tenth preset. *)
Lemma C7_preset_count_cached_when_nonzero_witness :
  exists s',
    presetButtonsConfigured (demo_boot 10 1000) = Some (1, s')
    /\ keymap_reads s' = 21%nat
    /\ presetButtonsConfigured s' = Some (1, s').
Proof.
  destruct (proj2 (proj2 (C7_preset_count_cached_when_nonzero
                            (demo_boot 10 1000) Squeezebox_Actions eq_refl))
              eq_refl)
    as (s' & Hcall & Hreads & Hcached & _).
  exists s'. split; [exact Hcall|]. split; [exact Hreads|].
  apply Hcached. reflexivity.
Defined.

(** C7 as it is stated fails: the old 24-key remote binds no button to the
    tenth preset, the first call reads its 25 entries and returns 0, and the
    second call for the same selection reads them again. *)
Lemma C7_zero_count_is_scanned_again :
  option_map (fun '(n, s) => (n, keymap_reads s)) demo_first_count
  = Some (0, 25%nat)
  /\ option_map (fun '(n, s) => (n, keymap_reads s)) demo_second_count
     = Some (0, 50%nat).
Proof. split; vm_compute; reflexivity. Qed.

(** 118 effects and 56 palettes: from the index 0 back to 19 and to 31. *)
Lemma C10_prev_steps_by_255_witness :
  (exists g',
     actionDecPreset (demo_globals 1 0) = Some g'
     /\ effectCurrent g' = 19
     /\ ~ (MODE_COUNT | 256))
  /\ (exists g',
        actionDecPalette (demo_globals 1 0) = Some g'
        /\ effectPalette g' = 31).
Proof.
  destruct (C10_prev_steps_by_255 (demo_globals 1 0))
    as ((_ & _ & g1 & Hdec1 & Hval1 & Hiff1) & (_ & _ & g2 & Hdec2 & Hval2 & _)).
  - vm_compute. split; [reflexivity|discriminate].
  - simpl. lia.
  - simpl. lia.
  - simpl. lia.
  - split.
    + exists g1. split; [exact Hdec1|]. split; [exact Hval1|].
      intros Hdiv. apply Hiff1 in Hdiv. rewrite Hval1 in Hdiv.
      vm_compute in Hdiv. discriminate Hdiv.
    + exists g2. split; [exact Hdec2|]. exact Hval2.
Defined.

(** ** The further properties on the stand-in firmware *)

Lemma X1_relativeChange_clamps_witness :
  0 <= relativeChange 250 10 0 255 <= 255
  /\ relativeChange 250 10 0 255 = Z.max 0 (Z.min 255 (250 + 10)).
Proof. apply (X1_relativeChange_clamps 250 10 0 255); lia. Defined.

Lemma X2_incBrightness_next_step_witness :
  In (incBrightness 100) brightnessSteps
  /\ 100 < incBrightness 100
  /\ forall b, In b brightnessSteps -> 100 < b -> incBrightness 100 <= b.
Proof. apply (proj1 (X2_incBrightness_next_step 100)). lia. Defined.

Lemma X3_decBrightness_previous_step_witness :
  In (decBrightness 100) brightnessSteps
  /\ decBrightness 100 < 100
  /\ forall b, In b brightnessSteps -> b < 100 -> b <= decBrightness 100.
Proof. apply (proj1 (X3_decBrightness_previous_step 100)). lia. Defined.

Lemma X4_brightness_steps_undo_witness :
  (decBrightness (incBrightness 56) = 56 <-> In 56 brightnessSteps)
  /\ (incBrightness (decBrightness 57) = 57 <-> In 57 brightnessSteps).
Proof.
  split.
  - apply (proj1 (X4_brightness_steps_undo 56 ltac:(lia))). lia.
  - apply (proj2 (X4_brightness_steps_undo 57 ltac:(lia))). lia.
Defined.

Lemma X5_speed_and_intensity_saturate_witness :
  incEffectSpeed (set_effectCurrent 5 (set_effectSpeed 250 (demo_globals 1 0)))
  = set_effectSpeed 255
      (set_effectCurrent 5 (set_effectSpeed 250 (demo_globals 1 0)))
  /\ decEffectSpeed (demo_globals 1 0) = changeHue (-10) (demo_globals 1 0).
Proof.
  split.
  - apply (proj1 (X5_speed_and_intensity_saturate
                    (set_effectCurrent 5
                       (set_effectSpeed 250 (demo_globals 1 0))))).
    simpl. lia.
  - apply (proj2 (X5_speed_and_intensity_saturate (demo_globals 1 0))).
    reflexivity.
Defined.

Lemma X6_color_rotation_cycles_witness :
  exists s',
    times 13 actionColorRotate (demo_boot 1 0) = Some s'
    /\ color_index s' = color_index (demo_boot 1 0).
Proof.
  apply (proj2 (proj2 (X6_color_rotation_cycles (demo_boot 1 0)
                         ltac:(simpl; lia)))).
Defined.

Lemma X7_next_then_previous_effect_witness :
  exists g1 g2,
    actionIncPreset (demo_globals 1 0) = Some g1
    /\ effectCurrent g1 = 1
    /\ actionDecPreset g1 = Some g2
    /\ effectCurrent g2 = 20.
Proof.
  destruct (X7_next_then_previous_effect (demo_globals 1 0))
    as (g1 & g2 & Hinc & Hval1 & _ & Hdec & Hval2 & _).
  - vm_compute. split; [reflexivity|discriminate].
  - simpl. lia.
  - exists g1, g2. repeat split; assumption.
Defined.

Lemma X8_preset_count_with_consistent_cache_witness :
  exists s',
    presetButtonsConfigured (demo_boot 10 1000)
    = Some (Z.of_nat (tenth_preset_buttons Squeezebox_Actions), s')
    /\ cache_consistent s'
    /\ globals s' = globals (demo_boot 10 1000).
Proof.
  apply (proj2 X8_preset_count_with_consistent_cache
           (demo_boot 10 1000) Squeezebox_Actions).
  - apply (proj1 X8_preset_count_with_consistent_cache).
  - reflexivity.
Defined.

Lemma X9_preset_first_press_witness :
  exists s',
    actionApplyPreset 2 (demo_boot 1 1000) = Some s'
    /\ presetSelectTime s' = 1700
    /\ keymap_reads s' = keymap_reads (demo_boot 1 1000)
    /\ currentPreset (globals s') = 2.
Proof.
  destruct (X9_preset_first_press 2 (demo_boot 1 1000) true
              (snd (demo_applyPreset 2 (demo_globals 1 1000))))
    as (s' & Hcall & Htime & Hreads & _ & Hglobals & _).
  - left. simpl. lia.
  - lia.
  - reflexivity.
  - exists s'. split; [exact Hcall|]. split; [exact Htime|].
    split; [exact Hreads|]. rewrite (Hglobals eq_refl). reflexivity.
Defined.

Lemma X10_preset_second_press_witness :
  exists s',
    actionApplyPreset 2 demo_preset_2_applied = Some s'
    /\ currentPreset (globals s') = 3.
Proof.
  destruct (X10_preset_second_press 2 demo_preset_2_applied Squeezebox_Actions
              true
              (snd (demo_applyPreset 3 (globals demo_preset_2_applied))))
    as (_ & s' & Hcall & _ & _ & Hglobals).
  - reflexivity.
  - vm_compute. split; reflexivity.
  - apply cache_consistent_boot.
  - reflexivity.
  - vm_compute. reflexivity.
  - exists s'. split; [exact Hcall|]. rewrite (Hglobals eq_refl). reflexivity.
Defined.

Lemma X11_invocation_records_action_witness :
  exists s',
    Action_call Action_PowerOn (demo_pressed 6 Action_PowerToggle 1000 1001)
    = Some s'
    /\ _lastRepeatableAction s' = Some Action_PowerOn
    /\ _repeat_count s' = 1.
Proof.
  destruct (X11_invocation_records_action Action_PowerOn
              (demo_pressed 6 Action_PowerToggle 1000 1001))
    as (s' & Hcall & Hlast & Hfresh).
  - apply (demo_configured 6 1001); [reflexivity|reflexivity|lia].
  - exists s'. split; [exact Hcall|]. split; [exact Hlast|].
    apply Hfresh. simpl. discriminate.
Defined.

(** The toggle performed 100 ms ahead of the wrap of the clock and pressed
    again 200 ms after the wrap is held back; pressed 500 ms after the wrap
    it is performed. *)
Lemma X12_debounce_window_from_start_witness :
  Action_call Action_PowerToggle (demo_at (2 ^ 32 + 200) [] demo_toggled)
  = Some (demo_at (2 ^ 32 + 200) [] demo_toggled)
  /\ suppressed Action_PowerToggle (demo_at (2 ^ 32 + 500) [] demo_toggled)
     = false.
Proof.
  split.
  - apply (X12_debounce_window_from_start Action_PowerToggle
             (demo_boot 6 (2 ^ 32 - 100)) demo_toggled
             (demo_at (2 ^ 32 + 200) [] demo_toggled)).
    + reflexivity.
    + reflexivity.
    + vm_compute. reflexivity.
    + reflexivity.
    + reflexivity.
    + vm_compute. split; [discriminate|reflexivity].
    + vm_compute. reflexivity.
  - apply (X12_debounce_window_from_start Action_PowerToggle
             (demo_boot 6 (2 ^ 32 - 100)) demo_toggled
             (demo_at (2 ^ 32 + 500) [] demo_toggled)).
    + reflexivity.
    + reflexivity.
    + vm_compute. reflexivity.
    + reflexivity.
    + reflexivity.
    + vm_compute. split; [discriminate|reflexivity].
    + vm_compute. discriminate.
Defined.

Lemma X13_mapped_code_invokes_its_action_witness :
  exists s',
    handleIRCode 14651949 (demo_boot 6 1000) = Some s'
    /\ _lastRepeatableAction s' = Some Action_PowerToggle.
Proof.
  destruct (X13_mapped_code_invokes_its_action 14651949 (demo_boot 6 1000)
              [] (tl IR6_Actions) (entry "IR6_POWER" Action_PowerToggle))
    as (s' & Hcall & Hlast & _).
  - lia.
  - lia.
  - reflexivity.
  - constructor.
  - reflexivity.
  - apply (demo_configured 6 1000); [reflexivity|reflexivity|lia].
  - exists s'. split; [exact Hcall|exact Hlast].
Defined.

Lemma X14_step_without_dispatch_witness :
  exists s',
    handleIR (demo_armed 6 1000 0 [2 ^ 32]) = Some s'
    /\ events_of (demo_armed 6 1000 0 [2 ^ 32]) s'
       = [call_decode true; call_resume]
    /\ irrecv s' = Some (resume [])
    /\ irCheckedTime s' = millis (globals (demo_armed 6 1000 0 [2 ^ 32])).
Proof.
  apply (proj2 X14_step_without_dispatch (demo_armed 6 1000 0 [2 ^ 32])
           [2 ^ 32] (2 ^ 32) []).
  - simpl. unfold ConfigurableRemoteCount. lia.
  - reflexivity.
  - vm_compute. discriminate.
  - reflexivity.
  - reflexivity.
Defined.

Lemma X15_received_key_performs_action_witness :
  exists s',
    handleIR (demo_armed 6 1000 0 [14651949]) = Some s'
    /\ _lastRepeatableAction s' = Some Action_PowerToggle
    /\ _repeat_count s' = 1.
Proof.
  destruct (X15_received_key_performs_action
              (demo_armed 6 1000 0 [14651949]) [14651949] [] 14651949
              [] (tl IR6_Actions) (entry "IR6_POWER" Action_PowerToggle))
    as (s' & Hstep & _ & Hlast & Hcount & _).
  - apply (demo_configured 6 1000); [reflexivity|reflexivity|lia].
  - reflexivity.
  - vm_compute. discriminate.
  - reflexivity.
  - reflexivity.
  - vm_compute. discriminate.
  - vm_compute. discriminate.
  - reflexivity.
  - constructor.
  - simpl. discriminate.
  - exists s'. split; [exact Hstep|]. split; [exact Hlast|exact Hcount].
Defined.

Lemma X16_poller_step_is_safe_witness :
  exists s',
    handleIR (demo_armed 10 1000 0 [2728522]) = Some s' /\ ir_invariant s'.
Proof.
  apply (proj2 X16_poller_step_is_safe (demo_armed 10 1000 0 [2728522])).
  - split; [simpl; lia|]. split; [simpl; lia|].
    intros index mapping _. left. reflexivity.
  - simpl. lia.
  - vm_compute. discriminate.
  - vm_compute. discriminate.
Defined.

Lemma X17_receiver_held_iff_selected_witness :
  irrecv (demo_step (demo_boot 6 1000)) <> None
  /\ ~ irrecv (demo_step (demo_armed 0 1000 0 [77])) <> None.
Proof.
  split.
  - apply (X17_receiver_held_iff_selected (demo_boot 6 1000)
             (demo_step (demo_boot 6 1000))).
    + simpl. lia.
    + reflexivity.
    + simpl. unfold ConfigurableRemoteCount. lia.
  - intros Hheld.
    apply (X17_receiver_held_iff_selected (demo_armed 0 1000 0 [77])
             (demo_step (demo_armed 0 1000 0 [77]))) in Hheld.
    + simpl in Hheld. lia.
    + simpl. lia.
    + reflexivity.
Defined.
